(** * Study coach: summarization-validation pipeline and QA quality loop

    A shallow embedding of [study_coach/services/summarization.py] and
    [study_coach/services/qa_dataset.py] (with the parts of
    [services/prompts.py], [services/database.py] and [models/models.py]
    they call), followed by the properties established about them.

    Conventions.
    - A Python [str] is a list of Unicode code points, so that [len] counts
      what Python counts.
    - Dynamically typed data (model output, stored documents) lives in the
      universal type [value]; a Python dict is an insertion-ordered
      association list with unique keys.  Dicts that the code builds with a
      fixed set of keys (the results of the pipeline, a feedback document, a
      changelog document) are records; an optional key is an [option].
    - Python floats are IEEE binary64 numbers ([PrimFloat]).
    - Effects (completion backend, document store, uuid and clock) are
      threaded through a state-and-exception monad [M]; the state survives
      a raised exception, as it does in Python.  One request runs at a
      time.
    - The completion backend, [json.loads], [uuid.uuid4] and the rendering
      by [str] of a float, a list, a dict or a datetime are not code of the
      repository: they are the fields of an [environment], and every
      general statement holds for all environments.
    - Exceptions carry their class and the text of [str(e)], with the
      wording of CPython 3.11.
    - The f-string prompt templates are kept symbolic: a prompt is the name
      of its template and the values interpolated into it.
    - The document store keeps its documents in insertion order, its
      operations succeed, and the [_id] key it adds is left out. *)

From Stdlib Require Import ZArith List Bool String Ascii Lia Uint63 PrimFloat
  DecimalString.
Import ListNotations.
#[local] Set Warnings "-inexact-float,-register-all".
#[local] Open Scope Z_scope.

(* ===================================================================== *)
(** * Python strings, values and exceptions *)
(* ===================================================================== *)

Module Py.

(** ** Strings *)

Definition char := N.
Definition str := list char.

(** An ASCII literal of the source. *)
Definition lit (s : string) : str := map N_of_ascii (list_ascii_of_string s).

Definition NEWLINE : char := 10%N.
Definition SPACE : char := 32%N.
(** U+2022 BULLET, the first character of the source literal ['• ']. *)
Definition BULLET : char := 8226%N.

Fixpoint str_eqb (a b : str) : bool :=
  match a, b with
  | [], [] => true
  | x :: a', y :: b' => N.eqb x y && str_eqb a' b'
  | _, _ => false
  end.

(** [len(x)] *)
Definition len {A} (l : list A) : Z := Z.of_nat (List.length l).

(** Truth value of a sequence: [if l:] *)
Definition nonempty {A} (l : list A) : bool :=
  match l with [] => false | _ => true end.

(** [str.isspace] on one character (CPython's [_PyUnicode_IsWhitespace]). *)
Definition isspace (c : char) : bool :=
  let c := Z.of_N c in
  ((9 <=? c) && (c <=? 13)) || ((28 <=? c) && (c <=? 32))
  || (c =? 133) || (c =? 160) || (c =? 5760)
  || ((8192 <=? c) && (c <=? 8202))
  || (c =? 8232) || (c =? 8233) || (c =? 8239) || (c =? 8287) || (c =? 12288).

Fixpoint lstrip (s : str) : str :=
  match s with
  | c :: s' => if isspace c then lstrip s' else s
  | [] => []
  end.

Definition rstrip (s : str) : str := rev (lstrip (rev s)).

(** [s.strip()] *)
Definition strip (s : str) : str := rstrip (lstrip s).

(** [s.startswith(prefix)] *)
Fixpoint startswith (prefix s : str) : bool :=
  match prefix, s with
  | [], _ => true
  | p :: prefix', c :: s' => N.eqb p c && startswith prefix' s'
  | _ :: _, [] => false
  end.

(** Slicing [l[lo:hi]] with Python's treatment of absent, negative and
    out-of-range bounds. *)
Definition clamp_index (n : Z) (i : Z) : Z :=
  if i <? 0 then Z.max (i + n) 0 else Z.min i n.

Definition slice {A} (lo hi : option Z) (l : list A) : list A :=
  let n := len l in
  let lo' := match lo with Some i => clamp_index n i | None => 0 end in
  let hi' := match hi with Some i => clamp_index n i | None => n end in
  firstn (Z.to_nat (hi' - lo')) (skipn (Z.to_nat lo') l).

(** [s.find(c)] for a one-character needle: first index, or -1. *)
Fixpoint find_from (c : char) (s : str) (i : Z) : Z :=
  match s with
  | [] => -1
  | x :: s' => if N.eqb x c then i else find_from c s' (i + 1)
  end.
Definition find (c : char) (s : str) : Z := find_from c s 0.

(** [s.rfind(c)]: last index, or -1. *)
Fixpoint rfind_from (c : char) (s : str) (i : Z) (last : Z) : Z :=
  match s with
  | [] => last
  | x :: s' => rfind_from c s' (i + 1) (if N.eqb x c then i else last)
  end.
Definition rfind (c : char) (s : str) : Z := rfind_from c s 0 (-1).

(** [s.split(sep)] for a one-character separator. *)
Fixpoint split_acc (sep : char) (s : str) (cur : str) : list str :=
  match s with
  | [] => [rev cur]
  | x :: s' => if N.eqb x sep then rev cur :: split_acc sep s' []
               else split_acc sep s' (x :: cur)
  end.
Definition split (sep : char) (s : str) : list str := split_acc sep s [].

(** [sep.join(parts)] *)
Fixpoint join (sep : str) (parts : list str) : str :=
  match parts with
  | [] => []
  | [p] => p
  | p :: rest => p ++ sep ++ join sep rest
  end.

(** ** Floats *)

(** [float(n)] for a length or a count (exact below 2^53). *)
Definition float_of_nat (n : nat) : float :=
  PrimFloat.of_uint63 (Uint63.of_Z (Z.of_nat n)).

(** ** Values *)

Inductive value : Type :=
| VNone
| VBool (b : bool)
| VInt (z : Z)
| VFloat (f : float)
| VStr (s : str)
| VList (l : list value)
| VDict (d : list (str * value))
| VDatetime (t : nat).

Definition dict := list (str * value).

(** Truth value testing. *)
Definition truthy (v : value) : bool :=
  match v with
  | VNone => false
  | VBool b => b
  | VInt z => negb (z =? 0)
  | VFloat f => negb (PrimFloat.eqb f 0%float)
  | VStr s => match s with [] => false | _ => true end
  | VList l => match l with [] => false | _ => true end
  | VDict d => match d with [] => false | _ => true end
  | VDatetime _ => true
  end.

(** The name of the type of [v], as error messages print it. *)
Definition type_name (v : value) : string :=
  match v with
  | VNone => "NoneType"
  | VBool _ => "bool"
  | VInt _ => "int"
  | VFloat _ => "float"
  | VStr _ => "str"
  | VList _ => "list"
  | VDict _ => "dict"
  | VDatetime _ => "datetime.datetime"
  end.

(** [str(z)] of an [int]. *)
Definition decimal (z : Z) : str := lit (NilZero.string_of_int (Z.to_int z)).

(** ** Dicts *)

Fixpoint dict_get {V} (k : str) (d : list (str * V)) : option V :=
  match d with
  | [] => None
  | (k', v) :: d' => if str_eqb k k' then Some v else dict_get k d'
  end.

(** [k in d] *)
Definition dict_mem {V} (k : str) (d : list (str * V)) : bool :=
  match dict_get k d with Some _ => true | None => false end.

(** [d[k] = v]: an existing key keeps its position, a new key goes last. *)
Fixpoint dict_set {V} (k : str) (v : V) (d : list (str * V)) : list (str * V) :=
  match d with
  | [] => [(k, v)]
  | (k', v') :: d' =>
      if str_eqb k k' then (k', v) :: d' else (k', v') :: dict_set k v d'
  end.

(** [d.pop(k)], for the dict that is left. *)
Fixpoint dict_pop {V} (k : str) (d : list (str * V)) : list (str * V) :=
  match d with
  | [] => []
  | (k', v) :: d' => if str_eqb k k' then d' else (k', v) :: dict_pop k d'
  end.

(** [{**d, **upd}] and the effect of [$set] on a stored document. *)
Definition dict_update (d upd : dict) : dict :=
  fold_left (fun acc kv => dict_set (fst kv) (snd kv) acc) upd d.

(** ** Exceptions *)

Record exception := { exc_type : string; exc_msg : str }.

Inductive exc (A : Type) : Type :=
| Ret (a : A)
| Raise (e : exception).
Arguments Ret {A} a.
Arguments Raise {A} e.

Definition AttributeError (v : value) (attr : string) : exception :=
  {| exc_type := "AttributeError";
     exc_msg := lit "'" ++ lit (type_name v) ++ lit "' object has no attribute '"
                ++ lit attr ++ lit "'" |}.

Definition TypeError (msg : string) : exception :=
  {| exc_type := "TypeError"; exc_msg := lit msg |}.

Definition KeyError (k : str) : exception :=
  {| exc_type := "KeyError"; exc_msg := lit "'" ++ k ++ lit "'" |}.

Definition IndexError (msg : string) : exception :=
  {| exc_type := "IndexError"; exc_msg := lit msg |}.

Definition ValueError (msg : str) : exception :=
  {| exc_type := "ValueError"; exc_msg := msg |}.

(** The [ZeroDivisionError] of [a % 0] on integers. *)
Definition ZeroDivisionError : exception :=
  {| exc_type := "ZeroDivisionError";
     exc_msg := lit "integer modulo by zero" |}.

Definition not_subscriptable (v : value) : exception :=
  TypeError ("'" ++ type_name v ++ "' object is not subscriptable").

(** [isinstance(e, json.JSONDecodeError)] *)
Definition is_JSONDecodeError (e : exception) : bool :=
  String.eqb (exc_type e) "JSONDecodeError".

(** [v.get(k, default)]: only dicts have [get]. *)
Definition get (v : value) (k : string) (default : value) : exc value :=
  match v with
  | VDict d => Ret (match dict_get (lit k) d with Some x => x | None => default end)
  | _ => Raise (AttributeError v "get")
  end.

(** [v[k]] for a string key. *)
Definition getitem (v : value) (k : string) : exc value :=
  match v with
  | VDict d => match dict_get (lit k) d with
               | Some x => Ret x
               | None => Raise (KeyError (lit k))
               end
  | VList _ => Raise (TypeError "list indices must be integers or slices, not str")
  | VStr _ => Raise (TypeError "string indices must be integers, not 'str'")
  | _ => Raise (not_subscriptable v)
  end.

(** Iterating over a value: lists yield their items, strings their
    characters, dicts their keys; nothing else is iterable. *)
Definition iter (v : value) : exc (list value) :=
  match v with
  | VList l => Ret l
  | VStr s => Ret (map (fun c => VStr [c]) s)
  | VDict d => Ret (map (fun kv => VStr (fst kv)) d)
  | _ => Raise (TypeError ("'" ++ type_name v ++ "' object is not iterable"))
  end.

(** [v[:hi]] *)
Definition slice_to (v : value) (hi : Z) : exc value :=
  match v with
  | VList l => Ret (VList (slice None (Some hi) l))
  | VStr s => Ret (VStr (slice None (Some hi) s))
  | VDict _ => Raise (TypeError "unhashable type: 'slice'")
  | _ => Raise (not_subscriptable v)
  end.

(** [len(v)] on a dynamically typed value. *)
Definition vlen (v : value) : exc Z :=
  match v with
  | VList l => Ret (len l)
  | VStr s => Ret (len s)
  | VDict d => Ret (len d)
  | _ => Raise (TypeError ("object of type '" ++ type_name v
                           ++ "' has no len()"))
  end.

End Py.

(* ===================================================================== *)
(** * Prompt templates ([services/prompts.py] and the inline templates) *)
(* ===================================================================== *)

Module Prompts.
Import Py.

(** One entry of [sample_text] in [generate_adversarial_examples]. *)
Inductive sample :=
| SampleMultipleChoice (number : Z) (question : value) (options : list value)
    (answer : value)
| SampleAnswer (number : Z) (question : value) (correct_answer : value).

(** One line of [feedback_summary] in [_improve_question]. *)
Record feedback_line := {
  line_correct : bool;
  line_helpful : option bool;
  line_comment : option str
}.

(** The answer block of the improvement prompt. *)
Inductive answer_block :=
| OptionsAndAnswer (options : list value) (correct_answer : value)
| AnswerOnly (correct_answer : value).

(** The f-string templates are kept symbolic: a prompt is its template
    together with the values interpolated into it. *)
Inductive prompt :=
| DocumentSummaryPrompt (text : str) (max_points : Z) (topics_str : option str)
| TopicExtractionPrompt (text : str)
| SummaryValidationPrompt (summary_points : list str) (original_text : str)
| StrongerPrompt (summary_prompt : prompt)
| AdversarialFromExistingPrompt (num_examples : Z) (sample_text : list sample)
    (content : str)
| AdversarialFromScratchPrompt (num_examples : Z) (content : str)
| ImprovementPrompt (question question_type : value) (answer : answer_block)
    (feedback_summary : list feedback_line) (content : str).

(** The [TypeError] of [str.join] at an item that is not a [str]. *)
Definition not_str_item (i : nat) (item : value) : exception :=
  TypeError ("sequence item " ++ NilZero.string_of_uint (Nat.to_uint i)
             ++ ": expected str instance, " ++ type_name item ++ " found").

(** The items of [sep.join(items)], from index [i] on: every item must be
    a [str], and the first that is not one is reported. *)
Fixpoint join_items (i : nat) (items : list value) : exc (list str) :=
  match items with
  | [] => Ret []
  | VStr s :: rest =>
      match join_items (S i) rest with
      | Ret parts => Ret (s :: parts)
      | Raise e => Raise e
      end
  | item :: _ => Raise (not_str_item i item)
  end.

(** [sep.join(v)] *)
Definition join_value (sep : str) (v : value) : exc str :=
  match iter v with
  | Raise _ => Raise (TypeError "can only join an iterable")
  | Ret items =>
      match join_items 0 items with
      | Ret parts => Ret (join sep parts)
      | Raise e => Raise e
      end
  end.

(** [SummarizationPrompts.get_document_summary_prompt] *)
Definition get_document_summary_prompt
    (text : str) (max_points : Z) (topic_keywords : value) : exc prompt :=
  if truthy topic_keywords then
    match vlen topic_keywords with
    | Raise e => Raise e
    | Ret n =>
        if 0 <? n then
          match join_value (lit ", ") topic_keywords with
          | Raise e => Raise e
          | Ret topics_str =>
              Ret (DocumentSummaryPrompt text max_points (Some topics_str))
          end
        else Ret (DocumentSummaryPrompt text max_points None)
    end
  else Ret (DocumentSummaryPrompt text max_points None).

(** [SummarizationPrompts.get_topic_extraction_prompt] *)
Definition get_topic_extraction_prompt (text : str) : prompt :=
  TopicExtractionPrompt text.

(** [SummarizationPrompts.get_summary_validation_prompt] *)
Definition get_summary_validation_prompt
    (summary_points : list str) (original_text : str) : prompt :=
  SummaryValidationPrompt summary_points (slice None (Some 5000) original_text).

End Prompts.

(* ===================================================================== *)
(** * The world: completion backend, document store, uuid and clock *)
(* ===================================================================== *)

Module World.
Import Py Prompts.

(** The two temperature presets of the completion client. *)
Inductive PromptType := FACTUAL | CREATIVE.

(** A call to the completion backend, with the arguments the source passes. *)
Inductive request :=
| generate_completion
    (prompt : prompt) (model : str) (temperature top_p : float) (max_tokens : Z)
| generate_structured_completion
    (prompt : prompt) (prompt_type : PromptType) (model : str) (max_tokens : Z)
| generate_quiz_questions
    (text : str) (num_questions : Z) (question_type : str) (model : str)
    (difficulty : str) (topics : value).

(** A feedback document, as [record_question_feedback] writes it. *)
Record FeedbackRecord := {
  feedback_id : str;
  feedback_question_id : str;
  user_id : str;
  is_correct : bool;
  is_helpful : option bool;
  difficulty_rating : option Z;
  feedback_text : option str;
  feedback_created_at : nat
}.

(** The [details] of a changelog entry: a fixed or model-given text, or the
    f-string of the removal with its interpolated score. *)
Inductive details :=
| Details (text : value)
| RemovedLowQuality (quality_score : float).

(** A changelog document, as [_log_qa_change] writes it. *)
Record ChangelogEntry := {
  log_id : str;
  log_question_id : value;
  log_material_id : str;
  action : string;
  log_details : details;
  timestamp : nat;
  qa_data : dict;
  previous_data : option dict
}.

Record world := {
  calls : list request;          (* backend calls so far, oldest first *)
  materials : list str;          (* ids of the stored study materials *)
  questions : list dict;         (* collection [questions] *)
  feedback : list FeedbackRecord;(* collection [question_feedback] *)
  changelog : list ChangelogEntry; (* collection [qa_changelog] *)
  uuids : nat;                   (* uuid4 values drawn so far *)
  clock : nat                    (* readings of [datetime.now] so far *)
}.

Definition set_calls (w : world) (x : list request) : world :=
  {| calls := x; materials := materials w; questions := questions w;
     feedback := feedback w; changelog := changelog w; uuids := uuids w;
     clock := clock w |}.
Definition set_questions (w : world) (x : list dict) : world :=
  {| calls := calls w; materials := materials w; questions := x;
     feedback := feedback w; changelog := changelog w; uuids := uuids w;
     clock := clock w |}.
Definition set_feedback (w : world) (x : list FeedbackRecord) : world :=
  {| calls := calls w; materials := materials w; questions := questions w;
     feedback := x; changelog := changelog w; uuids := uuids w;
     clock := clock w |}.
Definition set_changelog (w : world) (x : list ChangelogEntry) : world :=
  {| calls := calls w; materials := materials w; questions := questions w;
     feedback := feedback w; changelog := x; uuids := uuids w;
     clock := clock w |}.
Definition set_uuids (w : world) (x : nat) : world :=
  {| calls := calls w; materials := materials w; questions := questions w;
     feedback := feedback w; changelog := changelog w; uuids := x;
     clock := clock w |}.
Definition set_clock (w : world) (x : nat) : world :=
  {| calls := calls w; materials := materials w; questions := questions w;
     feedback := feedback w; changelog := changelog w; uuids := uuids w;
     clock := x |}.

(** What the code does not define itself: the completion backend (its
    answer may depend on the calls made before), [json.loads], the
    rendering of the n-th [uuid.uuid4()], and [str(v)] for a float, a list,
    a dict or a datetime. *)
Record environment := {
  completion : list request -> request -> exc str;
  structured_completion : list request -> request -> exc value;
  quiz_questions : list request -> request -> exc (list value);
  json_loads : str -> exc value;
  uuid4 : nat -> str;
  py_str : value -> str
}.

(** ** The monad of effectful code *)

Definition M (A : Type) : Type := world -> exc A * world.

Definition ret {A} (a : A) : M A := fun w => (Ret a, w).
Definition raise {A} (e : exception) : M A := fun w => (Raise e, w).
Definition bind {A B} (c : M A) (k : A -> M B) : M B :=
  fun w => match c w with
           | (Ret a, w') => k a w'
           | (Raise e, w') => (Raise e, w')
           end.
(** [try: c  except Exception as e: handler e] *)
Definition try_except {A} (c : M A) (handler : exception -> M A) : M A :=
  fun w => match c w with
           | (Ret a, w') => (Ret a, w')
           | (Raise e, w') => handler e w'
           end.
Definition lift {A} (r : exc A) : M A := fun w => (r, w).

Declare Scope py_scope.
Delimit Scope py_scope with py.
Notation "x <- c ;; k" := (bind c (fun x => k))
  (at level 61, c at next level, right associativity) : py_scope.
Notation "c ;; k" := (bind c (fun _ => k))
  (at level 61, right associativity) : py_scope.

(** [for x in l: body x], with early exit on an exception. *)
Fixpoint for_each {A} (l : list A) (body : A -> M unit) : M unit :=
  match l with
  | [] => ret tt
  | x :: l' => bind (body x) (fun _ => for_each l' body)
  end.

(** A loop that threads a local accumulator. *)
Fixpoint for_fold {A S} (l : list A) (s : S) (body : S -> A -> M S) : M S :=
  match l with
  | [] => ret s
  | x :: l' => bind (body s x) (fun s' => for_fold l' s' body)
  end.

Section Calls.
Variable env : environment.

Definition call {A} (oracle : list request -> request -> exc A)
    (r : request) : M A :=
  fun w => (oracle (calls w) r, set_calls w (calls w ++ [r])).

(** [await self.ollama.generate_completion(...)] *)
Definition ollama_generate_completion
    (prompt : prompt) (model : str) (temperature top_p : float)
    (max_tokens : Z) : M str :=
  call (completion env)
       (generate_completion prompt model temperature top_p max_tokens).

(** [await self.ollama.generate_structured_completion(...)] *)
Definition ollama_generate_structured_completion
    (prompt : prompt) (prompt_type : PromptType) (model : str)
    (max_tokens : Z) : M value :=
  call (structured_completion env)
       (generate_structured_completion prompt prompt_type model max_tokens).

(** [await self.ollama.generate_quiz_questions(...)] *)
Definition ollama_generate_quiz_questions
    (text : str) (num_questions : Z) (question_type model difficulty : str)
    (topics : value) : M (list value) :=
  call (quiz_questions env)
       (generate_quiz_questions text num_questions question_type model
          difficulty topics).

(** [str(uuid.uuid4())] *)
Definition new_uuid : M str :=
  fun w => (Ret (uuid4 env (uuids w)), set_uuids w (S (uuids w))).

End Calls.

(** [datetime.datetime.now()] *)
Definition now : M nat :=
  fun w => (Ret (clock w), set_clock w (S (clock w))).

End World.

(* ===================================================================== *)
(** * [services/summarization.py]: EnhancedSummarizationService *)
(* ===================================================================== *)

Module Summarization.
Import Py Prompts World.
#[local] Open Scope py_scope.

(** The dict returned by [_extract_document_topics]. *)
Record Topics := { subject_areas : value; key_topics : value }.

(** The dict returned by [_validate_summary]; [None] is an absent key. *)
Record Validation := {
  validation_error : option str;
  point_analysis : option (list value);
  invalid_points_count : Z;
  total_points : Z
}.

(** The dict returned by [summarize_document]; [None] is an absent key. *)
Record Result := {
  success : bool;
  error : option str;
  summary : list value;
  topics : option Topics;
  validation : option Validation;
  regenerated : option bool;
  filtered : option bool
}.

Definition TOO_SHORT_ERROR : str :=
  lit "Document too short to summarize meaningfully".
Definition TOO_SHORT_SUMMARY : str :=
  lit "Document contains insufficient content for summarization.".
Definition GENERATION_ERROR : str :=
  lit "Error: Unable to generate summary due to processing error. Please try again.".
Definition PARSE_ERROR : str :=
  lit "Error: Unable to parse summary from model response.".
Definition PROCESS_ERROR : str :=
  lit "Error: Unable to process the model's response.".

(** The default topics of [_extract_document_topics]. *)
Definition DEFAULT_TOPICS : Topics :=
  {| subject_areas :=
       VList [VStr (lit "Academic"); VStr (lit "Education");
              VStr (lit "Study Material")];
     key_topics :=
       VList [VStr (lit "Concepts"); VStr (lit "Definitions");
              VStr (lit "Key Points")] |}.

Definition EMPTY_TOPICS : Topics :=
  {| subject_areas := VList []; key_topics := VList [] |}.

(** The lines of [text] that start with a bullet marker, marker removed. *)
Definition bullet_lines (text : str) : list str :=
  flat_map
    (fun line =>
       let line := strip line in
       if startswith (lit "- ") line || startswith (lit "* ") line
          || startswith [BULLET; SPACE] line
       then [strip (slice (Some 2) None line)] else [])
    (split NEWLINE text).

Definition str_list (l : list str) : value := VList (map VStr l).

Section Service.
Variable env : environment.

(** [_extract_json_array] *)
Definition _extract_json_array (text : str) : value :=
  let start_idx := find (N_of_ascii "[") text in
  let end_idx := rfind (N_of_ascii "]") text + 1 in
  let attempt : exc value :=
    if (0 <=? start_idx) && (start_idx <? end_idx) then
      json_loads env (slice (Some start_idx) (Some end_idx) text)
    else
      let bullets := bullet_lines text in
      if nonempty bullets then Ret (str_list bullets)
      else Ret (str_list (filter nonempty (map strip (split NEWLINE text))))
  in
  match attempt with
  | Ret bullets => bullets
  | Raise e =>
      if is_JSONDecodeError e then
        let bullets := bullet_lines text in
        if nonempty bullets then str_list bullets else str_list [PARSE_ERROR]
      else str_list [PROCESS_ERROR]
  end.

(** The body of the loop "Clean and format bullets". *)
Definition format_bullet (bullet : value) : exc str :=
  match bullet with
  | VStr s =>
      let clean_bullet := strip s in
      let clean_bullet :=
        if startswith (lit "- ") clean_bullet
        then slice (Some 2) None clean_bullet else clean_bullet in
      let clean_bullet :=
        if startswith [BULLET; SPACE] clean_bullet
        then slice (Some 2) None clean_bullet else clean_bullet in
      let clean_bullet :=
        if 100 <? len clean_bullet
        then slice None (Some 97) clean_bullet ++ lit "..." else clean_bullet in
      Ret clean_bullet
  | _ => Raise (AttributeError bullet "strip")
  end.

Fixpoint format_each (bullets : list value) : exc (list str) :=
  match bullets with
  | [] => Ret []
  | bullet :: rest =>
      match format_bullet bullet with
      | Raise e => Raise e
      | Ret clean_bullet =>
          match format_each rest with
          | Raise e => Raise e
          | Ret formatted => Ret (clean_bullet :: formatted)
          end
      end
  end.

(** [for bullet in bullets[:max_points]: ...] *)
Definition format_bullets (bullets : value) (max_points : Z) : exc (list str) :=
  match slice_to bullets max_points with
  | Raise e => Raise e
  | Ret head =>
      match iter head with
      | Raise e => Raise e
      | Ret items => format_each items
      end
  end.

(** [_extract_document_topics] *)
Definition _extract_document_topics (document_text model : str) : M Topics :=
  let prompt := get_topic_extraction_prompt document_text in
  try_except
    (response <- ollama_generate_structured_completion env prompt FACTUAL
                   model 500 ;;
     subject_areas <- lift (get response "subject_areas" (VList [])) ;;
     key_topics <- lift (get response "key_topics" (VList [])) ;;
     if negb (truthy key_topics) && negb (truthy subject_areas)
     then ret DEFAULT_TOPICS
     else ret {| subject_areas := subject_areas; key_topics := key_topics |})
    (fun e => ret EMPTY_TOPICS).

(** [_generate_summary_points] *)
Definition _generate_summary_points
    (document_text : str) (max_points : Z) (topic_keywords : value)
    (model : str) : M (list str) :=
  prompt <- lift (get_document_summary_prompt document_text max_points
                    topic_keywords) ;;
  try_except
    (response <- ollama_generate_completion env prompt model
                   0.3%float 0.95%float 1000 ;;
     let bullets := _extract_json_array response in
     lift (format_bullets bullets max_points))
    (fun e => ret [GENERATION_ERROR]).

(** [not p.get("supported", False)] *)
Definition unsupported (p : value) : exc bool :=
  match get p "supported" (VBool false) with
  | Raise e => Raise e
  | Ret s => Ret (negb (truthy s))
  end.

(** [[p for p in point_analysis if not p.get("supported", False)]] *)
Fixpoint invalid_points (point_analysis : list value) : exc (list value) :=
  match point_analysis with
  | [] => Ret []
  | p :: rest =>
      match unsupported p with
      | Raise e => Raise e
      | Ret u =>
          match invalid_points rest with
          | Raise e => Raise e
          | Ret l => Ret (if u then p :: l else l)
          end
      end
  end.

(** [_validate_summary] *)
Definition _validate_summary
    (summary_points : list str) (document_text model : str) : M Validation :=
  let prompt := get_summary_validation_prompt summary_points document_text in
  try_except
    (response <- ollama_generate_structured_completion env prompt FACTUAL
                   model 1500 ;;
     point_analysis <- lift (get response "result" (VList [])) ;;
     let point_analysis :=
       match point_analysis with VList l => l | _ => [] end in
     invalid <- lift (invalid_points point_analysis) ;;
     ret {| validation_error := None;
            point_analysis := Some point_analysis;
            invalid_points_count := len invalid;
            total_points := len point_analysis |})
    (fun e =>
       ret {| validation_error := Some (exc_msg e);
              point_analysis := None;
              invalid_points_count := 0;
              total_points := len summary_points |}).

(** [_generate_replacement_summary] *)
Definition _generate_replacement_summary
    (document_text : str) (max_points : Z) (topic_keywords : value)
    (model : str) : M (list str) :=
  summary_prompt <- lift (get_document_summary_prompt document_text max_points
                            topic_keywords) ;;
  let stronger_prompt := StrongerPrompt summary_prompt in
  try_except
    (response <- ollama_generate_completion env stronger_prompt model
                   0.2%float 0.9%float 1000 ;;
     let bullets := _extract_json_array response in
     lift (format_bullets bullets max_points))
    (fun e => ret []).

(** [[p["point"] for p in validation.get("point_analysis", [])
      if p.get("supported", False)]] *)
Fixpoint supported_points (point_analysis : list value) : exc (list value) :=
  match point_analysis with
  | [] => Ret []
  | p :: rest =>
      match get p "supported" (VBool false) with
      | Raise e => Raise e
      | Ret s =>
          if truthy s then
            match getitem p "point" with
            | Raise e => Raise e
            | Ret point =>
                match supported_points rest with
                | Raise e => Raise e
                | Ret l => Ret (point :: l)
                end
            end
          else supported_points rest
      end
  end.

(** [len(valid_points) < 0.7 * len(summary_points)], in binary64. *)
Definition lost_more_than_30_percent (valid_points summary_points : nat) : bool :=
  PrimFloat.ltb (float_of_nat valid_points)
                (0.7 * float_of_nat summary_points)%float.

(** [summarize_document] *)
Definition summarize_document
    (document_text : str) (max_points : Z) (model : str)
    (validation_enabled : bool) : M Result :=
  if len document_text <? 100 then
    ret {| success := false;
           error := Some TOO_SHORT_ERROR;
           summary := [VStr TOO_SHORT_SUMMARY];
           topics := None; validation := None;
           regenerated := None; filtered := None |}
  else
    let document_text :=
      if 12000 <? len document_text
      then slice None (Some 12000) document_text ++ lit "..."
      else document_text in
    (* Step 1 *)
    topics <- _extract_document_topics document_text model ;;
    (* Step 2 *)
    summary_points <- _generate_summary_points document_text max_points
                        (key_topics topics) model ;;
    let result :=
      {| success := true; error := None;
         summary := map VStr summary_points;
         topics := Some topics; validation := None;
         regenerated := None; filtered := None |} in
    (* Step 3 *)
    if validation_enabled && nonempty summary_points then
      validation <- _validate_summary summary_points document_text model ;;
      let result :=
        {| success := true; error := None;
           summary := map VStr summary_points;
           topics := Some topics; validation := Some validation;
           regenerated := None; filtered := None |} in
      (* Step 4 *)
      if 0 <? invalid_points_count validation then
        valid_points <-
          lift (supported_points
                  (match point_analysis validation with
                   | Some l => l | None => [] end)) ;;
        if lost_more_than_30_percent (List.length valid_points)
                                     (List.length summary_points) then
          replacement_summary <-
            _generate_replacement_summary document_text max_points
              (key_topics topics) model ;;
          if nonempty replacement_summary then
            ret {| success := true; error := None;
                   summary := map VStr replacement_summary;
                   topics := Some topics; validation := Some validation;
                   regenerated := Some true; filtered := None |}
          else ret result
        else
          ret {| success := true; error := None;
                 summary := valid_points;
                 topics := Some topics; validation := Some validation;
                 regenerated := None; filtered := Some true |}
      else ret result
    else ret result.

(** ** The stages of [summarize_document]

    The same code cut at its own step comments, so that statements can name
    the state between two steps ([summarize_document_stages] below shows
    that nothing changed). *)

(** [result] as first built, and after [result["validation"] = validation]. *)
Definition initial_result (topics : Topics) (summary_points : list str)
    (validation : option Validation) : Result :=
  {| success := true; error := None;
     summary := map VStr summary_points;
     topics := Some topics; validation := validation;
     regenerated := None; filtered := None |}.

(** [validation.get("point_analysis", [])] *)
Definition analysis_of (validation : Validation) : list value :=
  match point_analysis validation with Some l => l | None => [] end.

(** Step 4: regenerate problematic points if necessary. *)
Definition step4 (document_text : str) (max_points : Z) (model : str)
    (topics : Topics) (summary_points : list str) (validation : Validation)
    : M Result :=
  if 0 <? invalid_points_count validation then
    valid_points <- lift (supported_points (analysis_of validation)) ;;
    if lost_more_than_30_percent (List.length valid_points)
                                 (List.length summary_points) then
      replacement_summary <-
        _generate_replacement_summary document_text max_points
          (key_topics topics) model ;;
      if nonempty replacement_summary then
        ret {| success := true; error := None;
               summary := map VStr replacement_summary;
               topics := Some topics; validation := Some validation;
               regenerated := Some true; filtered := None |}
      else ret (initial_result topics summary_points (Some validation))
    else
      ret {| success := true; error := None;
             summary := valid_points;
             topics := Some topics; validation := Some validation;
             regenerated := None; filtered := Some true |}
  else ret (initial_result topics summary_points (Some validation)).

(** Step 3: validate summary if enabled. *)
Definition step3 (document_text : str) (max_points : Z) (model : str)
    (validation_enabled : bool) (topics : Topics) (summary_points : list str)
    : M Result :=
  if validation_enabled && nonempty summary_points then
    validation <- _validate_summary summary_points document_text model ;;
    step4 document_text max_points model topics summary_points validation
  else ret (initial_result topics summary_points None).

(** Step 2: generate initial summary with topic guidance. *)
Definition step2 (document_text : str) (max_points : Z) (model : str)
    (validation_enabled : bool) (topics : Topics) : M Result :=
  summary_points <- _generate_summary_points document_text max_points
                      (key_topics topics) model ;;
  step3 document_text max_points model validation_enabled topics
    summary_points.

End Service.

(** ** Vocabulary of the statements about the pipeline *)

(** A computation that only ever appends to the log of backend calls. *)
Definition appends {A} (c : M A) : Prop :=
  forall w, exists rest, calls (snd (c w)) = calls w ++ rest.

(** A bullet of at most 100 characters. *)
Definition short (s : str) : Prop := len s <= 100.

(** The document as the pipeline sees it after "Truncate long documents". *)
Definition truncated (document_text : str) : str :=
  if 12000 <? len document_text
  then slice None (Some 12000) document_text ++ lit "..."
  else document_text.

(** The backend call of step 1. *)
Definition topic_request (document_text model : str) : request :=
  generate_structured_completion
    (TopicExtractionPrompt document_text) FACTUAL model 500.

(** What [summarize_document] returns for a document that is too short. *)
Definition too_short_result : Result :=
  {| success := false;
     error := Some TOO_SHORT_ERROR;
     summary := [VStr TOO_SHORT_SUMMARY];
     topics := None; validation := None;
     regenerated := None; filtered := None |}.

(** The backend call of step 3. *)
Definition validation_request (summary_points : list str)
    (document_text model : str) : request :=
  generate_structured_completion
    (get_summary_validation_prompt summary_points document_text)
    FACTUAL model 1500.

(** The backend call of the regeneration. *)
Definition replacement_request (summary_prompt : prompt) (model : str)
    : request :=
  generate_completion (StrongerPrompt summary_prompt) model
    0.2%float 0.9%float 1000.

(** The result of the filter branch. *)
Definition filtered_result (topics : Topics) (valid_points : list value)
    (validation : Validation) : Result :=
  {| success := true; error := None;
     summary := valid_points;
     topics := Some topics; validation := Some validation;
     regenerated := None; filtered := Some true |}.

(** The result of a regeneration that produced something. *)
Definition regenerated_result (topics : Topics)
    (replacement_summary : list str) (validation : Validation) : Result :=
  {| success := true; error := None;
     summary := map VStr replacement_summary;
     topics := Some topics; validation := Some validation;
     regenerated := Some true; filtered := None |}.

(** A summary list within the promised bounds. *)
Definition within_bounds (max_points : Z) (points : list value) : Prop :=
  len points <= max_points
  /\ Forall (fun p => exists s, p = VStr s /\ len s <= 100) points.

(** The binary64 comparison against its reading in exact arithmetic,
    "fewer than seven tenths", on one pair and on all pairs up to a bound. *)
Definition agrees_with_exact (valid total : nat) : bool :=
  Bool.eqb (lost_more_than_30_percent valid total)
           (10 * Z.of_nat valid <? 7 * Z.of_nat total).

Definition agrees_up_to (bound : nat) : bool :=
  forallb (fun total => forallb (fun valid => agrees_with_exact valid total)
                          (seq 0 (S bound)))
          (seq 0 (S bound)).

End Summarization.

(* ===================================================================== *)
(** * [models/models.py]: DifficultyLevel and QuizQuestion *)
(* ===================================================================== *)

Module Models.
Import Py World.
#[local] Open Scope py_scope.

Inductive DifficultyLevel := EASY | MEDIUM | HARD.

(** [level.value] *)
Definition level_value (level : DifficultyLevel) : str :=
  match level with
  | EASY => lit "easy"
  | MEDIUM => lit "medium"
  | HARD => lit "hard"
  end.

(** [DifficultyLevel(s)]; the message shows [s] between quotes, as its
    [repr] does for a string of plain characters. *)
Definition level_of (s : str) : exc DifficultyLevel :=
  if str_eqb s (lit "easy") then Ret EASY
  else if str_eqb s (lit "medium") then Ret MEDIUM
  else if str_eqb s (lit "hard") then Ret HARD
  else Raise (ValueError (lit "'" ++ s ++ lit "' is not a valid DifficultyLevel")).

(** The attribute [difficulty] holds a level, or whatever non-string value
    [from_dict] found in the document. *)
Inductive difficulty_field :=
| Level (level : DifficultyLevel)
| Other (v : value).

Record QuizQuestion := {
  id : value;
  material_id : value;
  question : value;
  question_type : value;
  options : value;
  correct_answer : value;
  topic : value;
  difficulty : difficulty_field;
  created_at : value
}.

Definition set_id (q : QuizQuestion) (x : value) : QuizQuestion :=
  {| id := x; material_id := material_id q; question := question q;
     question_type := question_type q; options := options q;
     correct_answer := correct_answer q; topic := topic q;
     difficulty := difficulty q; created_at := created_at q |}.

(** [QuizQuestion.__init__] *)
Definition QuizQuestion_init
    (id material_id question question_type options correct_answer topic : value)
    (difficulty : difficulty_field) (created_at : value) : M QuizQuestion :=
  created_at <- (if truthy created_at then ret created_at
                 else (t <- now ;; ret (VDatetime t))) ;;
  ret {| id := id; material_id := material_id; question := question;
         question_type := question_type;
         options := if truthy options then options else VList [];
         correct_answer := correct_answer; topic := topic;
         difficulty := difficulty; created_at := created_at |}.

(** [QuizQuestion.to_dict] *)
Definition to_dict (q : QuizQuestion) : exc dict :=
  match difficulty q with
  | Level level =>
      Ret [ (lit "id", id q);
            (lit "material_id", material_id q);
            (lit "question", question q);
            (lit "question_type", question_type q);
            (lit "options", options q);
            (lit "correct_answer", correct_answer q);
            (lit "topic", topic q);
            (lit "difficulty", VStr (level_value level));
            (lit "created_at", created_at q) ]
  | Other v => Raise (AttributeError v "value")
  end.

(** The keyword parameters of [QuizQuestion.__init__]. *)
Definition init_parameters : list str :=
  [ lit "id"; lit "material_id"; lit "question"; lit "question_type";
    lit "options"; lit "correct_answer"; lit "topic"; lit "difficulty";
    lit "created_at" ].

Definition required_parameters : list str :=
  [ lit "id"; lit "material_id"; lit "question"; lit "question_type" ].

Definition get_or_none (k : string) (d : dict) : value :=
  match dict_get (lit k) d with Some v => v | None => VNone end.

(** The [TypeError] of a call of [__init__] with a keyword argument that
    it does not take ... *)
Definition unexpected_keyword (k : str) : exception :=
  {| exc_type := "TypeError";
     exc_msg := lit "QuizQuestion.__init__() got an unexpected keyword argument '"
                ++ k ++ lit "'" |}.

(** ... and with required arguments missing: ['a'], ['a' and 'b'],
    ['a', 'b', and 'c']. *)
Fixpoint name_list (names : list str) : str :=
  match names with
  | [] => []
  | [a] => a
  | [a; b] => a ++ lit ", and " ++ b
  | a :: rest => a ++ lit ", " ++ name_list rest
  end.

Definition enumeration (names : list str) : str :=
  match names with
  | [a; b] => a ++ lit " and " ++ b
  | _ => name_list names
  end.

Definition missing_arguments (names : list str) : exception :=
  {| exc_type := "TypeError";
     exc_msg := lit "QuizQuestion.__init__() missing " ++ decimal (len names)
                ++ lit " required positional argument"
                ++ (if len names =? 1 then [] else lit "s") ++ lit ": "
                ++ enumeration (map (fun a => lit "'" ++ a ++ lit "'") names) |}.

(** The keys of [data] that [__init__] does not take, and the required
    parameters that [data] does not give. *)
Definition unexpected_keys (data : dict) : list str :=
  filter (fun k => negb (existsb (str_eqb k) init_parameters)) (map fst data).

Definition missing_parameters (data : dict) : list str :=
  filter (fun k => negb (dict_mem k data)) required_parameters.

Section Loading.
Variable env : environment.

(** [str(v)]: a string is its own text; the rendering of a float, a list,
    a dict or a datetime is left to the environment. *)
Definition str_of (v : value) : str :=
  match v with
  | VStr s => s
  | VNone => lit "None"
  | VBool b => lit (if b then "True" else "False")
  | VInt z => decimal z
  | _ => py_str env v
  end.

(** "Handle MongoDB _id field conversion to id": the copy of [data] that
    [from_dict] passes on. *)
Definition data_copy (data : dict) : dict :=
  match dict_get (lit "_id") data with
  | Some _id =>
      dict_pop (lit "_id")
        (if dict_mem (lit "id") data then data
         else dict_set (lit "id") (VStr (str_of _id)) data)
  | None => data
  end.

(** [QuizQuestion.from_dict].  The call of [cls] with the entries of
    [data_copy] as keyword arguments reports the first keyword that
    [__init__] does not take, then the required parameters that are
    missing. *)
Definition from_dict (data : dict) : M QuizQuestion :=
  let data_copy := data_copy data in
  difficulty <- lift
    (match dict_get (lit "difficulty") data_copy with
     | Some (VStr s) =>
         match level_of s with
         | Ret level => Ret (Level level)
         | Raise e => Raise e
         end
     | Some v => Ret (Other v)
     | None => Ret (Level MEDIUM)
     end) ;;
  match unexpected_keys data_copy with
  | k :: _ => raise (unexpected_keyword k)
  | [] =>
      match missing_parameters data_copy with
      | (_ :: _) as missing => raise (missing_arguments missing)
      | [] =>
          QuizQuestion_init
            (get_or_none "id" data_copy) (get_or_none "material_id" data_copy)
            (get_or_none "question" data_copy)
            (get_or_none "question_type" data_copy)
            (get_or_none "options" data_copy)
            (get_or_none "correct_answer" data_copy)
            (get_or_none "topic" data_copy) difficulty
            (get_or_none "created_at" data_copy)
      end
  end.

End Loading.

End Models.

(* ===================================================================== *)
(** * [services/qa_dataset.py]: QADatasetService *)
(* ===================================================================== *)

Module QADataset.
Import Py Prompts World Models.
#[local] Open Scope py_scope.

(** ** The collections

    The store compares the string identifiers this service writes: a query
    [{field: key}] selects the documents whose [field] is the string [key]. *)

Definition has_field (field : string) (key : value) (doc : dict) : bool :=
  match dict_get (lit field) doc, key with
  | Some (VStr a), VStr b => str_eqb a b
  | _, _ => false
  end.

(** [collection.find({field: key})] *)
Definition find_by (field : string) (key : value) (docs : list dict) : list dict :=
  filter (has_field field key) docs.

(** [collection.update_one({"id": key}, {"$set": update_data})] *)
Fixpoint update_first (key : value) (update_data : dict) (docs : list dict)
    : list dict :=
  match docs with
  | [] => []
  | doc :: rest =>
      if has_field "id" key doc then dict_update doc update_data :: rest
      else doc :: update_first key update_data rest
  end.

(** [collection.delete_one({"id": key})] *)
Fixpoint delete_first (key : value) (docs : list dict) : list dict :=
  match docs with
  | [] => []
  | doc :: rest =>
      if has_field "id" key doc then rest else doc :: delete_first key rest
  end.

Definition questions_find (material_id : str) : M (list dict) :=
  fun w => (Ret (find_by "material_id" (VStr material_id) (questions w)), w).

Definition questions_insert (docs : list dict) : M unit :=
  fun w => (Ret tt, set_questions w (questions w ++ docs)).

Definition questions_update_one (key : value) (update_data : dict) : M unit :=
  fun w => (Ret tt, set_questions w (update_first key update_data (questions w))).

Definition questions_delete_one (key : value) : M unit :=
  fun w => (Ret tt, set_questions w (delete_first key (questions w))).

(** [self.feedback.find({"question_id": key})] *)
Definition feedback_find (key : value) : M (list FeedbackRecord) :=
  fun w =>
    (Ret (match key with
          | VStr s => filter (fun f => str_eqb (feedback_question_id f) s)
                        (feedback w)
          | _ => []
          end), w).

Definition feedback_insert_one (f : FeedbackRecord) : M unit :=
  fun w => (Ret tt, set_feedback w (feedback w ++ [f])).

Definition changelog_insert_one (entry : ChangelogEntry) : M unit :=
  fun w => (Ret tt, set_changelog w (changelog w ++ [entry])).

(** [self.db.get_material_by_id(material_id)] is not [None]. *)
Definition material_exists (material_id : str) : M bool :=
  fun w => (Ret (existsb (str_eqb material_id) (materials w)), w).

(** [_get_material_content]: the placeholder of the source. *)
Definition MATERIAL_CONTENT : str :=
  lit "Sample study material content for placeholder purposes. Replace this with actual content retrieval logic.".

Definition DEFAULT_MODEL : str := lit "llama2:7b".

(** ** Quality metrics *)

(** A Python number: the [0] of an empty ratio is an [int]. *)
Inductive number := Int (z : Z) | Float (f : float).

Definition to_float (n : number) : float :=
  match n with
  | Int z => PrimFloat.of_uint63 (Uint63.of_Z z)
  | Float f => f
  end.

Definition number_value (n : number) : value :=
  match n with Int z => VInt z | Float f => VFloat f end.

(** [sum(1 for x in l if p x)] *)
Definition count {A} (p : A -> bool) (l : list A) : nat :=
  fold_left (fun acc x => if p x then S acc else acc) l O.

(** [correct_answers = sum(1 for f in feedback if f.get("is_correct", False))] *)
Definition correct_answers (feedback : list FeedbackRecord) : nat :=
  count is_correct feedback.

(** [helpful_ratings = [f.get("is_helpful") for f in feedback
                        if f.get("is_helpful") is not None]] *)
Definition helpful_ratings (feedback : list FeedbackRecord) : list bool :=
  flat_map (fun f => match is_helpful f with Some h => [h] | None => [] end)
           feedback.

(** [helpful_count = sum(1 for h in helpful_ratings if h)] *)
Definition helpful_count (feedback : list FeedbackRecord) : nat :=
  count (fun h : bool => h) (helpful_ratings feedback).

(** [a / b] on two counts. *)
Definition ratio (a b : nat) : float :=
  (float_of_nat a / float_of_nat b)%float.

(** [accuracy = correct_answers / total_attempts if total_attempts else 0] *)
Definition accuracy (feedback : list FeedbackRecord) : number :=
  let total_attempts := List.length feedback in
  match total_attempts with
  | O => Int 0
  | _ => Float (ratio (correct_answers feedback) total_attempts)
  end.

(** [helpfulness = helpful_count / len(helpful_ratings)
                   if helpful_ratings else 0] *)
Definition helpfulness (feedback : list FeedbackRecord) : number :=
  match helpful_ratings feedback with
  | [] => Int 0
  | ratings => Float (ratio (helpful_count feedback) (List.length ratings))
  end.

(** [quality_score = (accuracy * 0.4) + (helpfulness * 0.6)] *)
Definition quality_score (feedback : list FeedbackRecord) : float :=
  (to_float (accuracy feedback) * 0.4
   + to_float (helpfulness feedback) * 0.6)%float.

(** The result of [evaluate_and_update_questions]. *)
Record Stats := {
  total_questions : Z;
  removed : Z;
  updated : Z;
  no_action : Z
}.

(** ** Distribution of the question types ([generate_qa_pairs]) *)

(** [{qt: num_questions // len(question_types) for qt in question_types}] *)
Definition base_counts (num_questions : Z) (question_types : list str)
    : list (str * Z) :=
  fold_left
    (fun qtype_count qt =>
       dict_set qt (num_questions / len question_types) qtype_count)
    question_types [].

(** [for i, qt in enumerate(question_types):
       if i < remainder: qtype_count[qt] += 1], from index [i] on. *)
Fixpoint add_remainder (remainder i : Z) (question_types : list str)
    (qtype_count : list (str * Z)) : exc (list (str * Z)) :=
  match question_types with
  | [] => Ret qtype_count
  | qt :: rest =>
      if i <? remainder then
        match dict_get qt qtype_count with
        | Some c =>
            add_remainder remainder (i + 1) rest (dict_set qt (c + 1) qtype_count)
        | None => Raise (KeyError qt)
        end
      else add_remainder remainder (i + 1) rest qtype_count
  end.

(** "Determine distribution of question types" *)
Definition qtype_count (num_questions : Z) (question_types : list str)
    : exc (list (str * Z)) :=
  match question_types with
  | [] => Raise ZeroDivisionError
  | _ =>
      let remainder := num_questions mod len question_types in
      add_remainder remainder 0 question_types
        (base_counts num_questions question_types)
  end.

(** ** Picking the displayed answer of a multiple-choice question *)

(** A value that is an instance of [int]: an [int] or a [bool]. *)
Inductive integer := IsInt (z : Z) | IsBool (b : bool).

(** [isinstance(v, int)] *)
Definition as_int (v : value) : option integer :=
  match v with
  | VInt z => Some (IsInt z)
  | VBool b => Some (IsBool b)
  | _ => None
  end.

(** The integer an instance of [int] stands for, and its [repr]. *)
Definition int_of (i : integer) : Z :=
  match i with IsInt z => z | IsBool b => if b then 1 else 0 end.

Definition int_repr (i : integer) : str :=
  match i with
  | IsInt z => decimal z
  | IsBool b => lit (if b then "True" else "False")
  end.

(** [options[i]] for an integer index: a dict of this model has string
    keys only, so the integer is not among them. *)
Definition index (options : value) (i : integer) : exc value :=
  let at_ (l : list value) (out_of_range : string) :=
    let n := len l in
    let j := if int_of i <? 0 then int_of i + n else int_of i in
    if (0 <=? j) && (j <? n) then
      match nth_error l (Z.to_nat j) with
      | Some x => Ret x
      | None => Raise (IndexError out_of_range)
      end
    else Raise (IndexError out_of_range) in
  match options with
  | VList l => at_ l "list index out of range"%string
  | VStr s => at_ (map (fun c => VStr [c]) s) "string index out of range"%string
  | VDict _ => Raise {| exc_type := "KeyError"; exc_msg := int_repr i |}
  | _ => Raise (not_subscriptable options)
  end.

(** [options[correct] if isinstance(correct, int) and correct < len(options)
     else "Unknown"] *)
Definition displayed_answer (options correct : value) : exc value :=
  match as_int correct with
  | Some i =>
      match vlen options with
      | Raise e => Raise e
      | Ret n =>
          if int_of i <? n then index options i else Ret (VStr (lit "Unknown"))
      end
  | None => Ret (VStr (lit "Unknown"))
  end.

Definition is_multiple_choice (question_type : value) : bool :=
  match question_type with
  | VStr s => str_eqb s (lit "multiple_choice")
  | _ => false
  end.

(** One round of the loop that formats [sample_text]. *)
Definition sample_of (i : Z) (q : QuizQuestion) : exc sample :=
  if is_multiple_choice (Models.question_type q) then
    match iter (Models.options q) with
    | Raise e => Raise e
    | Ret opts =>
        match displayed_answer (Models.options q) (Models.correct_answer q) with
        | Raise e => Raise e
        | Ret answer =>
            Ret (SampleMultipleChoice (i + 1) (Models.question q) opts answer)
        end
    end
  else Ret (SampleAnswer (i + 1) (Models.question q) (Models.correct_answer q)).

Fixpoint samples_from (i : Z) (qs : list QuizQuestion) : exc (list sample) :=
  match qs with
  | [] => Ret []
  | q :: rest =>
      match sample_of i q with
      | Raise e => Raise e
      | Ret s =>
          match samples_from (i + 1) rest with
          | Raise e => Raise e
          | Ret l => Ret (s :: l)
          end
      end
  end.

(** [summary] lines of [_improve_question]. *)
Definition feedback_line_of (f : FeedbackRecord) : feedback_line :=
  {| line_correct := is_correct f;
     line_helpful := is_helpful f;
     line_comment := match feedback_text f with
                     | Some t => if nonempty t then Some t else None
                     | None => None
                     end |}.

Section Service.
Variable env : environment.

(** [for x in l: out.append(f x)] for an effectful [f]. *)
Fixpoint for_map {A B} (l : list A) (f : A -> M B) : M (list B) :=
  match l with
  | [] => ret []
  | x :: rest => y <- f x ;; ys <- for_map rest f ;; ret (y :: ys)
  end.

(** ** [_log_qa_change] *)
Definition _log_qa_change
    (question_id : value) (material_id : str) (action : string)
    (details : details) (qa_data : dict) (previous_data : option dict)
    : M str :=
  log_id <- new_uuid env ;;
  timestamp <- now ;;
  let log_entry :=
    {| log_id := log_id;
       log_question_id := question_id;
       log_material_id := material_id;
       action := action;
       log_details := details;
       timestamp := timestamp;
       qa_data := qa_data;
       previous_data :=
         match previous_data with
         | Some ((_ :: _) as d) => Some d   (* [if previous_data:] *)
         | _ => None
         end |} in
  changelog_insert_one log_entry ;;
  ret log_id.

(** [DatabaseService.create_questions_batch]; the questions are returned
    as well because a missing [id] is assigned on the objects themselves. *)
Definition create_questions_batch (questions : list QuizQuestion)
    : M (list QuizQuestion * list value) :=
  questions <- for_map questions
                 (fun question =>
                    if negb (truthy (id question))
                    then (u <- new_uuid env ;; ret (set_id question (VStr u)))
                    else ret question) ;;
  docs <- for_map questions (fun q => lift (to_dict q)) ;;
  questions_insert docs ;;
  ret (questions, map id questions).

(** The body of [for q in questions:] in [generate_qa_pairs]. *)
Definition make_qa_pair (material_id q_type difficulty : str) (q : value)
    : M QuizQuestion :=
  question_id <- new_uuid env ;;
  question <- lift (get q "question" (VStr [])) ;;
  question_type <- lift (get q "type" (VStr q_type)) ;;
  options <- (if str_eqb q_type (lit "multiple_choice")
              then lift (get q "options" (VList []))
              else ret (VList [])) ;;
  correct_answer <- lift (get q "correct_answer" VNone) ;;
  topic <- lift (get q "topic" (VStr (lit "General"))) ;;
  level <- lift (level_of difficulty) ;;
  created_at <- now ;;
  quiz_question <- QuizQuestion_init (VStr question_id) (VStr material_id)
                     question question_type options correct_answer topic
                     (Level level) (VDatetime created_at) ;;
  qa_data <- lift (to_dict quiz_question) ;;
  _log_qa_change (VStr question_id) material_id "created"
    (Details (VStr (lit "Automatically generated QA pair"))) qa_data None ;;
  ret quiz_question.

(** The body of [for q_type, count in qtype_count.items():]. *)
Definition generate_for_type (material_id difficulty : str) (topics : value)
    (all_questions : list QuizQuestion) (item : str * Z)
    : M (list QuizQuestion) :=
  let (q_type, count) := item in
  if count <=? 0 then ret all_questions
  else
    questions <- ollama_generate_quiz_questions env MATERIAL_CONTENT count
                   q_type DEFAULT_MODEL difficulty topics ;;
    made <- for_map questions (make_qa_pair material_id q_type difficulty) ;;
    ret (all_questions ++ made).

(** [generate_qa_pairs] *)
Definition generate_qa_pairs
    (material_id : str) (num_questions : Z) (question_types : list str)
    (difficulty : str) (topics : value) : M (list QuizQuestion) :=
  material <- material_exists material_id ;;
  if negb material then
    raise (ValueError (lit "Study material with ID " ++ material_id
                       ++ lit " not found"))
  else
    (* [content] is the non-empty placeholder: [if not content] never fires *)
    counts <- lift (qtype_count num_questions question_types) ;;
    all_questions <- for_fold counts []
                       (generate_for_type material_id difficulty topics) ;;
    match all_questions with
    | [] => ret []
    | _ =>
        saved <- create_questions_batch all_questions ;;
        ret (fst saved)
    end.

(** The body of [for ex in examples:] in [generate_adversarial_examples]. *)
Definition make_adversarial (material_id : str) (ex : value) : M QuizQuestion :=
  question_id <- new_uuid env ;;
  q_text <- lift (get ex "question" (VStr [])) ;;
  q_type <- lift (get ex "type" (VStr (lit "multiple_choice"))) ;;
  q_options <- lift (get ex "options" (VList [])) ;;
  q_answer <- lift (get ex "correct_answer" VNone) ;;
  q_topic <- lift (get ex "topic" (VStr (lit "Adversarial example"))) ;;
  created_at <- now ;;
  question <- QuizQuestion_init (VStr question_id) (VStr material_id)
                q_text q_type q_options q_answer q_topic
                (Level HARD) (VDatetime created_at) ;;
  (* Add adversarial metadata as additional field in the database *)
  question_dict <- lift (to_dict question) ;;
  let question_dict := dict_set (lit "is_adversarial") (VBool true) question_dict in
  adversarial_type <- lift (get ex "adversarial_type" (VStr (lit "general"))) ;;
  let question_dict := dict_set (lit "adversarial_type") adversarial_type
                         question_dict in
  _log_qa_change (VStr question_id) material_id "created"
    (Details (VStr (lit "Generated adversarial example"))) question_dict None ;;
  ret question.

(** "Save adversarial questions to database": the body of [for q in
    adversarial_questions:]. *)
Definition save_adversarial (q : QuizQuestion) : M unit :=
  q_dict <- lift (to_dict q) ;;
  let q_dict := dict_set (lit "is_adversarial") (VBool true) q_dict in
  questions_insert [q_dict].

(** [generate_adversarial_examples] *)
Definition generate_adversarial_examples
    (material_id : str) (num_examples : Z) (base_on_existing : bool)
    : M (list QuizQuestion) :=
  material <- material_exists material_id ;;
  if negb material then
    raise (ValueError (lit "Study material with ID " ++ material_id
                       ++ lit " not found"))
  else
    let content := MATERIAL_CONTENT in
    existing_questions <-
      (if base_on_existing then
         docs <- questions_find material_id ;;
         for_map docs (from_dict env)
       else ret []) ;;
    let base_on_existing := base_on_existing && nonempty existing_questions in
    prompt <-
      (if base_on_existing && nonempty existing_questions then
         let sample_size := Z.min 5 (len existing_questions) in
         let sample_questions :=
           slice None (Some sample_size) existing_questions in
         sample_text <- lift (samples_from 0 sample_questions) ;;
         ret (AdversarialFromExistingPrompt num_examples sample_text
                (slice None (Some 4000) content))
       else
         ret (AdversarialFromScratchPrompt num_examples
                (slice None (Some 4000) content))) ;;
    response <- ollama_generate_completion env prompt DEFAULT_MODEL
                  0.7%float 0.95%float 2000 ;;
    parsed <-
      try_except
        (let start_idx := find (N_of_ascii "[") response in
         let end_idx := rfind (N_of_ascii "]") response + 1 in
         if (0 <=? start_idx) && (start_idx <? end_idx) then
           examples <- lift (json_loads env
                               (slice (Some start_idx) (Some end_idx) response)) ;;
           examples <- lift (iter examples) ;;
           adversarial_questions <-
             for_map examples (make_adversarial material_id) ;;
           ret (Some adversarial_questions)
         else ret (Some []))
        (fun e => ret None) ;;
    match parsed with
    | None => ret []                      (* [return []] of the handler *)
    | Some adversarial_questions =>
        for_each adversarial_questions save_adversarial ;;
        ret adversarial_questions
    end.

(** [_update_question_quality_metrics] *)
Definition _update_question_quality_metrics (question_id : str) : M unit :=
  feedback <- feedback_find (VStr question_id) ;;
  match feedback with
  | [] => ret tt
  | _ =>
      let total_attempts := len feedback in
      updated_at <- now ;;
      let update_data :=
        [ (lit "quality_metrics",
           VDict [ (lit "accuracy", number_value (accuracy feedback));
                   (lit "helpfulness", number_value (helpfulness feedback));
                   (lit "total_attempts", VInt total_attempts);
                   (lit "updated_at", VDatetime updated_at) ]) ] in
      questions_update_one (VStr question_id) update_data
  end.

(** [record_question_feedback] *)
Definition record_question_feedback
    (question_id user_id : str) (is_correct : bool) (is_helpful : option bool)
    (difficulty_rating : option Z) (feedback_text : option str) : M str :=
  feedback_id <- new_uuid env ;;
  created_at <- now ;;
  let feedback_data :=
    {| feedback_id := feedback_id;
       feedback_question_id := question_id;
       user_id := user_id;
       is_correct := is_correct;
       is_helpful := is_helpful;
       difficulty_rating := difficulty_rating;
       feedback_text := feedback_text;
       feedback_created_at := created_at |} in
  feedback_insert_one feedback_data ;;
  _update_question_quality_metrics question_id ;;
  ret feedback_id.

Definition DEFAULT_NOTES : value :=
  VStr (lit "Question automatically improved").

(** [d.get(k, default)] on a dict in hand. *)
Definition dget (d : dict) (k : string) (default : value) : value :=
  match dict_get (lit k) d with Some v => v | None => default end.

(** [_improve_question] *)
Definition _improve_question
    (question : dict) (material_id : str) (feedback : list FeedbackRecord)
    : M bool :=
  material <- material_exists material_id ;;
  if negb material then ret false
  else
    let content := MATERIAL_CONTENT in
    let feedback_summary := map feedback_line_of feedback in
    answer <-
      lift (if is_multiple_choice (dget question "question_type" VNone) then
              let options := dget question "options" (VList []) in
              match iter options with
              | Raise e => Raise e
              | Ret opts =>
                  let correct_idx := dget question "correct_answer" (VInt 0) in
                  match displayed_answer options correct_idx with
                  | Raise e => Raise e
                  | Ret correct_answer =>
                      Ret (OptionsAndAnswer opts correct_answer)
                  end
              end
            else
              Ret (AnswerOnly (dget question "correct_answer"
                                 (VStr (lit "Unknown"))))) ;;
    let prompt :=
      ImprovementPrompt (dget question "question" VNone)
        (dget question "question_type" VNone) answer feedback_summary
        (slice None (Some 2000) content) in
    response <- ollama_generate_completion env prompt DEFAULT_MODEL
                  0.7%float 0.95%float 1000 ;;
    try_except
      (let start_idx := find (N_of_ascii "{") response in
       let end_idx := rfind (N_of_ascii "}") response + 1 in
       if (0 <=? start_idx) && (start_idx <? end_idx) then
         improved <- lift (json_loads env
                             (slice (Some start_idx) (Some end_idx) response)) ;;
         new_question <- lift (get improved "question"
                                 (dget question "question" VNone)) ;;
         new_topic <- lift (get improved "topic" (dget question "topic" VNone)) ;;
         updated_at <- now ;;
         notes <- lift (get improved "improvement_notes" DEFAULT_NOTES) ;;
         let update_data :=
           [ (lit "question", new_question);
             (lit "topic", new_topic);
             (lit "updated_at", VDatetime updated_at);
             (lit "improvement_notes", notes) ] in
         let improved_dict :=
           match improved with VDict d => d | _ => [] end in
         let update_data :=
           if is_multiple_choice (dget question "question_type" VNone)
              && dict_mem (lit "options") improved_dict
           then dict_set (lit "options") (dget improved_dict "options" VNone)
                  update_data
           else update_data in
         let update_data :=
           if dict_mem (lit "correct_answer") improved_dict
           then dict_set (lit "correct_answer")
                  (dget improved_dict "correct_answer" VNone) update_data
           else update_data in
         (* Apply the update *)
         questions_update_one (dget question "id" VNone) update_data ;;
         (* Log the change *)
         let original_data := question in
         let updated_data := dict_update question update_data in
         details <- lift (get improved "improvement_notes" DEFAULT_NOTES) ;;
         _log_qa_change (dget question "id" VNone) material_id "updated"
           (Details details) updated_data (Some original_data) ;;
         ret true
       else ret false)
      (fun e => ret false).

(** The feedback of every question, gathered before any question is
    processed.  The source keys a dict by [q_id] and reads it back by
    [q_id] over the same list of questions; the lists are kept here in the
    order of the questions. *)
Definition gather_feedback (q : dict) : M (list FeedbackRecord) :=
  q_id <- lift (getitem (VDict q) "id") ;;
  match q_id with
  | VList _ | VDict _ =>
      raise (TypeError ("unhashable type: '" ++ type_name q_id ++ "'"))
  | _ => feedback_find q_id
  end.

(** The counters [stats] while the questions are processed. *)
Definition count_removed (s : Stats) : Stats :=
  {| total_questions := total_questions s; removed := removed s + 1;
     updated := updated s; no_action := no_action s |}.
Definition count_updated (s : Stats) : Stats :=
  {| total_questions := total_questions s; removed := removed s;
     updated := updated s + 1; no_action := no_action s |}.
Definition count_no_action (s : Stats) : Stats :=
  {| total_questions := total_questions s; removed := removed s;
     updated := updated s; no_action := no_action s + 1 |}.

(** The body of "Process each question". *)
Definition process_question (material_id : str) (threshold : float)
    (stats : Stats) (item : dict * list FeedbackRecord) : M Stats :=
  let (q, feedback) := item in
  q_id <- lift (getitem (VDict q) "id") ;;
  match feedback with
  | [] => ret (count_no_action stats)
  | _ =>
      let helpfulness := to_float (helpfulness feedback) in
      let quality_score := quality_score feedback in
      if PrimFloat.ltb quality_score threshold then
        if PrimFloat.ltb helpfulness 0.2%float then
          questions_delete_one q_id ;;
          _log_qa_change q_id material_id "removed"
            (RemovedLowQuality quality_score) q None ;;
          ret (count_removed stats)
        else
          improved <- _improve_question q material_id feedback ;;
          if improved then ret (count_updated stats)
          else ret (count_no_action stats)
      else ret (count_no_action stats)
  end.

(** [evaluate_and_update_questions] *)
Definition evaluate_and_update_questions
    (material_id : str) (threshold : float) : M Stats :=
  questions <- questions_find material_id ;;
  all_feedback <- for_map questions gather_feedback ;;
  let stats :=
    {| total_questions := len questions; removed := 0; updated := 0;
       no_action := 0 |} in
  for_fold (combine questions all_feedback) stats
    (process_question material_id threshold).

End Service.

(** ** Vocabulary of the statements about the QA loop *)

(** The counts the comprehension and the remainder loop arrive at when the
    types are pairwise distinct: position [i] gets the quotient, plus one
    if [i] is below the remainder. *)
Fixpoint split_counts (quotient remainder i : Z) (question_types : list str)
    : list (str * Z) :=
  match question_types with
  | [] => []
  | qt :: rest =>
      (qt, quotient + (if i <? remainder then 1 else 0))
        :: split_counts quotient remainder (i + 1) rest
  end.

(** A record that rates helpfulness, and one that rates it [True]. *)
Definition rated (f : FeedbackRecord) : bool :=
  match is_helpful f with Some _ => true | None => false end.

Definition found_helpful (f : FeedbackRecord) : bool :=
  match is_helpful f with Some true => true | _ => false end.

(** The feedback the store holds for a question. *)
Definition feedback_of (question_id : str) (w : world) : list FeedbackRecord :=
  filter (fun f => str_eqb (feedback_question_id f) question_id) (feedback w).

(** The [quality_metrics] written for a list of feedback at time [t]. *)
Definition metrics_update (feedback : list FeedbackRecord) (t : nat) : dict :=
  [ (lit "quality_metrics",
     VDict [ (lit "accuracy", number_value (accuracy feedback));
             (lit "helpfulness", number_value (helpfulness feedback));
             (lit "total_attempts", VInt (len feedback));
             (lit "updated_at", VDatetime t) ]) ].

(** The entry [_log_qa_change] writes in world [w]. *)
Definition entry_at (env : environment) (w : world)
    (question_id : value) (material_id : str) (action : string)
    (details : details) (qa_data : dict) (previous_data : option dict)
    : ChangelogEntry :=
  {| log_id := uuid4 env (uuids w);
     log_question_id := question_id;
     log_material_id := material_id;
     action := action;
     log_details := details;
     timestamp := clock w;
     qa_data := qa_data;
     previous_data := match previous_data with
                      | Some ((_ :: _) as d) => Some d
                      | _ => None
                      end |}.

(** The record [record_question_feedback] inserts in world [w]. *)
Definition feedback_at (env : environment) (w : world)
    (question_id user_id : str) (is_correct : bool) (is_helpful : option bool)
    (difficulty_rating : option Z) (feedback_text : option str)
    : FeedbackRecord :=
  {| feedback_id := uuid4 env (uuids w);
     feedback_question_id := question_id;
     user_id := user_id;
     is_correct := is_correct;
     is_helpful := is_helpful;
     difficulty_rating := difficulty_rating;
     feedback_text := feedback_text;
     feedback_created_at := clock w |}.

(** An entry that documents the update of [question] by [update_data]. *)
Definition documents_update (question update_data : dict) (material_id : str)
    (e : ChangelogEntry) : Prop :=
  action e = "updated"%string
  /\ log_question_id e = dget question "id" VNone
  /\ log_material_id e = material_id
  /\ qa_data e = dict_update question update_data
  /\ previous_data e = match question with [] => None | _ => Some question end.

(** An entry that documents the removal of [question]. *)
Definition documents_removal (question : dict) (q_id : value)
    (material_id : str) (quality_score : float) (e : ChangelogEntry) : Prop :=
  action e = "removed"%string
  /\ log_question_id e = q_id
  /\ log_material_id e = material_id
  /\ log_details e = RemovedLowQuality quality_score
  /\ qa_data e = question.

(** What one round of "Process each question" does to the store: nothing,
    or one deletion with one "removed" entry, or one update with one
    "updated" entry; the counter that moves tells which. *)
Definition round_effect (material_id : str) (q : dict) (q_id : value)
    (feedback : list FeedbackRecord) (stats stats' : Stats) (w w' : world)
    : Prop :=
  (stats' = count_no_action stats
   /\ questions w' = questions w /\ changelog w' = changelog w)
  \/ (stats' = count_removed stats
      /\ questions w' = delete_first q_id (questions w)
      /\ exists e, changelog w' = changelog w ++ [e]
                   /\ documents_removal q q_id material_id
                        (quality_score feedback) e)
  \/ (stats' = count_updated stats
      /\ exists update_data e,
           questions w' = update_first q_id update_data (questions w)
           /\ changelog w' = changelog w ++ [e]
           /\ documents_update q update_data material_id e).

(** The number of entries with a given action. *)
Definition count_action (a : string) (entries : list ChangelogEntry) : Z :=
  len (filter (fun e => String.eqb (action e) a) entries).

(** An entry that documents the creation of [q]. *)
Definition documents_creation (material_id : str) (q : QuizQuestion)
    (e : ChangelogEntry) : Prop :=
  action e = "created"%string
  /\ log_question_id e = id q
  /\ log_material_id e = material_id
  /\ to_dict q = Ret (qa_data e)
  /\ previous_data e = None.

(** A question whose [id] is a uuid drawn from the environment. *)
Definition has_uuid (env : environment) (q : QuizQuestion) : Prop :=
  exists n, id q = VStr (uuid4 env n).

(** A computation that leaves the collections of questions and of
    changelog entries as they are, whatever it returns or raises. *)
Definition quiet {A} (c : M A) : Prop :=
  forall w, questions (snd (c w)) = questions w
            /\ changelog (snd (c w)) = changelog w.

(** An entry that documents the creation of the adversarial question [q]. *)
Definition documents_adversarial (material_id : str) (q : QuizQuestion)
    (e : ChangelogEntry) : Prop :=
  action e = "created"%string
  /\ log_question_id e = id q
  /\ log_material_id e = material_id
  /\ previous_data e = None.

(** The document [generate_adversarial_examples] stores for [q]: its
    [to_dict] with [is_adversarial] set, and no [adversarial_type]. *)
Definition stored_adversarial (q : QuizQuestion) (doc : dict) : Prop :=
  dict_get (lit "id") doc = Some (id q)
  /\ dict_get (lit "is_adversarial") doc = Some (VBool true)
  /\ dict_get (lit "difficulty") doc = Some (VStr (lit "hard"))
  /\ dict_get (lit "adversarial_type") doc = None.

(** The counters at the start of a run over one question. *)
Definition stats0 : Stats :=
  {| total_questions := 1; removed := 0; updated := 0; no_action := 0 |}.

End QADataset.

(* ===================================================================== *)
(** * Concrete runs: a scripted backend and sample data *)
(* ===================================================================== *)

Module Scenario.
Import Py Prompts World.

(** What the backend answers to one call. *)
Inductive answer :=
| Text (s : str)
| Object (v : value)
| Questions (l : list value)
| Fails (e : exception).

Definition backend_down : exception :=
  {| exc_type := "ConnectError"; exc_msg := lit "connection refused" |}.

Definition not_json : exception :=
  {| exc_type := "JSONDecodeError"; exc_msg := lit "Expecting value" |}.

(** A backend that answers its n-th call with the n-th entry of [script],
    together with a table standing for [json.loads] on the texts used. *)
Definition scripted (loads : list (str * value)) (script : list answer)
    : environment :=
  {| completion := fun history _ =>
       match nth_error script (List.length history) with
       | Some (Text s) => Ret s
       | Some (Fails e) => Raise e
       | _ => Raise backend_down
       end;
     structured_completion := fun history _ =>
       match nth_error script (List.length history) with
       | Some (Object v) => Ret v
       | Some (Fails e) => Raise e
       | _ => Raise backend_down
       end;
     quiz_questions := fun history _ =>
       match nth_error script (List.length history) with
       | Some (Questions l) => Ret l
       | Some (Fails e) => Raise e
       | _ => Raise backend_down
       end;
     json_loads := fun s =>
       match dict_get s loads with
       | Some v => Ret v
       | None => Raise not_json
       end;
     uuid4 := fun n => lit "uuid-" ++ [N.of_nat (48 + n)];
     py_str := fun v => lit "<" ++ lit (type_name v) ++ lit ">" |}.

(** An empty store that knows the study material [m1]. *)
Definition w0 : world :=
  {| calls := []; materials := [lit "m1"]; questions := []; feedback := [];
     changelog := []; uuids := 0; clock := 0 |}.

Definition model : str := lit "llama2:7b".

(** Documents of 99 and of 100 characters. *)
Definition doc99 : str := repeat 97%N 99.
Definition doc100 : str := repeat 97%N 100.

Definition topics_answer : answer :=
  Object (VDict [ (lit "subject_areas", VList [VStr (lit "Biology")]);
                  (lit "key_topics", VList [VStr (lit "Cells")]) ]).

(** Ten summary points, as bullet lines of a completion. *)
Definition point (i : nat) : str := lit "point " ++ [N.of_nat (48 + i)].
Definition ten_points : list str := map point (seq 0 10).
Definition bullets_text (points : list str) : str :=
  join [NEWLINE] (map (fun p => lit "- " ++ p) points).

(** A validation answer that supports the first [k] of the ten points. *)
Definition verdict (k i : nat) : value :=
  VDict [ (lit "point", VStr (point i));
          (lit "supported", VBool (Nat.ltb i k));
          (lit "reason", VStr (lit "checked against the document")) ].
Definition validation_answer (k : nat) : answer :=
  Object (VDict [ (lit "result", VList (map (verdict k) (seq 0 10))) ]).

(** Seven of ten supported: the filter branch. *)
Definition env_seven : environment :=
  scripted [] [topics_answer; Text (bullets_text ten_points);
               validation_answer 7].

(** Six of ten supported, regeneration answers with two points. *)
Definition env_six : environment :=
  scripted [] [topics_answer; Text (bullets_text ten_points);
               validation_answer 6;
               Text (bullets_text [lit "fact A"; lit "fact B"])].

(** Six of ten supported, the backend is down when regeneration is tried. *)
Definition env_six_down : environment :=
  scripted [] [topics_answer; Text (bullets_text ten_points);
               validation_answer 6; Fails backend_down].

(** Six of ten supported, regeneration answers with an empty text. *)
Definition env_six_empty : environment :=
  scripted [] [topics_answer; Text (bullets_text ten_points);
               validation_answer 6; Text []].

(** The validation call fails. *)
Definition env_validation_down : environment :=
  scripted [] [topics_answer; Text (bullets_text ten_points);
               Fails backend_down].

(** The topic extraction call fails / answers with an empty object. *)
Definition env_topics_down : environment := scripted [] [Fails backend_down].
Definition env_topics_empty : environment := scripted [] [Object (VDict [])].

(** One generated point; the validator echoes two supported points, one of
    them 101 characters long, and one unsupported point. *)
Definition long_point : str := repeat 120%N 101.
Definition env_echo : environment :=
  scripted []
    [ topics_answer; Text (bullets_text [lit "only point"]);
      Object (VDict [ (lit "result",
        VList [ VDict [ (lit "point", VStr long_point);
                        (lit "supported", VBool true) ];
                VDict [ (lit "point", VStr (lit "second"));
                        (lit "supported", VBool true) ];
                VDict [ (lit "point", VStr (lit "third"));
                        (lit "supported", VBool false) ] ]) ]) ].

(** ** Sample data of the QA loop *)

(** A stored short-answer question of material [m1]. *)
Definition question_q1 : dict :=
  [ (lit "id", VStr (lit "q1"));
    (lit "material_id", VStr (lit "m1"));
    (lit "question", VStr (lit "What is a cell?"));
    (lit "question_type", VStr (lit "short_answer"));
    (lit "options", VList []);
    (lit "correct_answer", VStr (lit "The unit of life"));
    (lit "topic", VStr (lit "Cells"));
    (lit "difficulty", VStr (lit "medium"));
    (lit "created_at", VDatetime 0) ].

(** A feedback record on [q1]. *)
Definition rating (n : nat) (correct : bool) (helpful : option bool)
    : FeedbackRecord :=
  {| feedback_id := lit "f" ++ [N.of_nat (48 + n)];
     feedback_question_id := lit "q1";
     user_id := lit "u1";
     is_correct := correct;
     is_helpful := helpful;
     difficulty_rating := None;
     feedback_text := None;
     feedback_created_at := n |}.

(** Five records, two correct, helpfulness ratings True, False, True. *)
Definition five_records : list FeedbackRecord :=
  [ rating 0 true (Some true); rating 1 true (Some false);
    rating 2 false (Some true); rating 3 false None; rating 4 false None ].

(** Three records, none correct, all rated unhelpful. *)
Definition poor_records : list FeedbackRecord :=
  [ rating 0 false (Some false); rating 1 false (Some false);
    rating 2 false (Some false) ].

(** Three records, none correct, one of three rated helpful. *)
Definition mixed_records : list FeedbackRecord :=
  [ rating 0 false (Some true); rating 1 false (Some false);
    rating 2 false (Some false) ].

Definition with_store (questions : list dict)
    (feedback : list FeedbackRecord) : world :=
  {| calls := []; materials := [lit "m1"]; questions := questions;
     feedback := feedback; changelog := []; uuids := 0; clock := 10 |}.

(** A JSON text is written with its quotation marks as characters. *)
Definition quoted (s : string) : str := [34%N] ++ lit s ++ [34%N].
Definition member (k v : string) : str := quoted k ++ lit ": " ++ quoted v.

(** The model's answer to an adversarial prompt, and what [json.loads]
    makes of it. *)
Definition adversarial_text : str :=
  lit "[{" ++ member "question" "Why do cells divide?" ++ lit ", "
  ++ member "adversarial_type" "misconception" ++ lit "}]".
Definition adversarial_json : value :=
  VList [ VDict [ (lit "question", VStr (lit "Why do cells divide?"));
                  (lit "adversarial_type", VStr (lit "misconception")) ] ].
Definition env_adversarial : environment :=
  scripted [(adversarial_text, adversarial_json)] [Text adversarial_text].

(** The model's answer to an improvement prompt. *)
Definition improved_text : str :=
  lit "{" ++ member "question" "What is a cell made of?" ++ lit ", "
  ++ member "improvement_notes" "Made the question more precise" ++ lit "}".
Definition improved_json : value :=
  VDict [ (lit "question", VStr (lit "What is a cell made of?"));
          (lit "improvement_notes", VStr (lit "Made the question more precise")) ].
Definition env_improve : environment :=
  scripted [(improved_text, improved_json)] [Text improved_text].

(** The quiz generator answers with two multiple-choice questions, then
    with one short-answer question. *)
Definition quiz_item (text : string) : value :=
  VDict [ (lit "question", VStr (lit text));
          (lit "correct_answer", VInt 0);
          (lit "topic", VStr (lit "Cells")) ].
Definition env_quiz : environment :=
  scripted []
    [ Questions [quiz_item "Which organelle?"; quiz_item "Which membrane?"];
      Questions [quiz_item "Define mitosis."] ].

(** A backend that is never asked anything. *)
Definition env_idle : environment := scripted [] [].

(** ** The pipeline on [doc100], step by step *)

Section Steps.
Import Summarization.
Variable env : environment.
Variable max_points : Z.

Definition topics_run := _extract_document_topics env doc100 model w0.
Definition topics_of : Topics :=
  match fst topics_run with Ret t => t | Raise _ => EMPTY_TOPICS end.
Definition w1_of : world := snd topics_run.

Definition points_run :=
  _generate_summary_points env doc100 max_points (key_topics topics_of) model
    w1_of.
Definition points_of : list str :=
  match fst points_run with Ret l => l | Raise _ => [] end.
Definition w2_of : world := snd points_run.

Definition validation_run := _validate_summary env points_of doc100 model w2_of.
Definition validation_of : Validation :=
  match fst validation_run with
  | Ret v => v
  | Raise _ => {| validation_error := None; point_analysis := None;
                  invalid_points_count := 0; total_points := 0 |}
  end.
Definition w3_of : world := snd validation_run.

Definition valid_of : list value :=
  match supported_points (analysis_of validation_of) with
  | Ret l => l
  | Raise _ => []
  end.

Definition prompt_of : prompt :=
  match get_document_summary_prompt doc100 max_points (key_topics topics_of) with
  | Ret p => p
  | Raise _ => TopicExtractionPrompt []
  end.

End Steps.

End Scenario.

(* ===================================================================== *)
(** * Further vocabulary of the statements about the pipeline *)
(* ===================================================================== *)

Module PipelineTerms.
Import Py Prompts World Summarization.

(** The backend call of step 2. *)
Definition summary_request (summary_prompt : prompt) (model : str) : request :=
  generate_completion summary_prompt model 0.3%float 0.95%float 1000.

(** The document text interpolated into a prompt. *)
Fixpoint prompt_document (p : prompt) : str :=
  match p with
  | DocumentSummaryPrompt text _ _ => text
  | TopicExtractionPrompt text => text
  | SummaryValidationPrompt _ original_text => original_text
  | StrongerPrompt summary_prompt => prompt_document summary_prompt
  | AdversarialFromExistingPrompt _ _ content => content
  | AdversarialFromScratchPrompt _ content => content
  | ImprovementPrompt _ _ _ _ content => content
  end.

(** The document text a backend call carries. *)
Definition request_document (r : request) : str :=
  match r with
  | generate_completion p _ _ _ _ => prompt_document p
  | generate_structured_completion p _ _ _ => prompt_document p
  | generate_quiz_questions text _ _ _ _ _ => text
  end.

(** The most document text the pipeline puts into a call: 5000 characters
    for validation, the truncated document (12000 characters and the
    ellipsis) otherwise. *)
Definition text_bound (r : request) : Z :=
  match r with
  | generate_structured_completion (SummaryValidationPrompt _ _) _ _ _ => 5000
  | _ => 12003
  end.

Definition within_text_bound (r : request) : Prop :=
  len (request_document r) <= text_bound r.

(** A computation that only appends calls that satisfy [P] to the log. *)
Definition sends (P : request -> Prop) {A} (c : M A) : Prop :=
  forall w, exists rest,
    calls (snd (c w)) = calls w ++ rest /\ Forall P rest.

Definition is_dict (v : value) : bool :=
  match v with VDict _ => true | _ => false end.

Definition is_str (v : value) : bool :=
  match v with VStr _ => true | _ => false end.

(** The strings of a list in which every item is a [str]. *)
Fixpoint all_str (l : list value) : option (list str) :=
  match l with
  | [] => Some []
  | VStr s :: l' => option_map (cons s) (all_str l')
  | _ :: _ => None
  end.

(** A bullet that is a string, as the loop "Clean and format bullets"
    leaves it. *)
Definition formatted (bullet : str) : str :=
  match format_bullet (VStr bullet) with
  | Ret clean_bullet => clean_bullet
  | Raise _ => bullet
  end.

(** A validation entry that is marked as supported ... *)
Definition marked_supported (p : value) : bool :=
  match get p "supported" (VBool false) with
  | Ret s => truthy s
  | Raise _ => false
  end.

(** ... and one that has no [point] key. *)
Definition lacks_point (p : value) : bool :=
  match p with
  | VDict d => negb (dict_mem (lit "point") d)
  | _ => false
  end.

(** The part of a response [_extract_json_array] hands to [json.loads],
    when the response has an opening bracket and a closing one after it. *)
Definition bracketed (text : str) : option str :=
  let start_idx := find (N_of_ascii "[") text in
  let end_idx := rfind (N_of_ascii "]") text + 1 in
  if (0 <=? start_idx) && (start_idx <? end_idx)
  then Some (slice (Some start_idx) (Some end_idx) text)
  else None.

End PipelineTerms.

(* ===================================================================== *)
(** * [services/database.py]: loading the questions of a material *)
(* ===================================================================== *)

Module Database.
Import Py World Models QADataset.
#[local] Open Scope py_scope.

(** [DatabaseService.get_questions_by_material] *)
Definition get_questions_by_material (env : environment) (material_id : str)
    : M (list QuizQuestion) :=
  docs <- questions_find material_id ;;
  for_map docs (from_dict env).

End Database.

(* ===================================================================== *)
(** * Further vocabulary of the statements about the QA loop *)
(* ===================================================================== *)

Module StoreTerms.
Import Py Prompts World Models QADataset.

(** [material_id] names a stored study material. *)
Definition known_material (material_id : str) (w : world) : bool :=
  existsb (str_eqb material_id) (materials w).

(** The exception of a missing study material. *)
Definition material_not_found (material_id : str) : exception :=
  ValueError (lit "Study material with ID " ++ material_id
              ++ lit " not found").

(** The backend calls of the quiz generation, of the adversarial
    generation and of the improvement. *)
Definition quiz_request (count : Z) (q_type difficulty : str)
    (topics : value) : request :=
  generate_quiz_questions MATERIAL_CONTENT count q_type DEFAULT_MODEL
    difficulty topics.

Definition adversarial_request (p : prompt) : request :=
  generate_completion p DEFAULT_MODEL 0.7%float 0.95%float 2000.

Definition improvement_request (p : prompt) : request :=
  generate_completion p DEFAULT_MODEL 0.7%float 0.95%float 1000.

(** The prompt of an adversarial generation that is not based on existing
    questions. *)
Definition from_scratch_prompt (num_examples : Z) : prompt :=
  AdversarialFromScratchPrompt num_examples
    (slice None (Some 4000) MATERIAL_CONTENT).

(** The part of a response between the first [open] and the last [close],
    when there is such a part. *)
Definition between (open close : ascii) (text : str) : option str :=
  let start_idx := find (N_of_ascii open) text in
  let end_idx := rfind (N_of_ascii close) text + 1 in
  if (0 <=? start_idx) && (start_idx <? end_idx)
  then Some (slice (Some start_idx) (Some end_idx) text)
  else None.

(** A document with a key that [QuizQuestion.__init__] does not take. *)
Definition unexpected_key (data : dict) : bool :=
  negb (forallb (fun kv => existsb (str_eqb (fst kv)) init_parameters) data).

(** A document that lacks a required parameter of [QuizQuestion.__init__]. *)
Definition missing_parameter (data : dict) : bool :=
  negb (forallb (fun k => dict_mem k data) required_parameters).

(** A document whose [difficulty], if it is a string, names a level. *)
Definition difficulty_converts (data : dict) : bool :=
  match dict_get (lit "difficulty") data with
  | Some (VStr s) => match level_of s with Ret _ => true | Raise _ => false end
  | _ => true
  end.

(** The keys an improvement may write. *)
Definition improvable_keys : list str :=
  [ lit "question"; lit "topic"; lit "updated_at"; lit "improvement_notes";
    lit "options"; lit "correct_answer" ].

(** The prompt of the improvement of a question that is not multiple
    choice. *)
Definition improvement_prompt (question : dict)
    (feedback : list FeedbackRecord) : prompt :=
  ImprovementPrompt (dget question "question" VNone)
    (dget question "question_type" VNone)
    (AnswerOnly (dget question "correct_answer" (VStr (lit "Unknown"))))
    (map feedback_line_of feedback)
    (slice None (Some 2000) MATERIAL_CONTENT).

(** The document stored for an adversarial question. *)
Definition adversarial_document (q : QuizQuestion) : dict :=
  [ (lit "id", id q);
    (lit "material_id", material_id q);
    (lit "question", question q);
    (lit "question_type", question_type q);
    (lit "options", options q);
    (lit "correct_answer", correct_answer q);
    (lit "topic", topic q);
    (lit "difficulty", VStr (lit "hard"));
    (lit "created_at", created_at q);
    (lit "is_adversarial", VBool true) ].

(** The questions as [create_questions_batch] leaves them: a question
    without [id] gets the next uuid. *)
Fixpoint assign_ids (env : environment) (n : nat) (qs : list QuizQuestion)
    : list QuizQuestion :=
  match qs with
  | [] => []
  | q :: rest =>
      if negb (truthy (id q))
      then set_id q (VStr (uuid4 env n)) :: assign_ids env (S n) rest
      else q :: assign_ids env n rest
  end.

(** The number of uuids [create_questions_batch] draws. *)
Definition missing_ids (qs : list QuizQuestion) : nat :=
  List.length (filter (fun q => negb (truthy (id q))) qs).

(** The calls of [generate_qa_pairs] for a distribution of the types. *)
Definition quiz_requests (difficulty : str) (topics : value)
    (counts : list (str * Z)) : list request :=
  map (fun item => quiz_request (snd item) (fst item) difficulty topics)
      (filter (fun item => negb (snd item <=? 0)) counts).

(** Two worlds that differ at most in the clock. *)
Definition same_store (w w' : world) : Prop :=
  calls w' = calls w /\ materials w' = materials w
  /\ questions w' = questions w /\ feedback w' = feedback w
  /\ changelog w' = changelog w /\ uuids w' = uuids w.

(** What is left of a run when the value it returns is set aside: the
    exception, if one was raised, and the world. *)
Definition outcome {A} (r : exc A * world) : option exception * world :=
  (match fst r with Ret _ => None | Raise e => Some e end, snd r).

(** A computation that leaves the materials and the questions as they
    are, whatever it returns or raises. *)
Definition steady {A} (c : M A) : Prop :=
  forall w, materials (snd (c w)) = materials w
            /\ questions (snd (c w)) = questions w.

(** A computation that makes no backend call, whatever it returns or
    raises. *)
Definition silent {A} (c : M A) : Prop :=
  forall w, calls (snd (c w)) = calls w.

End StoreTerms.

(* ===================================================================== *)
(** * [commands/study_commands.py]: the reply of [/summarize] *)
(* ===================================================================== *)

(** The part of the command [summarize] that turns the result of
    [summarize_document] into a reply: from "Extract the summary points"
    to "Send the summary".  The title, description and footer of the embed
    are left out; the texts built by f-strings are kept symbolic. *)

Module StudyCommands.
Import Py Prompts Summarization.

Inductive field_name :=
| DocumentTopics                          (* "Document Topics" *)
| ContentValidation                       (* "Content Validation" *)
| KeyPoints                               (* "Key Points" *)
| KeyPointsContinued (field_count : Z).   (* "Key Points (continued n)" *)

(** The three texts of the field "Content Validation". *)
Inductive validation_text :=
| RegeneratedNotice
| FilteredNotice (valid_count : Z)
| VerifiedNotice (valid_count total_count : Z).

Inductive field_value :=
| TopicText (subject_areas key_topics : option str)
| ValidationText (text : validation_text)
| PointsText (text : str).

Definition embed_field : Type := field_name * field_value.

Inductive reply :=
| Apology                         (* "Sorry, I couldn't generate a summary ..." *)
| Embed (fields : list embed_field)
| ErrorReply (e : exception).     (* f"Error generating summary: {str(e)}" *)

Definition FIELD_LIMIT : Z := 1024.

(** The state of the loop that splits the points into fields. *)
Record split_state := {
  fields : list embed_field;
  current_field : list str;
  current_length : Z;
  field_count : Z
}.

(** [list + str] *)
Definition concatenate_list_and_str : exception :=
  {| exc_type := "TypeError";
     exc_msg := lit "can only concatenate list (not " ++ [34%N] ++ lit "str"
                ++ [34%N] ++ lit ") to list" |}.

Section Presentation.
(** [format(v, "")] of a value that is not a string. *)
Variable format_value : value -> str.

(** "Add topic information if available" *)
Definition topics_field (r : Result) : exc (list embed_field) :=
  let subject_areas :=
    match topics r with Some t => subject_areas t | None => VList [] end in
  let key_topics :=
    match topics r with Some t => key_topics t | None => VList [] end in
  if truthy subject_areas || truthy key_topics then
    match (if truthy subject_areas
           then match join_value (lit ", ") subject_areas with
                | Ret s => Ret (Some s)
                | Raise e => Raise e
                end
           else Ret None) with
    | Raise e => Raise e
    | Ret areas =>
        match (if truthy key_topics
               then match join_value (lit ", ") key_topics with
                    | Ret s => Ret (Some s)
                    | Raise e => Raise e
                    end
               else Ret None) with
        | Raise e => Raise e
        | Ret keys => Ret [(DocumentTopics, TopicText areas keys)]
        end
    end
  else Ret [].

(** "Add validation info if available" *)
Definition validation_field (validation : bool) (r : Result)
    : list embed_field :=
  match Summarization.validation r with
  | Some validation_data =>
      if validation then
        let valid_count :=
          total_points validation_data - invalid_points_count validation_data in
        let total_count := total_points validation_data in
        let validation_text :=
          if match regenerated r with Some b => b | None => false end
          then RegeneratedNotice
          else if match filtered r with Some b => b | None => false end
          then FilteredNotice valid_count
          else VerifiedNotice valid_count total_count in
        [(ContentValidation, ValidationText validation_text)]
      else []
  | None => []
  end.

(** "Truncate individual points if needed" *)
Definition shorten (point : value) : exc value :=
  match vlen point with
  | Raise e => Raise e
  | Ret n =>
      if 1000 <? n then
        match slice_to point 997 with
        | Raise e => Raise e
        | Ret (VStr s) => Ret (VStr (s ++ lit "..."))
        | Ret _ => Raise concatenate_list_and_str
        end
      else Ret point
  end.

(** [f"• {point}"] *)
Definition render (point : value) : str :=
  [BULLET; SPACE] ++ match point with
                     | VStr s => s
                     | _ => format_value point
                     end.

Definition key_points_name (field_count : Z) : field_name :=
  if field_count =? 1 then KeyPoints else KeyPointsContinued field_count.

Definition close_field (st : split_state) : embed_field :=
  (key_points_name (field_count st),
   PointsText (join [NEWLINE] (current_field st))).

(** The body of [for point in summary_points:]. *)
Definition add_point (st : split_state) (point : value) : exc split_state :=
  match shorten point with
  | Raise e => Raise e
  | Ret point =>
      let point_text := render point in
      if FIELD_LIMIT <? current_length st + len point_text + 1 then
        Ret {| fields := fields st ++ [close_field st];
               current_field := [point_text];
               current_length := len point_text;
               field_count := field_count st + 1 |}
      else
        Ret {| fields := fields st;
               current_field := current_field st ++ [point_text];
               current_length := current_length st + len point_text + 1;
               field_count := field_count st |}
  end.

Fixpoint split_points (st : split_state) (summary_points : list value)
    : exc split_state :=
  match summary_points with
  | [] => Ret st
  | point :: rest =>
      match add_point st point with
      | Raise e => Raise e
      | Ret st' => split_points st' rest
      end
  end.

(** "Split summary points into multiple fields if needed to stay within
    Discord's limits", with the last field. *)
Definition key_point_fields (summary_points : list value)
    : exc (list embed_field) :=
  match split_points {| fields := []; current_field := [];
                        current_length := 0; field_count := 1 |}
          summary_points with
  | Raise e => Raise e
  | Ret st =>
      Ret (if nonempty (current_field st)
           then fields st ++ [close_field st]
           else fields st)
  end.

(** The reply to the user for a result of [summarize_document]. *)
Definition summary_reply (validation : bool) (summary_result : Result)
    : reply :=
  let summary_points := summary summary_result in
  if negb (nonempty summary_points) || negb (existsb truthy summary_points)
  then Apology
  else
    match topics_field summary_result with
    | Raise e => ErrorReply e
    | Ret topic_fields =>
        match key_point_fields summary_points with
        | Raise e => ErrorReply e
        | Ret point_fields =>
            Embed (topic_fields
                   ++ validation_field validation summary_result
                   ++ point_fields)
        end
    end.

End Presentation.

(** ** Vocabulary of the statements about the reply *)

(** A point as the field shows it. *)
Definition shown (point : str) : str :=
  [BULLET; SPACE]
  ++ (if 1000 <? len point
      then slice None (Some 997) point ++ lit "..."
      else point).

(** The field that holds a group of shown points. *)
Definition points_field (number : nat) (group : list str) : embed_field :=
  (key_points_name (Z.of_nat (S number)),
   PointsText (join [NEWLINE] group)).

Fixpoint number_fields (number : nat) (groups : list (list str))
    : list embed_field :=
  match groups with
  | [] => []
  | group :: rest => points_field number group :: number_fields (S number) rest
  end.

(** A group that makes a valid field value. *)
Definition fits (group : list str) : Prop :=
  group <> [] /\ 0 < len (join [NEWLINE] group) <= FIELD_LIMIT.

(** What the loop keeps true: the fields closed so far hold the groups, in
    order and numbered from 1; every group fits; and [current_length] is an
    upper bound, itself within the limit, of the length of the field under
    construction. *)
Definition split_invariant (st : split_state) (groups : list (list str))
    : Prop :=
  fields st = number_fields 0 groups
  /\ field_count st = Z.of_nat (S (List.length groups))
  /\ Forall fits groups
  /\ Forall (fun p => 2 <= len p) (current_field st)
  /\ (current_field st = [] -> current_length st = 0)
  /\ (current_field st <> [] ->
      len (join [NEWLINE] (current_field st)) <= current_length st
      /\ current_length st <= FIELD_LIMIT).

End StudyCommands.

(* ===================================================================== *)
(** * Further concrete runs *)
(* ===================================================================== *)

Module Cases.
Import Py Prompts World Models QADataset Scenario.

(** The topic extraction answers with a key topic that is not a string. *)
Definition env_bad_topics : environment :=
  scripted [] [Object (VDict [ (lit "key_topics", VList [VInt 1]) ])].

(** The backend is down when the summary is requested. *)
Definition env_summary_down : environment :=
  scripted [] [topics_answer; Fails backend_down; Fails backend_down].

(** Two points; the validator supports an entry without [point] and
    rejects the other. *)
Definition env_no_point : environment :=
  scripted []
    [ topics_answer; Text (bullets_text [lit "one"; lit "two"]);
      Object (VDict [ (lit "result",
        VList [ VDict [ (lit "supported", VBool true) ];
                VDict [ (lit "point", VStr (lit "two"));
                        (lit "supported", VBool false) ] ]) ]) ].

(** The summary completion holds brackets around something that is not
    JSON, and no bullet line. *)
Definition unparseable_text : str := lit "[first point, second point]".
Definition env_unparseable : environment :=
  scripted [] [topics_answer; Text unparseable_text].

(** The same with three bullet lines after the brackets. *)
Definition bulleted_text : str :=
  lit "[see below]" ++ [NEWLINE] ++ lit "- first" ++ [NEWLINE]
  ++ lit "* second" ++ [NEWLINE] ++ lit "- third".
Definition env_bulleted : environment :=
  scripted [] [topics_answer; Text bulleted_text].

(** A backend that is down at its first call. *)
Definition env_down : environment := scripted [] [Fails backend_down].

(** An answer without any bracket. *)
Definition env_no_list : environment :=
  scripted [] [Text (lit "I cannot produce questions for this material.")].

(** An answer whose JSON list holds an object and then a number. *)
Definition partial_text : str :=
  lit "[{" ++ member "question" "Why do cells divide?" ++ lit "}, 7]".
Definition partial_json : value :=
  VList [ VDict [ (lit "question", VStr (lit "Why do cells divide?")) ];
          VInt 7 ].
Definition env_partial : environment :=
  scripted [(partial_text, partial_json)] [Text partial_text].

(** A first adversarial run on the empty store. *)
Definition adversarial_run : exc (list QuizQuestion) * world :=
  generate_adversarial_examples env_adversarial (lit "m1") 1 false w0.
Definition adversarial_questions : list QuizQuestion :=
  match fst adversarial_run with Ret qs => qs | Raise _ => [] end.

(** Three questions of two types. *)
Definition two_types : list str := [lit "multiple_choice"; lit "short_answer"].
Definition quiz_run : exc (list QuizQuestion) * world :=
  generate_qa_pairs env_quiz (lit "m1") 3 two_types (lit "medium") VNone w0.
Definition quiz_made : list QuizQuestion :=
  match fst quiz_run with Ret qs => qs | Raise _ => [] end.

(** An improvement of [q1] that goes through. *)
Definition improvement_run : exc bool * world :=
  _improve_question env_improve question_q1 (lit "m1") mixed_records
    (with_store [question_q1] mixed_records).

(** A question that has no id yet, and one that has. *)
Definition question_without_id : QuizQuestion :=
  {| id := VNone; material_id := VStr (lit "m1");
     question := VStr (lit "What is a membrane?");
     question_type := VStr (lit "short_answer"); options := VList [];
     correct_answer := VStr (lit "A boundary"); topic := VStr (lit "Cells");
     difficulty := Level EASY; created_at := VDatetime 3 |}.
Definition question_with_id : QuizQuestion :=
  {| id := VStr (lit "q7"); material_id := VStr (lit "m1");
     question := VStr (lit "What is a nucleus?");
     question_type := VStr (lit "short_answer"); options := VList [];
     correct_answer := VStr (lit "The control centre");
     topic := VStr (lit "Cells");
     difficulty := Level HARD; created_at := VDatetime 4 |}.
Definition batch_documents : list dict :=
  [ [ (lit "id", VStr (lit "uuid-0")); (lit "material_id", VStr (lit "m1"));
      (lit "question", VStr (lit "What is a membrane?"));
      (lit "question_type", VStr (lit "short_answer"));
      (lit "options", VList []);
      (lit "correct_answer", VStr (lit "A boundary"));
      (lit "topic", VStr (lit "Cells"));
      (lit "difficulty", VStr (lit "easy"));
      (lit "created_at", VDatetime 3) ];
    [ (lit "id", VStr (lit "q7")); (lit "material_id", VStr (lit "m1"));
      (lit "question", VStr (lit "What is a nucleus?"));
      (lit "question_type", VStr (lit "short_answer"));
      (lit "options", VList []);
      (lit "correct_answer", VStr (lit "The control centre"));
      (lit "topic", VStr (lit "Cells"));
      (lit "difficulty", VStr (lit "hard"));
      (lit "created_at", VDatetime 4) ] ].

End Cases.

(* ===================================================================== *)
(** * Properties of the summarization pipeline *)
(* ===================================================================== *)

Module SummarizationFacts.
Import Py Prompts World Summarization.
#[local] Open Scope py_scope.

(** ** A computation only ever appends to the log of backend calls *)

Lemma appends_ret {A} (a : A) : appends (ret a).
Proof. intros w; exists []; cbn; now rewrite app_nil_r. Qed.

Lemma appends_raise {A} (e : exception) : appends (@raise A e).
Proof. intros w; exists []; cbn; now rewrite app_nil_r. Qed.

Lemma appends_lift {A} (r : exc A) : appends (lift r).
Proof. intros w; exists []; cbn; now rewrite app_nil_r. Qed.

Lemma appends_bind {A B} (c : M A) (k : A -> M B) :
  appends c -> (forall a, appends (k a)) -> appends (bind c k).
Proof.
  intros Hc Hk w. unfold bind.
  destruct (Hc w) as [r1 H1]. destruct (c w) as [[a|e] w1]; cbn in *.
  - destruct (Hk a w1) as [r2 H2]. exists (r1 ++ r2).
    now rewrite H2, H1, app_assoc.
  - now exists r1.
Qed.

Lemma appends_try_except {A} (c : M A) (h : exception -> M A) :
  appends c -> (forall e, appends (h e)) -> appends (try_except c h).
Proof.
  intros Hc Hh w. unfold try_except.
  destruct (Hc w) as [r1 H1]. destruct (c w) as [[a|e] w1]; cbn in *.
  - now exists r1.
  - destruct (Hh e w1) as [r2 H2]. exists (r1 ++ r2).
    now rewrite H2, H1, app_assoc.
Qed.

Lemma appends_call {A} (oracle : list request -> request -> exc A) r :
  appends (call oracle r).
Proof. intros w; now exists [r]. Qed.

Lemma appends_if {A} (b : bool) (c1 c2 : M A) :
  appends c1 -> appends c2 -> appends (if b then c1 else c2).
Proof. now destruct b. Qed.

Ltac appends_tac :=
  repeat first
    [ apply appends_bind; [ | intros ? ]
    | apply appends_try_except; [ | intros ? ]
    | apply appends_if
    | apply appends_ret | apply appends_raise | apply appends_lift
    | apply appends_call ].

(** ** Length bounds of the formatted bullets *)

Lemma slice_to_length {A} (hi : Z) (l : list A) :
  0 <= hi -> len (slice None (Some hi) l) <= hi.
Proof.
  intros Hhi. unfold slice, len, clamp_index.
  destruct (hi <? 0) eqn:E; [apply Z.ltb_lt in E; lia|].
  rewrite length_firstn. cbn [skipn]. lia.
Qed.

Lemma format_bullet_short bullet s : format_bullet bullet = Ret s -> short s.
Proof.
  unfold format_bullet, short. destruct bullet; try discriminate.
  intros [= <-].
  match goal with |- context [if 100 <? len ?x then _ else _] =>
    generalize x end.
  intros c.
  destruct (100 <? len c) eqn:E.
  - unfold len. rewrite length_app.
    pose proof (slice_to_length 97 c ltac:(lia)) as H. unfold len in H.
    cbn [lit list_ascii_of_string map List.length]. lia.
  - apply Z.ltb_ge in E. lia.
Qed.

Lemma format_each_short bullets out :
  format_each bullets = Ret out ->
  List.length out = List.length bullets /\ Forall short out.
Proof.
  revert out. induction bullets as [|b rest IH]; intros out; cbn.
  - intros [= <-]. split; [reflexivity|constructor].
  - destruct (format_bullet b) as [s|e] eqn:Eb; [|discriminate].
    destruct (format_each rest) as [l|e]; [|discriminate].
    intros [= <-]. destruct (IH l eq_refl) as [Hl Hs]. split.
    + cbn. now rewrite Hl.
    + constructor; [eapply format_bullet_short; eassumption|assumption].
Qed.

Lemma format_bullets_bounds bullets max_points out :
  0 <= max_points ->
  format_bullets bullets max_points = Ret out ->
  len out <= max_points /\ Forall short out.
Proof.
  intros Hmp. unfold format_bullets.
  destruct bullets; cbn [slice_to iter]; try discriminate; intros H;
    apply format_each_short in H; destruct H as [Hl Hs];
    (split; [|exact Hs]); unfold len; rewrite Hl.
  - rewrite length_map. apply (slice_to_length max_points s Hmp).
  - apply (slice_to_length max_points l Hmp).
Qed.

Section Facts.
Variable env : environment.

Lemma appends_generate_summary_points doc mp kw model :
  appends (_generate_summary_points env doc mp kw model).
Proof.
  unfold _generate_summary_points, ollama_generate_completion. appends_tac.
Qed.

Lemma appends_validate_summary pts doc model :
  appends (_validate_summary env pts doc model).
Proof.
  unfold _validate_summary, ollama_generate_structured_completion. appends_tac.
Qed.

Lemma appends_generate_replacement_summary doc mp kw model :
  appends (_generate_replacement_summary env doc mp kw model).
Proof.
  unfold _generate_replacement_summary, ollama_generate_completion.
  appends_tac.
Qed.

(** Topic extraction makes exactly one backend call and never raises. *)
Lemma extract_document_topics_runs doc model w :
  exists t,
    _extract_document_topics env doc model w
    = (Ret t, set_calls w (calls w ++ [topic_request doc model])).
Proof.
  unfold _extract_document_topics, try_except, bind, ret,
    ollama_generate_structured_completion, call, lift,
    get_topic_extraction_prompt, topic_request.
  destruct (structured_completion env _ _) as [response|e]; cbn; [|eauto].
  destruct (get response "subject_areas" _) as [sa|e]; cbn; [|eauto].
  destruct (get response "key_topics" _) as [kt|e]; cbn; [|eauto].
  destruct (negb (truthy kt) && negb (truthy sa)); cbn; eauto.
Qed.

(** [summarize_document] is its stages run in order. *)
Lemma summarize_document_stages doc mp model ve :
  summarize_document env doc mp model ve
  = if len doc <? 100 then ret too_short_result
    else (topics <- _extract_document_topics env (truncated doc) model ;;
          step2 env (truncated doc) mp model ve topics).
Proof. reflexivity. Qed.

Lemma appends_step4 doc mp model t pts v :
  appends (step4 env doc mp model t pts v).
Proof.
  unfold step4.
  apply appends_if; [|apply appends_ret].
  apply appends_bind; [apply appends_lift|intros vp].
  apply appends_if; [|apply appends_ret].
  apply appends_bind; [apply appends_generate_replacement_summary|intros rs].
  apply appends_if; apply appends_ret.
Qed.

Lemma appends_step3 doc mp model ve t pts :
  appends (step3 env doc mp model ve t pts).
Proof.
  unfold step3. apply appends_if; [|apply appends_ret].
  apply appends_bind; [apply appends_validate_summary|intros v].
  apply appends_step4.
Qed.

Lemma appends_step2 doc mp model ve t :
  appends (step2 env doc mp model ve t).
Proof.
  unfold step2.
  apply appends_bind; [apply appends_generate_summary_points|intros pts].
  apply appends_step3.
Qed.

(** C6. A document of fewer than 100 characters is rejected with the fixed
    placeholder result and the world is left as it was, so no call reaches
    the completion backend; a document of at least 100 characters reaches
    topic extraction: the first backend call of the run is the topic
    extraction request for the (truncated) document. *)
Theorem summarize_document_length_gate
    (document_text : str) (max_points : Z) (model : str)
    (validation_enabled : bool) (w : world) :
  (len document_text < 100 ->
     summarize_document env document_text max_points model validation_enabled w
     = (Ret too_short_result, w))
  /\ (100 <= len document_text ->
        exists rest,
          calls (snd (summarize_document env document_text max_points model
                        validation_enabled w))
          = calls w ++ topic_request (truncated document_text) model :: rest).
Proof.
  rewrite summarize_document_stages.
  split; intros Hlen.
  - apply Z.ltb_lt in Hlen. now rewrite Hlen.
  - apply Z.ltb_ge in Hlen. rewrite Hlen. unfold bind.
    destruct (extract_document_topics_runs (truncated document_text) model w)
      as [t ->].
    destruct (appends_step2 (truncated document_text) max_points model
                validation_enabled t
                (set_calls w (calls w ++ [topic_request (truncated document_text) model])))
      as [rest Hrest].
    exists rest. rewrite Hrest. cbn. now rewrite <- app_assoc.
Qed.

(** ** Topic extraction *)

(** C7 (as the code has it). Topic extraction never raises: in every
    world, for every backend, it returns a topic set after exactly one
    backend call.  When the backend call raises, or answers with something
    that is not an object, the EMPTY topic set is returned (both lists
    empty); when the call returns an object whose [subject_areas] and
    [key_topics] are both empty (or absent), the fixed generic topic set is
    returned, and its two lists are non-empty; in the remaining case the two
    entries of the answer are returned as they are. *)
Theorem extract_document_topics_fallback
    (document_text model : str) (w : world) :
  let r := topic_request document_text model in
  let w' := set_calls w (calls w ++ [r]) in
  (exists topics,
      _extract_document_topics env document_text model w = (Ret topics, w'))
  /\ (forall e,
        structured_completion env (calls w) r = Raise e ->
        _extract_document_topics env document_text model w
        = (Ret EMPTY_TOPICS, w'))
  /\ (forall response,
        structured_completion env (calls w) r = Ret response ->
        (forall d, response <> VDict d) ->
        _extract_document_topics env document_text model w
        = (Ret EMPTY_TOPICS, w'))
  /\ (forall response sa kt,
        structured_completion env (calls w) r = Ret response ->
        get response "subject_areas" (VList []) = Ret sa ->
        get response "key_topics" (VList []) = Ret kt ->
        truthy sa = false -> truthy kt = false ->
        _extract_document_topics env document_text model w
        = (Ret DEFAULT_TOPICS, w'))
  /\ (forall response sa kt,
        structured_completion env (calls w) r = Ret response ->
        get response "subject_areas" (VList []) = Ret sa ->
        get response "key_topics" (VList []) = Ret kt ->
        truthy sa || truthy kt = true ->
        _extract_document_topics env document_text model w
        = (Ret {| subject_areas := sa; key_topics := kt |}, w'))
  /\ truthy (subject_areas DEFAULT_TOPICS) = true
  /\ truthy (key_topics DEFAULT_TOPICS) = true.
Proof.
  cbv zeta. split; [apply extract_document_topics_runs|].
  unfold _extract_document_topics, try_except, bind, ret,
    ollama_generate_structured_completion, call, lift,
    get_topic_extraction_prompt, topic_request.
  repeat split.
  - intros e ->. reflexivity.
  - intros response -> Hobject.
    destruct response as [| | | | | |d|]; try reflexivity.
    now destruct (Hobject d).
  - intros response sa kt -> -> -> -> ->. reflexivity.
  - intros response sa kt -> -> -> Htruthy.
    destruct (truthy sa), (truthy kt); try reflexivity. discriminate.
Qed.

(** ** Running the pipeline up to a given step *)

Lemma summarize_document_to_step3 doc mp model ve w topics w1 points w2 :
  100 <= len doc ->
  _extract_document_topics env (truncated doc) model w = (Ret topics, w1) ->
  _generate_summary_points env (truncated doc) mp (key_topics topics) model w1
    = (Ret points, w2) ->
  summarize_document env doc mp model ve w
  = step3 env (truncated doc) mp model ve topics points w2.
Proof.
  intros Hlen H1 H2. rewrite summarize_document_stages.
  apply Z.ltb_ge in Hlen. rewrite Hlen.
  unfold bind at 1. rewrite H1. unfold step2, bind. now rewrite H2.
Qed.

Lemma step3_to_step4 doc mp model topics points w2 v w3 :
  points <> [] ->
  _validate_summary env points doc model w2 = (Ret v, w3) ->
  step3 env doc mp model true topics points w2
  = step4 env doc mp model topics points v w3.
Proof.
  intros Hne H3. unfold step3.
  destruct points as [|p ps]; [congruence|]. cbn [andb nonempty].
  unfold bind. now rewrite H3.
Qed.

(** Step 2 returning means the summary prompt could be built. *)
Lemma generate_summary_points_prompt doc mp kw model w points w' :
  _generate_summary_points env doc mp kw model w = (Ret points, w') ->
  exists prompt, get_document_summary_prompt doc mp kw = Ret prompt.
Proof.
  unfold _generate_summary_points, bind, lift.
  destruct (get_document_summary_prompt doc mp kw) as [p|e]; [eauto|].
  discriminate.
Qed.

(** The regeneration makes one backend call, with the stricter prompt at
    temperature 0.2, and never raises once the prompt can be built: it
    returns the formatted bullets of the answer, and the empty list when
    the call or the formatting raises. *)
Lemma generate_replacement_summary_returns doc mp kw model prompt w :
  get_document_summary_prompt doc mp kw = Ret prompt ->
  _generate_replacement_summary env doc mp kw model w
  = (Ret match completion env (calls w) (replacement_request prompt model) with
         | Ret response =>
             match format_bullets (_extract_json_array env response) mp with
             | Ret formatted => formatted
             | Raise _ => []
             end
         | Raise _ => []
         end,
     set_calls w (calls w ++ [replacement_request prompt model])).
Proof.
  intros Hp.
  unfold _generate_replacement_summary, try_except, bind, ret, lift,
    ollama_generate_completion, call, replacement_request.
  rewrite Hp.
  destruct (completion env _ _) as [response|e]; [|reflexivity].
  destruct (format_bullets _ _); reflexivity.
Qed.

Lemma generate_replacement_summary_runs doc mp kw model prompt w :
  get_document_summary_prompt doc mp kw = Ret prompt ->
  let w' := set_calls w (calls w ++ [replacement_request prompt model]) in
  exists replacement,
    _generate_replacement_summary env doc mp kw model w = (Ret replacement, w')
    /\ (forall e,
          completion env (calls w) (replacement_request prompt model) = Raise e ->
          replacement = []).
Proof.
  intros Hp. cbv zeta.
  rewrite (generate_replacement_summary_returns _ _ _ _ _ _ Hp).
  eexists. split; [reflexivity|]. now intros e ->.
Qed.

(** ** The 0.7 threshold in exact arithmetic *)

Lemma agrees_up_to_spec (bound valid total : nat) :
  agrees_up_to bound = true ->
  (valid <= bound)%nat -> (total <= bound)%nat ->
  lost_more_than_30_percent valid total
  = (10 * Z.of_nat valid <? 7 * Z.of_nat total).
Proof.
  intros H Hv Ht. unfold agrees_up_to in H.
  rewrite forallb_forall in H.
  specialize (H total ltac:(apply in_seq; lia)).
  rewrite forallb_forall in H.
  specialize (H valid ltac:(apply in_seq; lia)).
  now apply Bool.eqb_prop in H.
Qed.

Lemma agrees_up_to_200 : agrees_up_to 200 = true.
Proof. vm_compute. reflexivity. Qed.

(** For lists of up to 200 points the binary64 comparison of the source
    decides exactly "fewer than seven tenths". *)
Lemma lost_more_than_30_percent_exact (valid total : nat) :
  (valid <= 200)%nat -> (total <= 200)%nat ->
  lost_more_than_30_percent valid total
  = (10 * Z.of_nat valid <? 7 * Z.of_nat total).
Proof. apply agrees_up_to_spec, agrees_up_to_200. Qed.

(** ** Validation and the decision of step 4 *)

(** C10. Let steps 1 and 2 have produced a non-empty summary.  If the
    validation backend call raises, [_validate_summary] returns a record
    with [invalid_points_count = 0] that carries the error text, and
    [summarize_document] returns the initial summary unchanged with neither
    flag set.  The same result, up to the validation record, is returned
    for every validation record that counts no invalid point; the record of
    a validation that went through and approved every point has no error
    text. *)
Theorem validation_failure_accepts_summary
    (document_text : str) (max_points : Z) (model : str)
    (w w1 w2 : world) (topics : Topics) (summary_points : list str) :
  100 <= len document_text ->
  _extract_document_topics env (truncated document_text) model w
    = (Ret topics, w1) ->
  _generate_summary_points env (truncated document_text) max_points
    (key_topics topics) model w1 = (Ret summary_points, w2) ->
  summary_points <> [] ->
  let r := validation_request summary_points (truncated document_text) model in
  let w3 := set_calls w2 (calls w2 ++ [r]) in
  (forall e,
      structured_completion env (calls w2) r = Raise e ->
      let failed :=
        {| validation_error := Some (exc_msg e);
           point_analysis := None;
           invalid_points_count := 0;
           total_points := len summary_points |} in
      _validate_summary env summary_points (truncated document_text) model w2
      = (Ret failed, w3)
      /\ summarize_document env document_text max_points model true w
         = (Ret (initial_result topics summary_points (Some failed)), w3))
  /\ (forall v w3',
        _validate_summary env summary_points (truncated document_text) model w2
        = (Ret v, w3') ->
        invalid_points_count v = 0 ->
        summarize_document env document_text max_points model true w
        = (Ret (initial_result topics summary_points (Some v)), w3'))
  /\ (forall response analysis,
        structured_completion env (calls w2) r = Ret response ->
        get response "result" (VList []) = Ret (VList analysis) ->
        invalid_points analysis = Ret [] ->
        _validate_summary env summary_points (truncated document_text) model w2
        = (Ret {| validation_error := None;
                  point_analysis := Some analysis;
                  invalid_points_count := 0;
                  total_points := len analysis |}, w3)).
Proof.
  intros Hlen H1 H2 Hne. cbv zeta.
  assert (Hzero : forall v w3',
             _validate_summary env summary_points (truncated document_text)
               model w2 = (Ret v, w3') ->
             invalid_points_count v = 0 ->
             summarize_document env document_text max_points model true w
             = (Ret (initial_result topics summary_points (Some v)), w3')).
  { intros v w3' H3 H0.
    rewrite (summarize_document_to_step3 _ _ _ _ _ _ _ _ _ Hlen H1 H2).
    rewrite (step3_to_step4 _ _ _ _ _ _ _ _ Hne H3).
    unfold step4. now rewrite H0. }
  split; [|split]; [|exact Hzero|].
  - intros e He.
    assert (Hv : _validate_summary env summary_points
                   (truncated document_text) model w2
                 = (Ret {| validation_error := Some (exc_msg e);
                           point_analysis := None;
                           invalid_points_count := 0;
                           total_points := len summary_points |},
                    set_calls w2
                      (calls w2 ++
                       [validation_request summary_points
                          (truncated document_text) model]))).
    { unfold _validate_summary, try_except, bind, ret, lift,
        ollama_generate_structured_completion, call.
      unfold validation_request in He. now rewrite He. }
    split; [exact Hv|]. now apply Hzero.
  - intros response analysis Hr Hg Hi.
    unfold _validate_summary, try_except, bind, ret, lift,
      ollama_generate_structured_completion, call.
    unfold validation_request in Hr. now rewrite Hr, Hg, Hi.
Qed.

(** What step 4 does once validation has counted an invalid point and the
    supported points could be collected. *)
Lemma step4_decision doc mp model topics points v w3 valid prompt :
  0 < invalid_points_count v ->
  supported_points (analysis_of v) = Ret valid ->
  get_document_summary_prompt doc mp (key_topics topics) = Ret prompt ->
  (lost_more_than_30_percent (List.length valid) (List.length points) = false ->
     step4 env doc mp model topics points v w3
     = (Ret (filtered_result topics valid v), w3))
  /\ (lost_more_than_30_percent (List.length valid) (List.length points) = true ->
       let w4 := set_calls w3 (calls w3 ++ [replacement_request prompt model]) in
       exists replacement,
         _generate_replacement_summary env doc mp (key_topics topics) model w3
         = (Ret replacement, w4)
         /\ (forall e,
               completion env (calls w3) (replacement_request prompt model)
               = Raise e -> replacement = [])
         /\ step4 env doc mp model topics points v w3
            = (Ret (if nonempty replacement
                    then regenerated_result topics replacement v
                    else initial_result topics points (Some v)), w4)).
Proof.
  intros Hinv Hvalid Hp. apply Z.ltb_lt in Hinv.
  unfold step4. rewrite Hinv. unfold bind, lift. rewrite Hvalid.
  split; intros ->.
  - reflexivity.
  - cbv zeta.
    destruct (generate_replacement_summary_runs doc mp (key_topics topics)
                model prompt w3 Hp) as [replacement [Hrun Hfail]].
    exists replacement. split; [exact Hrun|]. split; [exact Hfail|].
    rewrite Hrun. now destruct replacement.
Qed.

(** C1 (as the code has it). Let validation have counted at least one
    invalid point and let [valid] be the supported points.  If [valid] is
    not fewer than 0.7 times the generated points, the summary returned is
    exactly [valid], with [filtered = True] and no [regenerated] key, and no
    further backend call is made.  Otherwise generation is rerun exactly
    once, with the stricter prompt at temperature 0.2: [replacement] is what
    [_generate_replacement_summary] returns in the world after validation,
    that is the formatted bullets of the backend's answer, or the empty
    list when the call or the formatting raises.  When [replacement] is
    not empty it is the summary returned, with [regenerated = True] and no
    [filtered] key; when it is empty the initial summary is returned with
    neither flag.  Seven supported points of ten are on the filter side,
    six of ten on the regeneration side; for up to 200 points the binary64
    comparison of the source decides exactly
    [10 * supported < 7 * generated]. *)
Theorem filter_or_regenerate
    (document_text : str) (max_points : Z) (model : str)
    (w w1 w2 w3 : world) (topics : Topics) (summary_points : list str)
    (v : Validation) (valid : list value) :
  100 <= len document_text ->
  _extract_document_topics env (truncated document_text) model w
    = (Ret topics, w1) ->
  _generate_summary_points env (truncated document_text) max_points
    (key_topics topics) model w1 = (Ret summary_points, w2) ->
  summary_points <> [] ->
  _validate_summary env summary_points (truncated document_text) model w2
    = (Ret v, w3) ->
  0 < invalid_points_count v ->
  supported_points (analysis_of v) = Ret valid ->
  (lost_more_than_30_percent (List.length valid) (List.length summary_points)
     = false ->
     summarize_document env document_text max_points model true w
     = (Ret (filtered_result topics valid v), w3))
  /\ (lost_more_than_30_percent (List.length valid) (List.length summary_points)
       = true ->
       exists prompt,
         get_document_summary_prompt (truncated document_text) max_points
           (key_topics topics) = Ret prompt
         /\ let rerun := replacement_request prompt model in
            let w4 := set_calls w3 (calls w3 ++ [rerun]) in
            let replacement :=
              match completion env (calls w3) rerun with
              | Ret response =>
                  match format_bullets (_extract_json_array env response)
                          max_points with
                  | Ret formatted => formatted
                  | Raise _ => []
                  end
              | Raise _ => []
              end in
            _generate_replacement_summary env (truncated document_text)
              max_points (key_topics topics) model w3 = (Ret replacement, w4)
            /\ (replacement <> [] ->
                summarize_document env document_text max_points model true w
                = (Ret {| success := true; error := None;
                          summary := map VStr replacement;
                          topics := Some topics; validation := Some v;
                          regenerated := Some true; filtered := None |}, w4))
            /\ (replacement = [] ->
                summarize_document env document_text max_points model true w
                = (Ret (initial_result topics summary_points (Some v)), w4)))
  /\ lost_more_than_30_percent 7 10 = false
  /\ lost_more_than_30_percent 6 10 = true
  /\ ((List.length valid <= 200)%nat ->
      (List.length summary_points <= 200)%nat ->
      lost_more_than_30_percent (List.length valid) (List.length summary_points)
      = (10 * Z.of_nat (List.length valid)
         <? 7 * Z.of_nat (List.length summary_points))).
Proof.
  intros Hlen H1 H2 Hne H3 Hinv Hvalid.
  destruct (generate_summary_points_prompt _ _ _ _ _ _ _ H2) as [prompt Hp].
  rewrite (summarize_document_to_step3 _ _ _ _ _ _ _ _ _ Hlen H1 H2).
  rewrite (step3_to_step4 _ _ _ _ _ _ _ _ Hne H3).
  destruct (step4_decision (truncated document_text) max_points model topics
              summary_points v w3 valid prompt Hinv Hvalid Hp) as [Hf _].
  split; [exact Hf|].
  split; [|split; [|split]];
    [|vm_compute; reflexivity|vm_compute; reflexivity
     |apply lost_more_than_30_percent_exact].
  intros Hlost. exists prompt. split; [exact Hp|]. cbv zeta.
  pose proof (generate_replacement_summary_returns (truncated document_text)
                max_points (key_topics topics) model prompt w3 Hp) as Hrun.
  split; [exact Hrun|].
  apply Z.ltb_lt in Hinv.
  unfold step4. rewrite Hinv. unfold bind, lift. rewrite Hvalid, Hlost, Hrun.
  split; intros Hreplacement.
  - destruct (match completion env _ _ with Ret _ => _ | Raise _ => _ end);
      [congruence|reflexivity].
  - now rewrite Hreplacement.
Qed.

(** C5 (as the code has it). When the regeneration branch is taken and the
    replacement generation fails (its backend call raises) or returns an
    empty list, [summarize_document] raises nothing and returns the INITIAL
    summary points, those that failed validation, with neither flag set. *)
Theorem failed_regeneration_keeps_initial_summary
    (document_text : str) (max_points : Z) (model : str)
    (w w1 w2 w3 : world) (topics : Topics) (summary_points : list str)
    (v : Validation) (valid : list value) (prompt : prompt) :
  100 <= len document_text ->
  _extract_document_topics env (truncated document_text) model w
    = (Ret topics, w1) ->
  _generate_summary_points env (truncated document_text) max_points
    (key_topics topics) model w1 = (Ret summary_points, w2) ->
  summary_points <> [] ->
  _validate_summary env summary_points (truncated document_text) model w2
    = (Ret v, w3) ->
  0 < invalid_points_count v ->
  supported_points (analysis_of v) = Ret valid ->
  lost_more_than_30_percent (List.length valid) (List.length summary_points)
    = true ->
  get_document_summary_prompt (truncated document_text) max_points
    (key_topics topics) = Ret prompt ->
  let r := replacement_request prompt model in
  let w4 := set_calls w3 (calls w3 ++ [r]) in
  (exists e, completion env (calls w3) r = Raise e)
  \/ _generate_replacement_summary env (truncated document_text) max_points
       (key_topics topics) model w3 = (Ret [], w4) ->
  summarize_document env document_text max_points model true w
  = (Ret (initial_result topics summary_points (Some v)), w4)
  /\ summary (initial_result topics summary_points (Some v))
     = map VStr summary_points
  /\ summary (initial_result topics summary_points (Some v)) <> [].
Proof.
  intros Hlen H1 H2 Hne H3 Hinv Hvalid Hlost Hp. cbv zeta. intros Hfail.
  rewrite (summarize_document_to_step3 _ _ _ _ _ _ _ _ _ Hlen H1 H2).
  rewrite (step3_to_step4 _ _ _ _ _ _ _ _ Hne H3).
  destruct (step4_decision (truncated document_text) max_points model topics
              summary_points v w3 valid prompt Hinv Hvalid Hp) as [_ Hr].
  destruct (Hr Hlost) as [replacement [Hrun [Hexc Hstep]]].
  assert (Hempty : replacement = []).
  { destruct Hfail as [[e He]|Hret].
    - exact (Hexc e He).
    - rewrite Hret in Hrun. congruence. }
  subst replacement. split; [exact Hstep|]. split; [reflexivity|].
  cbn. destruct summary_points; [congruence|discriminate].
Qed.

(** ** Size of the returned summary *)

Lemma within_bounds_strs mp (l : list str) :
  len l <= mp -> Forall short l -> within_bounds mp (map VStr l).
Proof.
  intros Hl Hs. split.
  - unfold len in *. now rewrite length_map.
  - apply Forall_map. eapply Forall_impl; [|exact Hs]. intros s Hshort.
    now exists s.
Qed.

Lemma generate_summary_points_bounds doc mp kw model w pts w' :
  1 <= mp ->
  _generate_summary_points env doc mp kw model w = (Ret pts, w') ->
  len pts <= mp /\ Forall short pts.
Proof.
  intros Hmp. unfold _generate_summary_points, try_except, bind, ret, lift,
    ollama_generate_completion, call.
  destruct (get_document_summary_prompt doc mp kw) as [p|e]; [|discriminate].
  assert (Hfallback : len [GENERATION_ERROR] <= mp
                      /\ Forall short [GENERATION_ERROR]).
  { split; [cbn; lia|]. constructor; [|constructor]. vm_compute. discriminate. }
  destruct (completion env _ _) as [response|e].
  - destruct (format_bullets _ mp) as [l|e] eqn:Ef; intros [= <- _].
    + eapply format_bullets_bounds; [|exact Ef]. lia.
    + exact Hfallback.
  - intros [= <- _]. exact Hfallback.
Qed.

Lemma generate_replacement_summary_bounds doc mp kw model w pts w' :
  1 <= mp ->
  _generate_replacement_summary env doc mp kw model w = (Ret pts, w') ->
  len pts <= mp /\ Forall short pts.
Proof.
  intros Hmp. unfold _generate_replacement_summary, try_except, bind, ret,
    lift, ollama_generate_completion, call.
  destruct (get_document_summary_prompt doc mp kw) as [p|e]; [|discriminate].
  assert (Hfallback : len (@nil str) <= mp /\ Forall short []).
  { split; [cbn; lia|constructor]. }
  destruct (completion env _ _) as [response|e].
  - destruct (format_bullets _ mp) as [l|e] eqn:Ef; intros [= <- _].
    + eapply format_bullets_bounds; [|exact Ef]. lia.
    + exact Hfallback.
  - intros [= <- _]. exact Hfallback.
Qed.

(** C3 (as the code has it). For [max_points >= 1], every summary that
    [summarize_document] returns without the [filtered] flag (the
    placeholder of a too-short document, the initial summary, the fallback
    of a failed generation, a regenerated summary, and the initial summary
    kept after a failed regeneration) has at most [max_points] entries, each
    a string of at most 100 characters. *)
Theorem unfiltered_summary_within_bounds
    (document_text : str) (max_points : Z) (model : str)
    (validation_enabled : bool) (w w' : world) (r : Result) :
  1 <= max_points ->
  summarize_document env document_text max_points model validation_enabled w
    = (Ret r, w') ->
  filtered r = None ->
  within_bounds max_points (summary r).
Proof.
  intros Hmp. rewrite summarize_document_stages.
  destruct (len document_text <? 100).
  { intros [= <- _] _. split; [cbn; lia|].
    constructor; [|constructor]. eexists; split; [reflexivity|].
    vm_compute. discriminate. }
  unfold bind at 1.
  destruct (_extract_document_topics env _ model w) as [[t|e] w1];
    [|discriminate].
  unfold step2, bind.
  destruct (_generate_summary_points env _ max_points _ model w1)
    as [[pts|e] w2] eqn:E2; [|discriminate].
  destruct (generate_summary_points_bounds _ _ _ _ _ _ _ Hmp E2) as [Hl Hs].
  pose proof (within_bounds_strs max_points pts Hl Hs) as Hinit.
  unfold step3.
  destruct (validation_enabled && nonempty pts); [|now intros [= <- _]].
  unfold bind.
  destruct (_validate_summary env pts _ model w2) as [[v|e] w3];
    [|discriminate].
  unfold step4.
  destruct (0 <? invalid_points_count v); [|now intros [= <- _]].
  unfold bind, lift.
  destruct (supported_points (analysis_of v)) as [valid|e]; [|discriminate].
  destruct (lost_more_than_30_percent _ _).
  - destruct (_generate_replacement_summary env _ max_points _ model w3)
      as [[rs|e] w4] eqn:E4; [|discriminate].
    destruct (generate_replacement_summary_bounds _ _ _ _ _ _ _ Hmp E4)
      as [Hl' Hs'].
    destruct (nonempty rs); intros [= <- _] _; [|exact Hinit].
    now apply within_bounds_strs.
  - intros [= <- _]. discriminate.
Qed.

End Facts.

(** ** Concrete runs *)

Import Scenario.

Ltac by_computation :=
  first [ reflexivity | discriminate
        | vm_compute; first [ reflexivity | discriminate
                            | intro; discriminate ] ].

(** The string operations on small inputs. *)
Example strip_both_ends :
  strip (lit "  - a point  ") = lit "- a point".
Proof. reflexivity. Qed.

Example slice_negative_bound :
  slice None (Some (-1)) [1; 2; 3] = [1; 2]
  /\ slice (Some 2) None (lit "- x") = lit "x"
  /\ slice None (Some 5) [1; 2; 3] = [1; 2; 3].
Proof. repeat split. Qed.

Example find_and_rfind :
  find (N_of_ascii "[") (lit "see [a] and [b]") = 4
  /\ rfind (N_of_ascii "]") (lit "see [a] and [b]") = 14
  /\ find (N_of_ascii "[") (lit "no array") = -1.
Proof. repeat split. Qed.

Example bullet_lines_of_text :
  bullet_lines (lit "Summary:" ++ [NEWLINE] ++ lit "- one" ++ [NEWLINE]
                ++ lit "  * two " ++ [NEWLINE] ++ lit "three")
  = [lit "one"; lit "two"].
Proof. reflexivity. Qed.

Example format_bullet_truncates :
  format_bullet (VStr (lit "- " ++ repeat 120%N 150))
  = Ret (repeat 120%N 97 ++ lit "...")
  /\ format_bullet (VInt 3) = Raise (AttributeError (VInt 3) "strip").
Proof. split; by_computation. Qed.

(** In binary64, [0.7 * 10] is exactly [7.0]. *)
Example seven_tenths_of_ten :
  (0.7 * float_of_nat 10)%float = 7%float.
Proof. by_computation. Qed.

Lemma summarize_document_length_gate_witness :
  summarize_document env_seven doc99 10 model true w0
  = (Ret too_short_result, w0)
  /\ exists rest,
       calls (snd (summarize_document env_seven doc100 10 model true w0))
       = calls w0 ++ topic_request (truncated doc100) model :: rest.
Proof.
  split.
  - apply (proj1 (summarize_document_length_gate env_seven doc99 10 model
                    true w0)).
    by_computation.
  - apply (proj2 (summarize_document_length_gate env_seven doc100 10 model
                    true w0)).
    by_computation.
Defined.

(** C7, as stated, fails: the backend call of topic extraction raises and
    the topic set returned is the empty one, not the generic one. *)
Lemma extract_document_topics_failure_counterexample :
  structured_completion env_topics_down (calls w0) (topic_request doc100 model)
  = Raise backend_down
  /\ fst (_extract_document_topics env_topics_down doc100 model w0)
     = Ret EMPTY_TOPICS
  /\ subject_areas EMPTY_TOPICS = VList []
  /\ key_topics EMPTY_TOPICS = VList []
  /\ EMPTY_TOPICS <> DEFAULT_TOPICS.
Proof. repeat split; by_computation. Qed.

Lemma extract_document_topics_fallback_witness :
  _extract_document_topics env_topics_down doc100 model w0
  = (Ret EMPTY_TOPICS,
     set_calls w0 (calls w0 ++ [topic_request doc100 model]))
  /\ _extract_document_topics env_topics_empty doc100 model w0
     = (Ret DEFAULT_TOPICS,
        set_calls w0 (calls w0 ++ [topic_request doc100 model])).
Proof.
  split.
  - apply (proj1 (proj2 (extract_document_topics_fallback env_topics_down
                           doc100 model w0)) backend_down).
    by_computation.
  - apply (proj1 (proj2 (proj2 (proj2 (extract_document_topics_fallback
                                         env_topics_empty doc100 model w0))))
             (VDict []) (VList []) (VList [])); by_computation.
Defined.

Lemma validation_failure_accepts_summary_witness :
  summarize_document env_validation_down doc100 10 model true w0
  = (Ret (initial_result (topics_of env_validation_down)
            (points_of env_validation_down 10)
            (Some {| validation_error := Some (exc_msg backend_down);
                     point_analysis := None;
                     invalid_points_count := 0;
                     total_points := 10 |})),
     w3_of env_validation_down 10).
Proof.
  refine (proj2 (proj1 (validation_failure_accepts_summary env_validation_down
                          doc100 10 model w0 (w1_of env_validation_down)
                          (w2_of env_validation_down 10)
                          (topics_of env_validation_down)
                          (points_of env_validation_down 10) _ _ _ _)
                   backend_down _)); by_computation.
Defined.

Lemma filter_or_regenerate_witness :
  summarize_document env_seven doc100 10 model true w0
  = (Ret (filtered_result (topics_of env_seven)
            (map VStr (firstn 7 ten_points)) (validation_of env_seven 10)),
     w3_of env_seven 10)
  /\ summarize_document env_six doc100 10 model true w0
     = (Ret (regenerated_result (topics_of env_six)
               [lit "fact A"; lit "fact B"] (validation_of env_six 10)),
        set_calls (w3_of env_six 10)
          (calls (w3_of env_six 10)
           ++ [replacement_request (prompt_of env_six 10) model])).
Proof.
  split.
  - refine (proj1 (filter_or_regenerate env_seven doc100 10 model w0
                     (w1_of env_seven) (w2_of env_seven 10)
                     (w3_of env_seven 10) (topics_of env_seven)
                     (points_of env_seven 10) (validation_of env_seven 10)
                     (map VStr (firstn 7 ten_points)) _ _ _ _ _ _ _) _);
      by_computation.
  - destruct (proj1 (proj2 (filter_or_regenerate env_six doc100 10 model w0
                     (w1_of env_six) (w2_of env_six 10)
                     (w3_of env_six 10) (topics_of env_six)
                     (points_of env_six 10) (validation_of env_six 10)
                     (valid_of env_six 10)
                     ltac:(by_computation) ltac:(by_computation)
                     ltac:(by_computation) ltac:(by_computation)
                     ltac:(by_computation) ltac:(by_computation)
                     ltac:(by_computation))) ltac:(by_computation))
      as [prompt [Hprompt [_ [Hregenerated _]]]].
    injection Hprompt as <-.
    apply Hregenerated. by_computation.
Defined.

(** C1, as stated, fails: six of ten points are supported, generation is
    rerun, the backend is down, and the result carries no [regenerated]
    flag (it still holds the ten initial points). *)
Lemma regenerated_flag_counterexample :
  invalid_points_count (validation_of env_six_down 10) = 4
  /\ List.length (valid_of env_six_down 10) = 6%nat
  /\ List.length (points_of env_six_down 10) = 10%nat
  /\ lost_more_than_30_percent 6 10 = true
  /\ exists r w,
       summarize_document env_six_down doc100 10 model true w0 = (Ret r, w)
       /\ regenerated r = None
       /\ summary r = map VStr ten_points
       /\ nth_error (calls w) 3
          = Some (replacement_request (prompt_of env_six_down 10) model).
Proof.
  repeat split; try by_computation.
  eexists; eexists. repeat split; by_computation.
Qed.

(** C5, as stated, fails: the regeneration branch is taken, the replacement
    comes back empty, and the summary returned is not empty: it is the ten
    initial points, of which validation rejected four. *)
Lemma failed_regeneration_counterexample :
  lost_more_than_30_percent (List.length (valid_of env_six_empty 10))
    (List.length (points_of env_six_empty 10)) = true
  /\ fst (_generate_replacement_summary env_six_empty doc100 10
            (key_topics (topics_of env_six_empty)) model
            (w3_of env_six_empty 10)) = Ret []
  /\ exists r w,
       summarize_document env_six_empty doc100 10 model true w0 = (Ret r, w)
       /\ summary r = map VStr ten_points
       /\ summary r <> [].
Proof.
  repeat split; try by_computation.
  eexists; eexists. repeat split; by_computation.
Qed.

Lemma failed_regeneration_keeps_initial_summary_witness :
  summarize_document env_six_down doc100 10 model true w0
  = (Ret (initial_result (topics_of env_six_down) (points_of env_six_down 10)
            (Some (validation_of env_six_down 10))),
     set_calls (w3_of env_six_down 10)
       (calls (w3_of env_six_down 10)
        ++ [replacement_request (prompt_of env_six_down 10) model])).
Proof.
  refine (proj1 (failed_regeneration_keeps_initial_summary env_six_down doc100
                   10 model w0 (w1_of env_six_down) (w2_of env_six_down 10)
                   (w3_of env_six_down 10) (topics_of env_six_down)
                   (points_of env_six_down 10) (validation_of env_six_down 10)
                   (valid_of env_six_down 10) (prompt_of env_six_down 10)
                   _ _ _ _ _ _ _ _ _ (or_introl (ex_intro _ backend_down _))));
    by_computation.
Defined.

(** C3, as stated, fails.  With [max_points = 1] and a validator that echoes
    two supported points, the filtered summary has two entries, one of them
    101 characters long; and with [max_points = 0] the placeholder of a
    too-short document is already one entry too many. *)
Lemma summary_bounds_counterexample :
  (exists r w,
      summarize_document env_echo doc100 1 model true w0 = (Ret r, w)
      /\ summary r = [VStr long_point; VStr (lit "second")]
      /\ 1 < len (summary r)
      /\ 100 < len long_point)
  /\ (exists r w,
        summarize_document env_echo doc99 0 model true w0 = (Ret r, w)
        /\ 0 < len (summary r)).
Proof.
  split; eexists; eexists; repeat split; by_computation.
Qed.

Lemma unfiltered_summary_within_bounds_witness :
  within_bounds 10
    (summary (regenerated_result (topics_of env_six)
                [lit "fact A"; lit "fact B"] (validation_of env_six 10))).
Proof.
  refine (unfiltered_summary_within_bounds env_six doc100 10 model true w0
            (snd (summarize_document env_six doc100 10 model true w0))
            _ _ _ _); by_computation.
Defined.

End SummarizationFacts.

(* ===================================================================== *)
(** * Properties of the QA quality loop *)
(* ===================================================================== *)

Module QAFacts.
Import Py Prompts World Models QADataset.
#[local] Open Scope py_scope.

(** ** Dicts with distinct keys *)

Lemma str_eqb_eq (a b : str) : str_eqb a b = true <-> a = b.
Proof.
  revert b. induction a as [|x a IH]; intros [|y b]; cbn; split;
    try congruence; try discriminate.
  - intros H. apply andb_prop in H as [Hx Ha].
    apply N.eqb_eq in Hx. apply IH in Ha. congruence.
  - intros [= -> ->]. rewrite N.eqb_refl. now apply IH.
Qed.

Lemma str_eqb_refl (a : str) : str_eqb a a = true.
Proof. now apply str_eqb_eq. Qed.

Lemma str_eqb_neq (a b : str) : a <> b -> str_eqb a b = false.
Proof.
  intros H. destruct (str_eqb a b) eqn:E; [|reflexivity].
  apply str_eqb_eq in E. contradiction.
Qed.

Section Assoc.
Context {V : Type}.
Implicit Types (d pre tl : list (str * V)) (k : str) (v : V).

Lemma dict_get_absent k d : ~ In k (map fst d) -> dict_get k d = None.
Proof.
  induction d as [|[k' v'] d IH]; cbn; [reflexivity|]. intros H.
  rewrite str_eqb_neq by (intros ->; apply H; now left).
  apply IH. intros Hin. apply H. now right.
Qed.

Lemma dict_get_middle k v pre tl :
  ~ In k (map fst pre) -> dict_get k (pre ++ (k, v) :: tl) = Some v.
Proof.
  induction pre as [|[k' v'] pre IH]; cbn; intros H.
  - now rewrite str_eqb_refl.
  - rewrite str_eqb_neq by (intros ->; apply H; now left).
    apply IH. intros Hin. apply H. now right.
Qed.

Lemma dict_set_middle k v v' pre tl :
  ~ In k (map fst pre) ->
  dict_set k v' (pre ++ (k, v) :: tl) = pre ++ (k, v') :: tl.
Proof.
  induction pre as [|[k0 v0] pre IH]; cbn; intros H.
  - now rewrite str_eqb_refl.
  - rewrite str_eqb_neq by (intros ->; apply H; now left).
    f_equal. apply IH. intros Hin. apply H. now right.
Qed.

Lemma dict_set_fresh k v d :
  ~ In k (map fst d) -> dict_set k v d = d ++ [(k, v)].
Proof.
  induction d as [|[k0 v0] d IH]; cbn; intros H; [reflexivity|].
  rewrite str_eqb_neq by (intros ->; apply H; now left).
  f_equal. apply IH. intros Hin. apply H. now right.
Qed.

End Assoc.

(** ** Distribution of the question types *)

Lemma base_counts_from (quotient : Z) (types : list str) (acc : list (str * Z)) :
  NoDup types ->
  (forall qt, In qt types -> ~ In qt (map fst acc)) ->
  fold_left (fun d qt => dict_set qt quotient d) types acc
  = acc ++ map (fun qt => (qt, quotient)) types.
Proof.
  revert acc. induction types as [|qt rest IH]; intros acc Hnd Hfresh; cbn.
  - now rewrite app_nil_r.
  - inversion Hnd as [|? ? Hnotin Hnd']; subst.
    rewrite dict_set_fresh by (apply Hfresh; now left).
    rewrite IH; [now rewrite <- app_assoc|assumption|].
    intros qt' Hin. rewrite map_app, in_app_iff. cbn.
    intros [Hacc|[->|[]]].
    + apply (Hfresh qt'); [now right|assumption].
    + contradiction.
Qed.

Lemma add_remainder_distinct (quotient remainder : Z) (types : list str) :
  forall (i : Z) (pre : list (str * Z)),
    NoDup types ->
    (forall qt, In qt types -> ~ In qt (map fst pre)) ->
    add_remainder remainder i types
      (pre ++ map (fun qt => (qt, quotient)) types)
    = Ret (pre ++ split_counts quotient remainder i types).
Proof.
  induction types as [|qt rest IH]; intros i pre Hnd Hfresh; cbn.
  - reflexivity.
  - inversion Hnd as [|? ? Hnotin Hnd']; subst.
    assert (Hpre : ~ In qt (map fst pre)) by (apply Hfresh; now left).
    assert (Hnext : forall v qt',
               In qt' rest -> ~ In qt' (map fst (pre ++ [(qt, v)]))).
    { intros v qt' Hin. rewrite map_app, in_app_iff. cbn.
      intros [Hacc|[->|[]]].
      - apply (Hfresh qt'); [now right|assumption].
      - contradiction. }
    destruct (i <? remainder).
    + rewrite dict_get_middle by assumption.
      rewrite dict_set_middle by assumption.
      replace (pre ++ (qt, quotient + 1) :: map (fun qt0 => (qt0, quotient)) rest)
        with ((pre ++ [(qt, quotient + 1)])
              ++ map (fun qt0 => (qt0, quotient)) rest)
        by (now rewrite <- app_assoc).
      rewrite IH by auto. now rewrite <- app_assoc.
    + replace (pre ++ (qt, quotient) :: map (fun qt0 => (qt0, quotient)) rest)
        with ((pre ++ [(qt, quotient)])
              ++ map (fun qt0 => (qt0, quotient)) rest)
        by (now rewrite <- app_assoc).
      rewrite IH by auto. rewrite <- app_assoc. cbn.
      now rewrite Z.add_0_r.
Qed.

Lemma split_counts_keys quotient remainder i types :
  map fst (split_counts quotient remainder i types) = types.
Proof.
  revert i. induction types as [|qt rest IH]; intros i; cbn;
    [reflexivity|now rewrite IH].
Qed.

(** The sum of the counts from position [i] on. *)
Lemma split_counts_sum quotient remainder types :
  forall i, 0 <= i ->
    fold_right Z.add 0 (map snd (split_counts quotient remainder i types))
    = quotient * len types
      + Z.max 0 (Z.min (remainder - i) (len types)).
Proof.
  induction types as [|qt rest IH]; intros i Hi.
  - cbn. lia.
  - cbn [split_counts map snd fold_right]. rewrite IH by lia.
    unfold len. cbn [List.length]. rewrite Nat2Z.inj_succ.
    destruct (i <? remainder) eqn:E;
      [apply Z.ltb_lt in E|apply Z.ltb_ge in E]; lia.
Qed.

Lemma split_counts_values quotient remainder types :
  forall i c, In c (map snd (split_counts quotient remainder i types)) ->
    c = quotient \/ c = quotient + 1.
Proof.
  induction types as [|qt rest IH]; intros i c; cbn; [tauto|].
  intros [<-|Hin]; [|eauto].
  destruct (i <? remainder); lia.
Qed.

Lemma split_counts_lookup quotient remainder types :
  NoDup types ->
  forall (j : nat) (i : Z) qt,
    nth_error types j = Some qt ->
    dict_get qt (split_counts quotient remainder i types)
    = Some (quotient + (if i + Z.of_nat j <? remainder then 1 else 0)).
Proof.
  induction types as [|qt0 rest IH]; intros Hnd j i qt; [now destruct j|].
  inversion Hnd as [|? ? Hnotin Hnd']; subst.
  destruct j as [|j]; cbn [nth_error split_counts dict_get].
  - intros [= ->]. rewrite str_eqb_refl. now rewrite Z.add_0_r.
  - intros Hj. rewrite str_eqb_neq.
    + rewrite (IH Hnd' j (i + 1) qt Hj).
      replace (i + 1 + Z.of_nat j) with (i + Z.of_nat (S j)) by lia.
      reflexivity.
    + intros ->. apply Hnotin. eapply nth_error_In; eassumption.
Qed.

(** C8 (as the code has it). For [num_questions >= 0] and a non-empty list
    of pairwise distinct question types, the type at position [i] is
    assigned [num_questions // len(types)] questions, plus one if [i] is
    below [num_questions % len(types)]; the counts are kept in list order,
    they sum to [num_questions], and any two differ by at most one. *)
Theorem qtype_count_even_split (num_questions : Z) (question_types : list str) :
  0 <= num_questions ->
  question_types <> [] ->
  NoDup question_types ->
  exists counts,
    qtype_count num_questions question_types = Ret counts
    /\ map fst counts = question_types
    /\ (forall (i : nat) qt,
          nth_error question_types i = Some qt ->
          dict_get qt counts
          = Some (num_questions / len question_types
                  + (if Z.of_nat i <? num_questions mod len question_types
                     then 1 else 0)))
    /\ fold_right Z.add 0 (map snd counts) = num_questions
    /\ (forall c1 c2,
          In c1 (map snd counts) -> In c2 (map snd counts) ->
          Z.abs (c1 - c2) <= 1).
Proof.
  intros Hn Hne Hnd.
  set (q := num_questions / len question_types).
  set (r := num_questions mod len question_types).
  exists (split_counts q r 0 question_types).
  assert (Hlen : 0 < len question_types).
  { destruct question_types; [congruence|]. unfold len. cbn. lia. }
  split; [|split; [|split; [|split]]].
  - unfold qtype_count. destruct question_types as [|qt rest]; [congruence|].
    unfold base_counts. fold q. fold r.
    rewrite base_counts_from by (auto; intros ? _ []).
    apply (add_remainder_distinct q r (qt :: rest) 0 []); auto.
  - apply split_counts_keys.
  - intros i qt Hi.
    now rewrite (split_counts_lookup q r question_types Hnd i 0 qt Hi).
  - rewrite split_counts_sum by lia.
    pose proof (Z.mod_pos_bound num_questions (len question_types) Hlen).
    pose proof (Z.div_mod num_questions (len question_types) ltac:(lia)).
    fold q r in H, H0. lia.
  - intros c1 c2 H1 H2.
    apply split_counts_values in H1, H2. lia.
Qed.

(** ** Quality metrics *)

Lemma count_from {A} (p : A -> bool) (l : list A) (acc : nat) :
  fold_left (fun acc x => if p x then S acc else acc) l acc
  = (acc + List.length (filter p l))%nat.
Proof.
  revert acc. induction l as [|x l IH]; intros acc; cbn; [lia|].
  rewrite IH. destruct (p x); cbn; lia.
Qed.

Lemma count_filter {A} (p : A -> bool) (l : list A) :
  count p l = List.length (filter p l).
Proof. unfold count. now rewrite count_from. Qed.

Lemma helpful_ratings_length feedback :
  List.length (helpful_ratings feedback) = List.length (filter rated feedback).
Proof.
  unfold helpful_ratings, rated.
  induction feedback as [|f l IH]; cbn; [reflexivity|].
  destruct (is_helpful f); cbn; now rewrite IH.
Qed.

Lemma helpful_count_length feedback :
  helpful_count feedback = List.length (filter found_helpful feedback).
Proof.
  unfold helpful_count. rewrite count_filter.
  unfold helpful_ratings, found_helpful.
  induction feedback as [|f l IH]; cbn; [reflexivity|].
  destruct (is_helpful f) as [[|]|]; cbn; now rewrite IH.
Qed.

Lemma update_question_quality_metrics_run question_id w :
  feedback_of question_id w <> [] ->
  _update_question_quality_metrics question_id w
  = (Ret tt,
     set_questions (set_clock w (S (clock w)))
       (update_first (VStr question_id)
          (metrics_update (feedback_of question_id w) (clock w))
          (questions w))).
Proof.
  intros Hne. unfold _update_question_quality_metrics, bind, feedback_find.
  fold (feedback_of question_id w).
  destruct (feedback_of question_id w) as [|f l]; [congruence|].
  reflexivity.
Qed.

(** The score of the boundary example, computed in binary64. *)
Lemma example_score :
  (ratio 2 5 * 0.4 + ratio 2 3 * 0.6)%float = 0.56%float
  /\ PrimFloat.ltb 0.56%float 0.3%float = false.
Proof. split; vm_compute; reflexivity. Qed.

(** ** The changelog *)

(** [_log_qa_change] appends exactly one entry and touches nothing else
    in the store. *)
Lemma log_qa_change_run env question_id material_id action details qa_data
    previous_data w :
  _log_qa_change env question_id material_id action details qa_data
    previous_data w
  = (Ret (uuid4 env (uuids w)),
     set_changelog (set_clock (set_uuids w (S (uuids w))) (S (clock w)))
       (changelog w
        ++ [entry_at env w question_id material_id action details qa_data
              previous_data])).
Proof. reflexivity. Qed.

(** Recording feedback always returns; it appends the record, rewrites the
    [quality_metrics] of the question and leaves the changelog alone. *)
Lemma record_question_feedback_run env question_id user_id is_correct
    is_helpful difficulty_rating feedback_text w :
  let record := feedback_at env w question_id user_id is_correct is_helpful
                  difficulty_rating feedback_text in
  exists w',
    record_question_feedback env question_id user_id is_correct is_helpful
      difficulty_rating feedback_text w
    = (Ret (uuid4 env (uuids w)), w')
    /\ feedback w' = feedback w ++ [record]
    /\ changelog w' = changelog w
    /\ questions w'
       = update_first (VStr question_id)
           (metrics_update (feedback_of question_id w ++ [record])
              (S (clock w)))
           (questions w).
Proof.
  cbv zeta. unfold record_question_feedback, bind, new_uuid, now,
    feedback_insert_one, ret.
  match goal with
  | |- context [_update_question_quality_metrics question_id ?w2] =>
      assert (Hfb : feedback_of question_id w2
                    = feedback_of question_id w
                      ++ [feedback_at env w question_id user_id is_correct
                            is_helpful difficulty_rating feedback_text]);
      [ unfold feedback_of; cbn [feedback set_feedback set_clock set_uuids];
        rewrite filter_app; cbn [filter feedback_question_id];
        now rewrite str_eqb_refl
      | rewrite (update_question_quality_metrics_run question_id w2);
        [ rewrite Hfb | rewrite Hfb; now destruct (feedback_of question_id w) ] ]
  end.
  eexists. split; [reflexivity|]. repeat split.
Qed.

(** [_improve_question] returns [True] only after it has updated the
    question and written one "updated" entry; in every other outcome,
    raised exceptions included, questions and changelog are as before. *)
Lemma improve_question_effect env question material_id feedback w :
  match _improve_question env question material_id feedback w with
  | (Ret true, w') =>
      exists update_data e,
        questions w'
        = update_first (dget question "id" VNone) update_data (questions w)
        /\ changelog w' = changelog w ++ [e]
        /\ documents_update question update_data material_id e
  | (_, w') => questions w' = questions w /\ changelog w' = changelog w
  end.
Proof.
  unfold _improve_question, bind, material_exists, lift,
    ollama_generate_completion, call, try_except, ret, now,
    questions_update_one.
  destruct (negb _); [now split|].
  match goal with |- context [if is_multiple_choice ?t then ?a else ?b] =>
    destruct (if is_multiple_choice t then a else b) as [answer|e] end;
    [|now split].
  destruct (completion env _ _) as [response|e]; [|now split].
  destruct (_ && _); [|now split].
  destruct (json_loads env _) as [improved|e]; [|now split].
  destruct (get improved "question" _) as [new_question|e]; [|now split].
  destruct (get improved "topic" _) as [new_topic|e]; [|now split].
  destruct (get improved "improvement_notes" _) as [notes|e]; [|now split].
  rewrite log_qa_change_run. cbn [fst snd].
  eexists; eexists. split; [reflexivity|]. split; [reflexivity|].
  repeat split; reflexivity.
Qed.

Lemma getitem_dget (q : dict) (k : string) (v : value) :
  getitem (VDict q) k = Ret v -> dget q k VNone = v.
Proof.
  unfold getitem, dget. destruct (dict_get (lit k) q); [|discriminate].
  now intros [= ->].
Qed.

Lemma process_question_effect env material_id threshold stats q feedback w
    stats' w' :
  process_question env material_id threshold stats (q, feedback) w
    = (Ret stats', w') ->
  exists q_id,
    getitem (VDict q) "id" = Ret q_id
    /\ round_effect material_id q q_id feedback stats stats' w w'.
Proof.
  unfold process_question, bind at 1, lift.
  destruct (getitem (VDict q) "id") as [q_id|e] eqn:Hid; [|discriminate].
  intros H. exists q_id. split; [reflexivity|].
  destruct feedback as [|f l]; [injection H as <- <-; left; now repeat split|].
  destruct (PrimFloat.ltb (quality_score (f :: l)) threshold);
    [|injection H as <- <-; left; now repeat split].
  destruct (PrimFloat.ltb _ _).
  - right; left. unfold bind, questions_delete_one in H.
    rewrite log_qa_change_run in H. injection H as <- <-.
    split; [reflexivity|]. split; [reflexivity|].
    eexists. split; [reflexivity|]. now repeat split.
  - unfold bind in H.
    pose proof (improve_question_effect env q material_id (f :: l) w) as Heff.
    destruct (_improve_question env q material_id (f :: l) w)
      as [[[|]|e] w1]; [| |discriminate]; injection H as <- <-.
    + right; right. split; [reflexivity|].
      rewrite (getitem_dget _ _ _ Hid) in Heff.
      destruct Heff as (upd & e & Hq & Hc & Hd).
      exists upd, e. split; [exact Hq|]. split; [exact Hc|exact Hd].
    + left. destruct Heff. now repeat split.
Qed.

Lemma count_action_app a l1 l2 :
  count_action a (l1 ++ l2) = count_action a l1 + count_action a l2.
Proof.
  unfold count_action, len. rewrite filter_app, length_app. lia.
Qed.

Lemma count_action_cons a e rest :
  count_action a (e :: rest)
  = (if String.eqb (action e) a then 1 else 0) + count_action a rest.
Proof.
  unfold count_action, len. cbn [filter].
  destruct (String.eqb (action e) a); cbn [List.length]; lia.
Qed.

Lemma len_cons {A} (x : A) (l : list A) : len (x :: l) = len l + 1.
Proof. unfold len. cbn [List.length]. lia. Qed.

(** Gathering the feedback reads the store and changes nothing. *)
Lemma gather_feedback_pure q w r w' :
  gather_feedback q w = (r, w') -> w' = w.
Proof.
  unfold gather_feedback, bind, lift, raise, feedback_find.
  destruct (getitem (VDict q) "id") as [[]|e]; now intros [= _ <-].
Qed.

Lemma for_map_gather_pure qs :
  forall w r w',
    for_map qs gather_feedback w = (r, w') ->
    w' = w /\ (forall l, r = Ret l -> List.length l = List.length qs).
Proof.
  induction qs as [|q qs IH]; intros w r w'; cbn [for_map].
  - unfold ret. intros [= <- <-]. split; [reflexivity|]. now intros l [= <-].
  - unfold bind at 1.
    destruct (gather_feedback q w) as [[fb|e] w1] eqn:E1;
      apply gather_feedback_pure in E1; subst w1.
    + unfold bind at 1.
      destruct (for_map qs gather_feedback w) as [[l|e] w2] eqn:E2;
        destruct (IH _ _ _ E2) as [-> Hlen].
      * unfold ret. intros [= <- <-]. split; [reflexivity|].
        intros l' [= <-]. cbn. now rewrite (Hlen l eq_refl).
      * intros [= <- <-]. split; [reflexivity|]. discriminate.
    + intros [= <- <-]. split; [reflexivity|]. discriminate.
Qed.

(** The loop "Process each question": every entry it appends is a removal
    or an update, and the counters count them. *)
Lemma process_questions_effect env material_id threshold items :
  forall stats w stats' w',
    for_fold items stats (process_question env material_id threshold) w
      = (Ret stats', w') ->
    exists entries,
      changelog w' = changelog w ++ entries
      /\ count_action "removed" entries = removed stats' - removed stats
      /\ count_action "updated" entries = updated stats' - updated stats
      /\ len entries
         = (removed stats' - removed stats) + (updated stats' - updated stats)
      /\ (removed stats' - removed stats) + (updated stats' - updated stats)
         + (no_action stats' - no_action stats) = len items
      /\ total_questions stats' = total_questions stats.
Proof.
  induction items as [|[q feedback] items IH]; intros stats w stats' w';
    cbn [for_fold].
  - unfold ret. intros [= <- <-]. exists []. rewrite app_nil_r.
    cbn. repeat split; lia.
  - unfold bind at 1.
    destruct (process_question env material_id threshold stats (q, feedback) w)
      as [[stats1|e] w1] eqn:E1; [|discriminate].
    intros Hrest.
    destruct (process_question_effect _ _ _ _ _ _ _ _ _ E1)
      as (q_id & _ & Hround).
    destruct (IH _ _ _ _ Hrest) as (rest & Hlog & Hrem & Hupd & Hlen & Hall & Htot).
    rewrite len_cons.
    destruct Hround as [(-> & _ & Hc)
                       |[(-> & _ & e & Hc & Hdoc)
                        |(-> & upd & e & _ & Hc & Hdoc)]];
      cbn [removed updated no_action total_questions
           count_removed count_updated count_no_action] in *.
    + exists rest. rewrite Hlog, Hc. repeat split; lia.
    + exists (e :: rest). rewrite Hlog, Hc, <- app_assoc.
      destruct Hdoc as (Ha & _).
      rewrite !count_action_cons, len_cons, Ha.
      change (String.eqb "removed" "removed") with true.
      change (String.eqb "removed" "updated") with false.
      repeat split; lia.
    + exists (e :: rest). rewrite Hlog, Hc, <- app_assoc.
      destruct Hdoc as (Ha & _).
      rewrite !count_action_cons, len_cons, Ha.
      change (String.eqb "updated" "removed") with false.
      change (String.eqb "updated" "updated") with true.
      repeat split; lia.
Qed.

(** An evaluation run that returns has appended one entry per question it
    removed or updated, and nothing else. *)
Lemma evaluate_and_update_questions_effect env material_id threshold w
    stats w' :
  evaluate_and_update_questions env material_id threshold w = (Ret stats, w') ->
  exists entries,
    changelog w' = changelog w ++ entries
    /\ count_action "removed" entries = removed stats
    /\ count_action "updated" entries = updated stats
    /\ len entries = removed stats + updated stats
    /\ removed stats + updated stats + no_action stats = total_questions stats.
Proof.
  unfold evaluate_and_update_questions, bind at 1, questions_find.
  unfold bind at 1.
  destruct (for_map _ gather_feedback w) as [[all_feedback|e] w1] eqn:E;
    [|discriminate].
  destruct (for_map_gather_pure _ _ _ _ E) as [-> Hlen].
  intros Hloop.
  destruct (process_questions_effect _ _ _ _ _ _ _ _ Hloop)
    as (entries & Hlog & Hrem & Hupd & Hn & Hall & Htot).
  cbn [removed updated no_action total_questions] in *.
  exists entries. repeat split; try lia; try assumption.
  rewrite Htot. unfold len in *. rewrite length_combine, (Hlen _ eq_refl) in Hall.
  lia.
Qed.

(** ** The quality score in the evaluation loop *)

(** The metrics of a non-empty list of feedback, in counts. *)
Lemma accuracy_counts feedback :
  feedback <> [] ->
  accuracy feedback
  = Float (ratio (List.length (filter is_correct feedback))
             (List.length feedback)).
Proof.
  intros Hne. unfold accuracy, correct_answers. rewrite count_filter.
  destruct feedback; [congruence|reflexivity].
Qed.

Lemma helpfulness_counts feedback :
  helpfulness feedback
  = match List.length (filter rated feedback) with
    | O => Int 0
    | _ => Float (ratio (List.length (filter found_helpful feedback))
                    (List.length (filter rated feedback)))
    end.
Proof.
  unfold helpfulness. rewrite helpful_count_length.
  rewrite <- helpful_ratings_length.
  now destruct (helpful_ratings feedback).
Qed.

(** One round of "Process each question" for a question that has an [id]
    and feedback: the comparison of the score with the threshold, then of
    the helpfulness with 0.2, decides between no action, the removal (with
    the score in the changelog entry) and the attempt to improve. *)
Lemma process_question_decision env material_id threshold stats q q_id
    feedback w :
  feedback <> [] ->
  getitem (VDict q) "id" = Ret q_id ->
  let round :=
    process_question env material_id threshold stats (q, feedback) w in
  (PrimFloat.ltb (quality_score feedback) threshold = false ->
   round = (Ret (count_no_action stats), w))
  /\ (PrimFloat.ltb (quality_score feedback) threshold = true ->
      PrimFloat.ltb (to_float (helpfulness feedback)) 0.2 = true ->
      exists w',
        round = (Ret (count_removed stats), w')
        /\ questions w' = delete_first q_id (questions w)
        /\ changelog w'
           = changelog w
             ++ [entry_at env w q_id material_id "removed"
                   (RemovedLowQuality (quality_score feedback)) q None]
        /\ calls w' = calls w /\ World.feedback w' = World.feedback w)
  /\ (PrimFloat.ltb (quality_score feedback) threshold = true ->
      PrimFloat.ltb (to_float (helpfulness feedback)) 0.2 = false ->
      round
      = match _improve_question env q material_id feedback w with
        | (Ret improved, w') =>
            (Ret (if improved then count_updated stats
                  else count_no_action stats), w')
        | (Raise e, w') => (Raise e, w')
        end).
Proof.
  intros Hne Hid. cbv zeta.
  unfold process_question, bind at 1, lift. rewrite Hid.
  destruct feedback as [|f l]; [congruence|].
  split; [|split].
  - now intros ->.
  - intros -> ->. unfold bind, questions_delete_one.
    rewrite log_qa_change_run. eexists. split; [reflexivity|].
    now repeat split.
  - intros -> ->. unfold bind.
    destruct (_improve_question env q material_id (f :: l) w)
      as [[[|]|e] w']; reflexivity.
Qed.

(** The evaluation of a material with one stored question is one round of
    the loop on that question and its feedback. *)
Lemma evaluate_one_question env material_id threshold q q_id w :
  find_by "material_id" (VStr material_id) (questions w) = [q] ->
  getitem (VDict q) "id" = Ret (VStr q_id) ->
  evaluate_and_update_questions env material_id threshold w
  = process_question env material_id threshold stats0
      (q, feedback_of q_id w) w.
Proof.
  intros Hfound Hid.
  unfold evaluate_and_update_questions, bind at 1, questions_find.
  rewrite Hfound. cbn [for_map]. unfold bind at 1, bind at 1.
  unfold gather_feedback at 1, bind at 1, lift. rewrite Hid.
  unfold feedback_find, ret. fold (feedback_of q_id w).
  cbn [combine for_fold]. unfold bind.
  change {| total_questions := len [q]; removed := 0; updated := 0;
            no_action := 0 |} with stats0.
  cbn [for_fold]. unfold bind, ret.
  now destruct (process_question env material_id threshold stats0
                  (q, feedback_of q_id w) w) as [[stats|e] w'].
Qed.

(** C2. For a question with [n >= 1] feedback records, accuracy is the
    number of correct records over [n]; helpfulness is the number of
    [True] ratings over the number of non-null ratings, and [0] when there
    is no rating; the quality score is [accuracy * 0.4 + helpfulness * 0.6].
    These are the metrics [_update_question_quality_metrics] stores, and
    this score is what the evaluation loop acts on: a round of the loop
    leaves the question alone when the score is not below the threshold,
    removes it (writing the score into the changelog entry) when the score
    is below the threshold and the helpfulness below 0.2, and tries to
    improve it otherwise; the evaluation of a material with one stored
    question is that round.  A question with 5 records, 2 of them correct,
    and ratings [True, False, True] scores 0.56, and with threshold 0.3 it
    is neither removed nor improved: it is counted as "no action" and
    nothing in the store changes. *)
Theorem quality_score_formula (feedback : list FeedbackRecord) :
  feedback <> [] ->
  let n := List.length feedback in
  let correct := List.length (filter is_correct feedback) in
  let ratings := List.length (filter rated feedback) in
  let helpful := List.length (filter found_helpful feedback) in
  let helpfulness_value :=
    match ratings with O => 0%float | _ => ratio helpful ratings end in
  let score := (ratio correct n * 0.4 + helpfulness_value * 0.6)%float in
  accuracy feedback = Float (ratio correct n)
  /\ helpfulness feedback
     = match ratings with
       | O => Int 0
       | _ => Float (ratio helpful ratings)
       end
  /\ quality_score feedback = score
  /\ (forall question_id w,
        feedback_of question_id w = feedback ->
        _update_question_quality_metrics question_id w
        = (Ret tt,
           set_questions (set_clock w (S (clock w)))
             (update_first (VStr question_id)
                (metrics_update feedback (clock w)) (questions w))))
  /\ (forall env material_id threshold stats q q_id w,
        getitem (VDict q) "id" = Ret q_id ->
        let round :=
          process_question env material_id threshold stats (q, feedback) w in
        (PrimFloat.ltb score threshold = false ->
         round = (Ret (count_no_action stats), w))
        /\ (PrimFloat.ltb score threshold = true ->
            PrimFloat.ltb helpfulness_value 0.2 = true ->
            exists w',
              round = (Ret (count_removed stats), w')
              /\ questions w' = delete_first q_id (questions w)
              /\ changelog w'
                 = changelog w
                   ++ [entry_at env w q_id material_id "removed"
                         (RemovedLowQuality score) q None]
              /\ calls w' = calls w /\ World.feedback w' = World.feedback w)
        /\ (PrimFloat.ltb score threshold = true ->
            PrimFloat.ltb helpfulness_value 0.2 = false ->
            round
            = match _improve_question env q material_id feedback w with
              | (Ret improved, w') =>
                  (Ret (if improved then count_updated stats
                        else count_no_action stats), w')
              | (Raise e, w') => (Raise e, w')
              end))
  /\ (forall env material_id threshold q question_id w,
        find_by "material_id" (VStr material_id) (questions w) = [q] ->
        getitem (VDict q) "id" = Ret (VStr question_id) ->
        feedback_of question_id w = feedback ->
        evaluate_and_update_questions env material_id threshold w
        = process_question env material_id threshold stats0 (q, feedback) w)
  /\ (n = 5%nat -> correct = 2%nat ->
      helpful_ratings feedback = [true; false; true] ->
      score = 0.56%float
      /\ forall env material_id stats q q_id w,
           getitem (VDict q) "id" = Ret q_id ->
           process_question env material_id 0.3%float stats (q, feedback) w
           = (Ret (count_no_action stats), w)).
Proof.
  intros Hne. cbv zeta.
  pose proof (accuracy_counts feedback Hne) as Hacc.
  pose proof (helpfulness_counts feedback) as Hhelp.
  assert (Hvalue :
    to_float (helpfulness feedback)
    = match List.length (filter rated feedback) with
      | O => 0%float
      | _ => ratio (List.length (filter found_helpful feedback))
               (List.length (filter rated feedback))
      end).
  { rewrite Hhelp. now destruct (List.length (filter rated feedback)). }
  assert (Hscore :
    quality_score feedback
    = (ratio (List.length (filter is_correct feedback)) (List.length feedback)
       * 0.4
       + match List.length (filter rated feedback) with
         | O => 0%float
         | _ => ratio (List.length (filter found_helpful feedback))
                  (List.length (filter rated feedback))
         end * 0.6)%float).
  { unfold quality_score. now rewrite Hvalue, Hacc. }
  split; [exact Hacc|]. split; [exact Hhelp|]. split; [exact Hscore|].
  split; [|split; [|split]].
  - intros question_id w <-.
    now apply update_question_quality_metrics_run.
  - intros env material_id threshold stats q q_id w Hid.
    rewrite <- Hscore, <- Hvalue.
    exact (process_question_decision env material_id threshold stats q q_id
             feedback w Hne Hid).
  - intros env material_id threshold q question_id w Hfound Hid <-.
    now apply evaluate_one_question.
  - intros Hn Hc Hr. rewrite <- Hscore.
    assert (Hexample : quality_score feedback = 0.56%float).
    { unfold quality_score. rewrite Hacc, Hhelp.
      rewrite <- helpful_ratings_length, <- helpful_count_length.
      unfold helpful_count. rewrite Hr, Hn, Hc. apply example_score. }
    split; [exact Hexample|].
    intros env material_id stats q q_id w Hid.
    apply (process_question_decision env material_id 0.3%float stats q q_id
             feedback w Hne Hid).
    rewrite Hexample. apply example_score.
Qed.

Section Creation.
Variable env : environment.
Variables material_id difficulty : str.

Lemma make_qa_pair_effect q_type q w quiz_question w' :
  make_qa_pair env material_id q_type difficulty q w = (Ret quiz_question, w') ->
  questions w' = questions w
  /\ has_uuid env quiz_question
  /\ exists e, changelog w' = changelog w ++ [e]
               /\ documents_creation material_id quiz_question e.
Proof.
  unfold make_qa_pair, bind, new_uuid, lift, now, QuizQuestion_init, ret.
  destruct (get q "question" _) as [question|e]; [|discriminate].
  destruct (get q "type" _) as [question_type|e]; [|discriminate].
  destruct (str_eqb q_type (lit "multiple_choice"));
    [destruct (get q "options" _) as [options|e]; [|discriminate]|];
    (destruct (get q "correct_answer" _) as [correct_answer|e];
       [|discriminate]);
    (destruct (get q "topic" _) as [topic|e]; [|discriminate]);
    (destruct (level_of difficulty) as [level|e]; [|discriminate]);
    cbn [truthy]; unfold bind; cbn [to_dict Models.difficulty];
    rewrite log_qa_change_run; intros [= <- <-];
    (split; [reflexivity|]); (split; [eexists; reflexivity|]);
    eexists; (split; [reflexivity|]); repeat split.
Qed.

(** The loop [for q in questions:] of one question type. *)
Lemma for_map_make_effect q_type questions_ :
  forall w made w',
    for_map questions_ (make_qa_pair env material_id q_type difficulty) w
      = (Ret made, w') ->
    questions w' = questions w
    /\ Forall (has_uuid env) made
    /\ exists entries, changelog w' = changelog w ++ entries
                       /\ Forall2 (documents_creation material_id) made entries.
Proof.
  induction questions_ as [|q rest IH]; intros w made w'; cbn [for_map].
  - unfold ret. intros [= <- <-]. split; [reflexivity|]. split; [constructor|].
    exists []. rewrite app_nil_r. split; [reflexivity|constructor].
  - unfold bind at 1.
    destruct (make_qa_pair env material_id q_type difficulty q w)
      as [[quiz_question|e] w1] eqn:E1; [|discriminate].
    destruct (make_qa_pair_effect _ _ _ _ _ E1) as (Hq1 & Hid & e & Hc1 & Hdoc).
    unfold bind at 1.
    destruct (for_map rest _ w1) as [[made_rest|e'] w2] eqn:E2; [|discriminate].
    destruct (IH _ _ _ E2) as (Hq2 & Hids & entries & Hc2 & Hdocs).
    unfold ret. intros [= <- <-]. split; [congruence|].
    split; [now constructor|].
    exists (e :: entries). split; [|now constructor].
    rewrite Hc2, Hc1. now rewrite <- app_assoc.
Qed.

Variable topics : value.

(** The loop over the question types keeps one "created" entry per
    question made so far. *)
Lemma generate_for_types_effect counts :
  forall all_questions w all_questions' w',
    for_fold counts all_questions
      (generate_for_type env material_id difficulty topics) w
      = (Ret all_questions', w') ->
    questions w' = questions w
    /\ exists made entries,
         all_questions' = all_questions ++ made
         /\ Forall (has_uuid env) made
         /\ changelog w' = changelog w ++ entries
         /\ Forall2 (documents_creation material_id) made entries.
Proof.
  induction counts as [|[q_type count] rest IH];
    intros all_questions w all_questions' w'; cbn [for_fold].
  - unfold ret. intros [= <- <-]. split; [reflexivity|].
    exists [], []. rewrite !app_nil_r. repeat split; constructor.
  - unfold bind at 1.
    destruct (generate_for_type env material_id difficulty topics
                all_questions (q_type, count) w) as [[acc|e] w1] eqn:E1;
      [|discriminate].
    intros Hrest.
    destruct (IH _ _ _ _ Hrest)
      as (Hq2 & made2 & entries2 & -> & Hids2 & Hc2 & Hdocs2).
    unfold generate_for_type in E1.
    destruct (count <=? 0).
    + unfold ret in E1. injection E1 as <- <-. split; [exact Hq2|].
      exists made2, entries2. now repeat split.
    + unfold bind at 1, ollama_generate_quiz_questions, call in E1.
      destruct (quiz_questions env _ _) as [generated|e]; [|discriminate].
      unfold bind at 1 in E1.
      destruct (for_map generated _ _) as [[made1|e] w1'] eqn:Emap;
        [|discriminate].
      unfold ret in E1. injection E1 as <- <-.
      destruct (for_map_make_effect _ _ _ _ _ Emap)
        as (Hq1 & Hids1 & entries1 & Hc1 & Hdocs1).
      split; [rewrite Hq2, Hq1; reflexivity|].
      exists (made1 ++ made2), (entries1 ++ entries2).
      split; [now rewrite app_assoc|].
      split; [now apply Forall_app|].
      split; [rewrite Hc2, Hc1; cbn; now rewrite app_assoc|].
      now apply Forall2_app.
Qed.

(** Saving questions that already carry an [id] inserts their documents
    and leaves the questions themselves alone. *)
Lemma create_questions_batch_effect qs :
  (forall n, uuid4 env n <> []) ->
  Forall (has_uuid env) qs ->
  forall docs, Forall2 (fun q d => to_dict q = Ret d) qs docs ->
  forall w,
    create_questions_batch env qs w
    = (Ret (qs, map id qs), set_questions w (questions w ++ docs)).
Proof.
  intros Huuid Hids docs Hdocs w. unfold create_questions_batch.
  assert (Hkeep : forall w0,
    for_map qs
      (fun question =>
         if negb (truthy (id question))
         then (u <- new_uuid env ;; ret (set_id question (VStr u)))
         else ret question) w0 = (Ret qs, w0)).
  { clear Hdocs. induction Hids as [|q l [n Hn] _ IH]; intros w0;
      cbn [for_map]; [reflexivity|].
    rewrite Hn. cbn [truthy]. specialize (Huuid n).
    destruct (uuid4 env n); [congruence|]. cbn [negb].
    unfold bind at 1, ret at 1. unfold bind at 1. now rewrite IH. }
  assert (Hdump : forall w0,
    for_map qs (fun q => lift (to_dict q)) w0 = (Ret docs, w0)).
  { clear Hkeep Hids. induction Hdocs as [|q d l ds Hqd _ IH]; intros w0;
      cbn [for_map]; [reflexivity|].
    unfold bind at 1, lift at 1. rewrite Hqd. unfold bind at 1.
    now rewrite IH. }
  unfold bind at 1. rewrite Hkeep. unfold bind at 1. rewrite Hdump.
  reflexivity.
Qed.

(** A run of [generate_qa_pairs] that returns has stored the documents of
    the questions it returns and has appended one "created" entry for each
    of them, in order. *)
Lemma generate_qa_pairs_effect num_questions question_types w qs w' :
  (forall n, uuid4 env n <> []) ->
  generate_qa_pairs env material_id num_questions question_types difficulty
    topics w = (Ret qs, w') ->
  exists docs entries,
    questions w' = questions w ++ docs
    /\ Forall2 (fun q d => to_dict q = Ret d) qs docs
    /\ changelog w' = changelog w ++ entries
    /\ Forall2 (documents_creation material_id) qs entries.
Proof.
  intros Huuid. unfold generate_qa_pairs, bind at 1, material_exists.
  destruct (negb _); [discriminate|].
  unfold bind at 1, lift.
  destruct (qtype_count num_questions question_types) as [counts|e];
    [|discriminate].
  unfold bind at 1.
  destruct (for_fold counts [] _ w) as [[all_questions|e] w1] eqn:Eloop;
    [|discriminate].
  destruct (generate_for_types_effect _ _ _ _ _ Eloop)
    as (Hq & made & entries & -> & Hids & Hc & Hdocs).
  cbn [app] in *.
  assert (Hdicts : exists docs, Forall2 (fun q d => to_dict q = Ret d) made docs).
  { clear - Hdocs. induction Hdocs as [|q e l es (_ & _ & _ & Hd & _) _ [ds IH]].
    - exists []. constructor.
    - exists (qa_data e :: ds). now constructor. }
  destruct Hdicts as [docs Hdicts].
  destruct made as [|q made].
  - unfold ret. intros [= <- <-]. exists [], entries.
    rewrite app_nil_r. split; [exact Hq|]. split; [constructor|].
    split; [exact Hc|exact Hdocs].
  - unfold bind.
    rewrite (create_questions_batch_effect (q :: made) Huuid Hids docs Hdicts).
    unfold ret. cbn [fst]. intros [= <- <-]. exists docs, entries.
    cbn [questions changelog set_questions].
    rewrite Hq. now repeat split.
Qed.

End Creation.

(** ** Adversarial examples *)

Lemma quiet_ret {A} (a : A) : quiet (ret a).
Proof. now intros w. Qed.

Lemma quiet_raise {A} (e : exception) : quiet (@raise A e).
Proof. now intros w. Qed.

Lemma quiet_lift {A} (r : exc A) : quiet (lift r).
Proof. now intros w. Qed.

Lemma quiet_now : quiet now.
Proof. now intros w. Qed.

Lemma quiet_new_uuid env : quiet (new_uuid env).
Proof. now intros w. Qed.

Lemma quiet_call {A} (oracle : list request -> request -> exc A) r :
  quiet (call oracle r).
Proof. now intros w. Qed.

Lemma quiet_bind {A B} (c : M A) (k : A -> M B) :
  quiet c -> (forall a, quiet (k a)) -> quiet (bind c k).
Proof.
  intros Hc Hk w. unfold bind. specialize (Hc w).
  destruct (c w) as [[a|e] w1]; cbn [snd] in *; [|exact Hc].
  destruct (Hk a w1) as [Hq Hl]. destruct Hc as [Hq1 Hl1]. split; congruence.
Qed.

Lemma quiet_try_except {A} (c : M A) (h : exception -> M A) :
  quiet c -> (forall e, quiet (h e)) -> quiet (try_except c h).
Proof.
  intros Hc Hh w. unfold try_except. specialize (Hc w).
  destruct (c w) as [[a|e] w1]; cbn [snd] in *; [exact Hc|].
  destruct (Hh e w1) as [Hq Hl]. destruct Hc as [Hq1 Hl1]. split; congruence.
Qed.

Lemma quiet_if {A} (b : bool) (c1 c2 : M A) :
  quiet c1 -> quiet c2 -> quiet (if b then c1 else c2).
Proof. now destruct b. Qed.

Lemma quiet_for_map {A B} (f : A -> M B) (l : list A) :
  (forall x, quiet (f x)) -> quiet (for_map l f).
Proof.
  intros Hf. induction l as [|x l IH]; cbn [for_map]; [apply quiet_ret|].
  apply quiet_bind; [apply Hf|intros y].
  apply quiet_bind; [exact IH|intros ys]. apply quiet_ret.
Qed.

Ltac quiet_tac :=
  repeat first
    [ apply quiet_ret | apply quiet_raise | apply quiet_lift | apply quiet_now
    | apply quiet_new_uuid | apply quiet_call
    | apply quiet_bind; [ | intros ? ]
    | apply quiet_if ].

Lemma quiet_from_dict env data : quiet (from_dict env data).
Proof.
  unfold from_dict, QuizQuestion_init. cbv zeta.
  apply quiet_bind; [apply quiet_lift|intros difficulty].
  destruct (unexpected_keys _); [|apply quiet_raise].
  destruct (missing_parameters _); [|apply quiet_raise].
  quiet_tac.
Qed.

Lemma quiet_questions_find material_id : quiet (questions_find material_id).
Proof. now intros w. Qed.

Lemma quiet_material_exists material_id : quiet (material_exists material_id).
Proof. now intros w. Qed.

Section Adversarial.
Variable env : environment.
Variable material_id : str.

(** Making one adversarial question never touches the questions; when it
    returns, the question is hard and one "created" entry was written. *)
Lemma make_adversarial_effect ex w :
  match make_adversarial env material_id ex w with
  | (Ret q, w') =>
      questions w' = questions w
      /\ difficulty q = Level HARD
      /\ exists e, changelog w' = changelog w ++ [e]
                   /\ documents_adversarial material_id q e
  | (Raise _, w') => questions w' = questions w /\ changelog w' = changelog w
  end.
Proof.
  unfold make_adversarial, bind, new_uuid, lift, now, QuizQuestion_init, ret.
  destruct (get ex "question" _) as [q_text|e]; [|now split].
  destruct (get ex "type" _) as [q_type|e]; [|now split].
  destruct (get ex "options" _) as [q_options|e]; [|now split].
  destruct (get ex "correct_answer" _) as [q_answer|e]; [|now split].
  destruct (get ex "topic" _) as [q_topic|e]; [|now split].
  cbn [truthy]. unfold bind. cbn [to_dict difficulty].
  destruct (get ex "adversarial_type" _) as [adversarial_type|e];
    [|now split].
  rewrite log_qa_change_run.
  split; [reflexivity|]. split; [reflexivity|].
  eexists. split; [reflexivity|]. now repeat split.
Qed.

Lemma for_map_make_adversarial_effect examples :
  forall w,
    match for_map examples (make_adversarial env material_id) w with
    | (Ret qs, w') =>
        questions w' = questions w
        /\ Forall (fun q => difficulty q = Level HARD) qs
        /\ exists entries,
             changelog w' = changelog w ++ entries
             /\ Forall2 (documents_adversarial material_id) qs entries
    | (Raise _, w') =>
        questions w' = questions w
        /\ exists entries, changelog w' = changelog w ++ entries
    end.
Proof.
  induction examples as [|ex rest IH]; intros w; cbn [for_map].
  - unfold ret. split; [reflexivity|]. split; [constructor|].
    exists []. rewrite app_nil_r. split; [reflexivity|constructor].
  - unfold bind at 1.
    pose proof (make_adversarial_effect ex w) as H1.
    destruct (make_adversarial env material_id ex w) as [[q|e] w1].
    + destruct H1 as (Hq1 & Hhard & e & Hc1 & Hdoc).
      unfold bind at 1. specialize (IH w1).
      destruct (for_map rest _ w1) as [[qs|e'] w2].
      * destruct IH as (Hq2 & Hhards & entries & Hc2 & Hdocs).
        unfold ret. split; [congruence|]. split; [now constructor|].
        exists (e :: entries). split; [|now constructor].
        rewrite Hc2, Hc1. now rewrite <- app_assoc.
      * destruct IH as (Hq2 & entries & Hc2). split; [congruence|].
        exists (e :: entries). rewrite Hc2, Hc1. now rewrite <- app_assoc.
    + destruct H1 as [Hq1 Hc1]. split; [exact Hq1|].
      exists []. now rewrite app_nil_r.
Qed.

(** Saving hard questions stores one document for each of them and leaves
    the changelog alone. *)
Lemma save_adversarial_effect qs :
  Forall (fun q => difficulty q = Level HARD) qs ->
  forall w,
    exists docs,
      for_each qs save_adversarial w
      = (Ret tt, set_questions w (questions w ++ docs))
      /\ Forall2 stored_adversarial qs docs.
Proof.
  induction 1 as [|q qs Hhard _ IH]; intros w; cbn [for_each].
  - exists []. rewrite app_nil_r. split; [now destruct w|constructor].
  - unfold bind at 1, save_adversarial at 1, bind at 1, lift, to_dict.
    rewrite Hhard. unfold questions_insert.
    match goal with |- context [set_questions w (questions w ++ [?d])] =>
      set (doc := d) end.
    destruct (IH (set_questions w (questions w ++ [doc]))) as (docs & Hrun & Hdocs).
    exists (doc :: docs). rewrite Hrun. cbn [questions set_questions].
    rewrite <- app_assoc. split; [reflexivity|].
    constructor; [|exact Hdocs]. now repeat split.
Qed.

(** A run of [generate_adversarial_examples] that returns has stored one
    document for each question it returns; every such document has
    [is_adversarial = True] and [difficulty = "hard"] and NO
    [adversarial_type]; and when questions are returned, one "created"
    entry was written for each of them. *)
Lemma generate_adversarial_examples_effect num_examples base_on_existing
    w qs w' :
  generate_adversarial_examples env material_id num_examples base_on_existing w
    = (Ret qs, w') ->
  exists docs entries,
    questions w' = questions w ++ docs
    /\ Forall2 stored_adversarial qs docs
    /\ changelog w' = changelog w ++ entries
    /\ (qs <> [] -> Forall2 (documents_adversarial material_id) qs entries).
Proof.
  unfold generate_adversarial_examples, bind at 1, material_exists.
  destruct (negb _); [discriminate|].
  unfold bind at 1.
  match goal with |- context [(if base_on_existing then ?c else ret []) w] =>
    assert (Hex : quiet (if base_on_existing then c else ret []))
      by (apply quiet_if; [|apply quiet_ret];
          apply quiet_bind; [apply quiet_questions_find|intros docs];
          apply quiet_for_map; intros d; apply quiet_from_dict);
    specialize (Hex w);
    destruct ((if base_on_existing then c else ret []) w)
      as [[existing|e] w1]; [|discriminate]
  end.
  cbn [snd] in Hex. destruct Hex as [Hq1 Hc1].
  unfold bind at 1.
  match goal with |- context [(if ?b then ?c1 else ?c2) w1] =>
    assert (Hpr : quiet (if b then c1 else c2))
      by (apply quiet_if; quiet_tac);
    specialize (Hpr w1);
    destruct ((if b then c1 else c2) w1) as [[prompt|e] w2]; [|discriminate]
  end.
  cbn [snd] in Hpr. destruct Hpr as [Hq2 Hc2].
  unfold bind at 1, ollama_generate_completion, call.
  destruct (completion env _ _) as [response|e]; [|discriminate].
  set (w3 := set_calls w2 _).
  assert (Hq3 : questions w3 = questions w) by (cbn; congruence).
  assert (Hc3 : changelog w3 = changelog w) by (cbn; congruence).
  clearbody w3. unfold bind at 1, try_except.
  destruct (_ && _).
  - unfold bind at 1, lift.
    destruct (json_loads env _) as [examples|e].
    + unfold bind at 1. destruct (iter examples) as [items|e].
      * unfold bind at 1.
        pose proof (for_map_make_adversarial_effect items w3) as Hmake.
        destruct (for_map items _ w3) as [[made|e] w4].
        -- destruct Hmake as (Hq4 & Hhard & entries & Hc4 & Hdocs).
           unfold ret at 1. unfold bind at 1.
           destruct (save_adversarial_effect made Hhard w4)
             as (docs & Hsave & Hstored).
           rewrite Hsave. unfold ret. intros [= <- <-].
           exists docs, entries. cbn [questions changelog set_questions].
           rewrite Hq4, Hq3, Hc4, Hc3. now repeat split.
        -- destruct Hmake as (Hq4 & entries & Hc4).
           unfold ret. intros [= <- <-]. exists [], entries.
           rewrite app_nil_r, Hq4, Hq3, Hc4, Hc3.
           repeat split; try congruence; constructor.
      * unfold ret. intros [= <- <-]. exists [], [].
        rewrite !app_nil_r. repeat split; try congruence; constructor.
    + unfold ret. intros [= <- <-]. exists [], [].
      rewrite !app_nil_r. repeat split; try congruence; constructor.
  - unfold ret. cbn [for_each]. unfold bind, ret. intros [= <- <-].
    exists [], []. rewrite !app_nil_r. repeat split; try congruence; constructor.
Qed.

End Adversarial.

(** C4 (as the code has it). With uuids that are never the empty string:
    a run of [generate_qa_pairs] that returns has written one "created"
    entry for each question it stored, and so has a run of
    [generate_adversarial_examples] that returns questions; a round of the
    evaluation either
    leaves questions and changelog alone, or deletes the question and
    writes one "removed" entry, or updates it and writes one "updated"
    entry, so that a whole evaluation appends exactly [removed] "removed"
    and [updated] "updated" entries; and [record_question_feedback], which
    always returns, rewrites the [quality_metrics] of the question and
    writes NO changelog entry. *)
Theorem changelog_discipline (env : environment) :
  (forall n, uuid4 env n <> []) ->
  (forall material_id num_questions question_types difficulty topics w qs w',
      generate_qa_pairs env material_id num_questions question_types
        difficulty topics w = (Ret qs, w') ->
      exists docs entries,
        questions w' = questions w ++ docs
        /\ Forall2 (fun q d => to_dict q = Ret d) qs docs
        /\ changelog w' = changelog w ++ entries
        /\ Forall2 (documents_creation material_id) qs entries)
  /\ (forall material_id num_examples base_on_existing w qs w',
        generate_adversarial_examples env material_id num_examples
          base_on_existing w = (Ret qs, w') ->
        exists docs entries,
          questions w' = questions w ++ docs
          /\ Forall2 stored_adversarial qs docs
          /\ changelog w' = changelog w ++ entries
          /\ (qs <> [] ->
              Forall2 (documents_adversarial material_id) qs entries))
  /\ (forall material_id threshold stats q feedback w stats' w',
        process_question env material_id threshold stats (q, feedback) w
          = (Ret stats', w') ->
        exists q_id,
          getitem (VDict q) "id" = Ret q_id
          /\ round_effect material_id q q_id feedback stats stats' w w')
  /\ (forall material_id threshold w stats w',
        evaluate_and_update_questions env material_id threshold w
          = (Ret stats, w') ->
        exists entries,
          changelog w' = changelog w ++ entries
          /\ count_action "removed" entries = removed stats
          /\ count_action "updated" entries = updated stats
          /\ len entries = removed stats + updated stats
          /\ removed stats + updated stats + no_action stats
             = total_questions stats)
  /\ (forall question_id user_id is_correct is_helpful difficulty_rating
             feedback_text w,
        exists w',
          record_question_feedback env question_id user_id is_correct
            is_helpful difficulty_rating feedback_text w
          = (Ret (uuid4 env (uuids w)), w')
          /\ changelog w' = changelog w
          /\ questions w'
             = update_first (VStr question_id)
                 (metrics_update
                    (feedback_of question_id w
                     ++ [feedback_at env w question_id user_id is_correct
                           is_helpful difficulty_rating feedback_text])
                    (S (clock w)))
                 (questions w)).
Proof.
  intros Huuid. split; [|split; [|split; [|split]]].
  - intros. eapply generate_qa_pairs_effect; eassumption.
  - intros. eapply generate_adversarial_examples_effect; eassumption.
  - intros. eapply process_question_effect; eassumption.
  - intros. eapply evaluate_and_update_questions_effect; eassumption.
  - intros question_id uid correct helpful rating text w.
    destruct (record_question_feedback_run env question_id uid correct
                helpful rating text w)
      as (w' & Hrun & _ & Hlog & Hq).
    exists w'. now repeat split.
Qed.

(** ** Concrete runs *)

Import Scenario.

Ltac by_computation :=
  first [ reflexivity | discriminate
        | vm_compute; first [ reflexivity | discriminate
                            | intro; discriminate ] ].

(** C8, as stated, fails: when a type is listed twice, three questions over
    the two entries give that type 2 questions in all, so the counts do not
    sum to [num_questions]; and with a third type the counts 3 and 1 differ
    by two. *)
Lemma qtype_count_duplicates_counterexample :
  qtype_count 3 [lit "multiple_choice"; lit "multiple_choice"]
  = Ret [(lit "multiple_choice", 2)]
  /\ fold_right Z.add 0 (map snd [(lit "multiple_choice", 2)]) <> 3
  /\ qtype_count 5 [lit "multiple_choice"; lit "multiple_choice";
                    lit "short_answer"]
     = Ret [(lit "multiple_choice", 3); (lit "short_answer", 1)].
Proof. repeat split; by_computation. Qed.

Lemma qtype_count_even_split_witness :
  exists counts,
    qtype_count 10 [lit "multiple_choice"; lit "short_answer"; lit "flashcard"]
    = Ret counts
    /\ fold_right Z.add 0 (map snd counts) = 10.
Proof.
  destruct (qtype_count_even_split 10
              [lit "multiple_choice"; lit "short_answer"; lit "flashcard"])
    as (counts & Hrun & _ & _ & Hsum & _).
  - lia.
  - discriminate.
  - repeat constructor; cbn; intuition discriminate.
  - exists counts. split; [exact Hrun|exact Hsum].
Defined.

Lemma quality_score_formula_witness :
  (ratio 2 5 * 0.4 + ratio 2 3 * 0.6)%float = 0.56%float
  /\ process_question env_idle (lit "m1") 0.3%float stats0
       (question_q1, five_records) (with_store [question_q1] five_records)
     = (Ret (count_no_action stats0), with_store [question_q1] five_records)
  /\ exists w',
       evaluate_and_update_questions env_idle (lit "m1") 0.3%float
         (with_store [question_q1] poor_records)
       = (Ret (count_removed stats0), w')
       /\ questions w' = []
       /\ changelog w'
          = [entry_at env_idle (with_store [question_q1] poor_records)
               (VStr (lit "q1")) (lit "m1") "removed"
               (RemovedLowQuality 0%float) question_q1 None].
Proof.
  destruct (quality_score_formula five_records ltac:(discriminate))
    as (_ & _ & _ & _ & _ & _ & Hexample).
  destruct (Hexample eq_refl eq_refl eq_refl) as [Hscore Hstep].
  split; [exact Hscore|]. split.
  - apply (Hstep env_idle (lit "m1") stats0 question_q1 (VStr (lit "q1"))).
    reflexivity.
  - destruct (quality_score_formula poor_records ltac:(discriminate))
      as (_ & _ & _ & _ & Hround & Hloop & _).
    rewrite (Hloop env_idle (lit "m1") 0.3%float question_q1 (lit "q1")
               (with_store [question_q1] poor_records)
               eq_refl eq_refl eq_refl).
    destruct (Hround env_idle (lit "m1") 0.3%float stats0 question_q1
                (VStr (lit "q1")) (with_store [question_q1] poor_records)
                eq_refl) as (_ & Hremove & _).
    destruct (Hremove eq_refl eq_refl) as (w' & Hrun & Hq & Hlog & _).
    exists w'. split; [exact Hrun|]. split; [exact Hq|exact Hlog].
Defined.

(** The whole evaluation of the boundary example: one question, no
    action, and the store is left as it was. *)
Lemma evaluate_boundary_example :
  evaluate_and_update_questions env_idle (lit "m1") 0.3%float
    (with_store [question_q1] five_records)
  = (Ret {| total_questions := 1; removed := 0; updated := 0; no_action := 1 |},
     with_store [question_q1] five_records).
Proof. by_computation. Qed.

(** C9 fails on the code.  The model labels its example "misconception";
    the record that [generate_adversarial_examples] stores has
    [is_adversarial = True] and [difficulty = "hard"] but no
    [adversarial_type] key at all: the label only reaches the snapshot kept
    in the changelog. *)
Lemma adversarial_type_not_persisted :
  exists q w doc entry,
    generate_adversarial_examples env_adversarial (lit "m1") 1 false w0
    = (Ret [q], w)
    /\ questions w = [doc]
    /\ dict_get (lit "is_adversarial") doc = Some (VBool true)
    /\ dict_get (lit "difficulty") doc = Some (VStr (lit "hard"))
    /\ dict_get (lit "adversarial_type") doc = None
    /\ changelog w = [entry]
    /\ dict_get (lit "adversarial_type") (qa_data entry)
       = Some (VStr (lit "misconception")).
Proof.
  do 4 eexists. repeat split; by_computation.
Qed.

(** C4, as stated, fails: recording one feedback on the stored question
    [q1] rewrites that question (it gains [quality_metrics]) and the
    changelog stays empty. *)
Lemma metrics_update_unlogged_counterexample :
  exists feedback_id w' q1',
    record_question_feedback env_idle (lit "q1") (lit "u1") true (Some true)
      None None (with_store [question_q1] [])
    = (Ret feedback_id, w')
    /\ questions (with_store [question_q1] []) = [question_q1]
    /\ questions w' = [q1']
    /\ dict_get (lit "quality_metrics") question_q1 = None
    /\ dict_get (lit "quality_metrics") q1'
       = Some (VDict [ (lit "accuracy", VFloat 1%float);
                       (lit "helpfulness", VFloat 1%float);
                       (lit "total_attempts", VInt 1);
                       (lit "updated_at", VDatetime 11) ])
    /\ changelog (with_store [question_q1] []) = []
    /\ changelog w' = [].
Proof. do 3 eexists. repeat split; by_computation. Qed.

Lemma changelog_discipline_witness :
  (exists qs w' entries,
      generate_qa_pairs env_quiz (lit "m1") 3
        [lit "multiple_choice"; lit "short_answer"] (lit "medium") VNone w0
      = (Ret qs, w')
      /\ List.length qs = 3%nat
      /\ changelog w' = changelog w0 ++ entries
      /\ Forall2 (documents_creation (lit "m1")) qs entries)
  /\ (exists stats w' entries,
        evaluate_and_update_questions env_idle (lit "m1") 0.3%float
          (with_store [question_q1] poor_records) = (Ret stats, w')
        /\ removed stats = 1
        /\ changelog w' = [] ++ entries
        /\ count_action "removed" entries = 1
        /\ len entries = 1)
  /\ (exists stats w' entries,
        evaluate_and_update_questions env_improve (lit "m1") 0.3%float
          (with_store [question_q1] mixed_records) = (Ret stats, w')
        /\ updated stats = 1
        /\ changelog w' = [] ++ entries
        /\ count_action "updated" entries = 1
        /\ len entries = 1)
  /\ (exists w',
        record_question_feedback env_idle (lit "q1") (lit "u1") true
          (Some true) None None (with_store [question_q1] [])
        = (Ret (lit "uuid-0"), w')
        /\ changelog w' = []).
Proof.
  split; [|split; [|split]].
  - destruct (changelog_discipline env_quiz ltac:(intros n; discriminate))
      as (Hcreate & _).
    destruct (generate_qa_pairs env_quiz (lit "m1") 3
                [lit "multiple_choice"; lit "short_answer"] (lit "medium")
                VNone w0) as [[qs|e] w'] eqn:Erun; [|vm_compute in Erun; discriminate].
    destruct (Hcreate _ _ _ _ _ _ _ _ Erun) as (docs & entries & _ & _ & Hc & Hd).
    exists qs, w', entries. split; [reflexivity|].
    split; [|split; [exact Hc|exact Hd]].
    vm_compute in Erun. injection Erun as <- _. reflexivity.
  - destruct (changelog_discipline env_idle ltac:(intros n; discriminate))
      as (_ & _ & _ & Heval & _).
    destruct (evaluate_and_update_questions env_idle (lit "m1") 0.3%float
                (with_store [question_q1] poor_records))
      as [[stats|e] w'] eqn:Erun; [|vm_compute in Erun; discriminate].
    destruct (Heval _ _ _ _ _ Erun) as (entries & Hc & Hr & _ & Hl & _).
    assert (Hone : removed stats = 1 /\ updated stats = 0).
    { vm_compute in Erun. injection Erun as <- _. now split. }
    destruct Hone as [Hrem Hupd].
    exists stats, w', entries. split; [reflexivity|]. repeat split.
    + exact Hrem.
    + exact Hc.
    + now rewrite Hr.
    + now rewrite Hl, Hrem, Hupd.
  - destruct (changelog_discipline env_improve ltac:(intros n; discriminate))
      as (_ & _ & _ & Heval & _).
    destruct (evaluate_and_update_questions env_improve (lit "m1") 0.3%float
                (with_store [question_q1] mixed_records))
      as [[stats|e] w'] eqn:Erun; [|vm_compute in Erun; discriminate].
    destruct (Heval _ _ _ _ _ Erun) as (entries & Hc & _ & Hu & Hl & _).
    assert (Hone : removed stats = 0 /\ updated stats = 1).
    { vm_compute in Erun. injection Erun as <- _. now split. }
    destruct Hone as [Hrem Hupd].
    exists stats, w', entries. split; [reflexivity|]. repeat split.
    + exact Hupd.
    + exact Hc.
    + now rewrite Hu.
    + now rewrite Hl, Hrem, Hupd.
  - destruct (changelog_discipline env_idle ltac:(intros n; discriminate))
      as (_ & _ & _ & _ & Hfb).
    destruct (Hfb (lit "q1") (lit "u1") true (Some true) None None
                (with_store [question_q1] [])) as (w' & Hrun & Hc & _).
    exists w'. split; [exact Hrun|exact Hc].
Defined.

End QAFacts.

(* ===================================================================== *)
(** * Further properties of the summarization pipeline *)
(* ===================================================================== *)

Module PipelineFacts.
Import Py Prompts World Summarization PipelineTerms.
Import SummarizationFacts.
#[local] Open Scope py_scope.

(** ** Calls that satisfy a predicate *)

Lemma sends_ret P {A} (a : A) : sends P (ret a).
Proof. intros w; exists []; cbn; rewrite app_nil_r; auto. Qed.

Lemma sends_raise P {A} (e : exception) : sends P (@raise A e).
Proof. intros w; exists []; cbn; rewrite app_nil_r; auto. Qed.

Lemma sends_lift P {A} (r : exc A) : sends P (lift r).
Proof. intros w; exists []; cbn; rewrite app_nil_r; auto. Qed.

Lemma sends_bind P {A B} (c : M A) (k : A -> M B) :
  sends P c -> (forall a, sends P (k a)) -> sends P (bind c k).
Proof.
  intros Hc Hk w. unfold bind.
  destruct (Hc w) as [r1 [H1 F1]]. destruct (c w) as [[a|e] w1]; cbn in *.
  - destruct (Hk a w1) as [r2 [H2 F2]]. exists (r1 ++ r2). split.
    + now rewrite H2, H1, app_assoc.
    + apply Forall_app; auto.
  - now exists r1.
Qed.

Lemma sends_try_except P {A} (c : M A) (h : exception -> M A) :
  sends P c -> (forall e, sends P (h e)) -> sends P (try_except c h).
Proof.
  intros Hc Hh w. unfold try_except.
  destruct (Hc w) as [r1 [H1 F1]]. destruct (c w) as [[a|e] w1]; cbn in *.
  - now exists r1.
  - destruct (Hh e w1) as [r2 [H2 F2]]. exists (r1 ++ r2). split.
    + now rewrite H2, H1, app_assoc.
    + apply Forall_app; auto.
Qed.

Lemma sends_call (P : request -> Prop) {A}
    (oracle : list request -> request -> exc A) r :
  P r -> sends P (call oracle r).
Proof. intros Hr w. exists [r]. split; [reflexivity|auto]. Qed.

Lemma sends_if P {A} (b : bool) (c1 c2 : M A) :
  sends P c1 -> sends P c2 -> sends P (if b then c1 else c2).
Proof. now destruct b. Qed.

(** ** Truncation *)

Lemma slice_to_firstn {A} (hi : Z) (l : list A) :
  0 <= hi <= len l -> slice None (Some hi) l = firstn (Z.to_nat hi) l.
Proof.
  intros Hhi. unfold slice, clamp_index.
  destruct (hi <? 0) eqn:E; [apply Z.ltb_lt in E; lia|].
  rewrite Z.min_l by lia. rewrite Z.sub_0_r. reflexivity.
Qed.

Lemma firstn_prefix {A} (n : nat) (l rest : list A) :
  (n <= List.length l)%nat -> firstn n (firstn n l ++ rest) = firstn n l.
Proof.
  intros Hn. rewrite firstn_app, firstn_firstn, Nat.min_id, length_firstn.
  assert (E0 : (n - Nat.min n (List.length l))%nat = 0%nat) by lia.
  rewrite E0. cbn [firstn]. now rewrite app_nil_r.
Qed.

Lemma len_app {A} (l1 l2 : list A) : len (l1 ++ l2) = len l1 + len l2.
Proof. unfold len. rewrite length_app. lia. Qed.

Lemma len_ellipsis : len (lit "...") = 3.
Proof. reflexivity. Qed.

Lemma len_nonneg {A} (l : list A) : 0 <= len l.
Proof. unfold len. lia. Qed.

Lemma truncated_length document_text :
  len (truncated document_text)
  = if 12000 <? len document_text then 12003 else len document_text.
Proof.
  unfold truncated. destruct (12000 <? len document_text) eqn:E; [|reflexivity].
  apply Z.ltb_lt in E. rewrite len_app, len_ellipsis.
  rewrite slice_to_firstn by lia.
  unfold len in *. rewrite length_firstn. lia.
Qed.

Lemma truncated_bound document_text : len (truncated document_text) <= 12003.
Proof.
  rewrite truncated_length.
  destruct (12000 <? len document_text) eqn:E; [lia|].
  apply Z.ltb_ge in E. lia.
Qed.

(** ** The summary prompt *)

Lemma summary_prompt_document text max_points topic_keywords p :
  get_document_summary_prompt text max_points topic_keywords = Ret p ->
  prompt_document p = text.
Proof.
  unfold get_document_summary_prompt.
  destruct (truthy topic_keywords); [|now intros [= <-]].
  destruct (vlen topic_keywords) as [n|e]; [|discriminate].
  destruct (0 <? n); [|now intros [= <-]].
  destruct (join_value _ _) as [s|e]; [|discriminate].
  now intros [= <-].
Qed.

Lemma all_str_is_str l :
  (exists parts, all_str l = Some parts) <-> forallb is_str l = true.
Proof.
  induction l as [|v l IH]; cbn.
  - split; eauto.
  - destruct v; cbn; try (split; [intros [parts H]; discriminate|discriminate]).
    rewrite <- IH. split.
    + intros [parts H]. destruct (all_str l) as [ps|]; [eauto|discriminate].
    + intros [ps ->]. cbn. eauto.
Qed.

(** [join] goes through the items once: it returns the strings when every
    item is one, and reports the first item that is not. *)
Lemma join_items_cases l :
  forall i,
    match join_items i l with
    | Ret parts => all_str l = Some parts
    | Raise e =>
        exists j item,
          nth_error l j = Some item
          /\ is_str item = false
          /\ forallb is_str (firstn j l) = true
          /\ e = not_str_item (i + j) item
    end.
Proof.
  induction l as [|v l IH]; intros i; cbn [join_items]; [reflexivity|].
  assert (Hother : is_str v = false ->
            exists j item,
              nth_error (v :: l) j = Some item
              /\ is_str item = false
              /\ forallb is_str (firstn j (v :: l)) = true
              /\ not_str_item i v = not_str_item (i + j) item).
  { intros Hv. exists 0%nat, v. rewrite Nat.add_0_r. now repeat split. }
  destruct v; try (now apply Hother).
  specialize (IH (S i)). destruct (join_items (S i) l) as [parts|e].
  - cbn [all_str]. now rewrite IH.
  - destruct IH as (j & item & Hnth & Hitem & Hfirst & ->).
    exists (S j), item. cbn [nth_error firstn forallb is_str andb].
    repeat split; try assumption. f_equal. lia.
Qed.

(** ** The entries of a validation *)

Lemma invalid_points_facts l inv :
  invalid_points l = Ret inv ->
  forallb is_dict l = true /\ len inv <= len l.
Proof.
  revert inv. induction l as [|p rest IH]; intros inv; cbn [invalid_points].
  - intros [= <-]. split; [reflexivity|cbn; lia].
  - unfold unsupported.
    destruct (get p "supported" (VBool false)) as [s|e] eqn:Eg; [|discriminate].
    destruct (invalid_points rest) as [l|e]; [|discriminate].
    destruct (IH l eq_refl) as [Hd Hl].
    intros [= <-]. split.
    + cbn [forallb]. rewrite Hd.
      destruct p; cbn in Eg; try discriminate. reflexivity.
    + unfold len in *. destruct (negb (truthy s)); cbn [List.length]; lia.
Qed.

Lemma supported_points_complement l inv valid :
  invalid_points l = Ret inv ->
  supported_points l = Ret valid ->
  len valid + len inv = len l.
Proof.
  revert inv valid.
  induction l as [|p rest IH]; intros inv valid;
    cbn [invalid_points supported_points].
  - intros [= <-] [= <-]. reflexivity.
  - unfold unsupported.
    destruct (get p "supported" (VBool false)) as [s|e]; [|discriminate].
    destruct (invalid_points rest) as [l|e]; [|discriminate].
    intros [= <-].
    destruct (truthy s); cbn [negb].
    + destruct (getitem p "point") as [pt|e]; [|discriminate].
      destruct (supported_points rest) as [vs|e]; [|discriminate].
      intros [= <-]. specialize (IH l vs eq_refl eq_refl).
      unfold len in *. cbn [List.length]. lia.
    + intros Hs. specialize (IH l valid eq_refl Hs).
      unfold len in *. cbn [List.length]. lia.
Qed.

(** A supported entry without [point] makes the comprehension raise, and
    among dict entries nothing else can. *)
Lemma supported_points_missing l :
  forallb is_dict l = true ->
  existsb (fun p => marked_supported p && lacks_point p) l = true ->
  supported_points l = Raise (KeyError (lit "point")).
Proof.
  induction l as [|p rest IH]; cbn [forallb existsb supported_points];
    [discriminate|].
  intros Hd Hex. apply andb_prop in Hd. destruct Hd as [Hp Hrest].
  destruct p as [| | | | | |d|]; try discriminate.
  unfold marked_supported, lacks_point, dict_mem in Hex.
  cbn [get getitem] in *.
  destruct (truthy _) eqn:Et.
  - destruct (dict_get (lit "point") d) as [pt|] eqn:Ept; [|reflexivity].
    cbn in Hex. rewrite (IH Hrest Hex). reflexivity.
  - cbn in Hex. apply (IH Hrest Hex).
Qed.

Section Facts.
Variable env : environment.

(** ** Step 2 *)

(** Once its prompt can be built, step 2 makes one backend call, at
    temperature 0.3, and never raises: whatever goes wrong afterwards is
    turned into the one-line error summary. *)
Lemma generate_summary_points_runs doc mp kw model prompt w :
  get_document_summary_prompt doc mp kw = Ret prompt ->
  _generate_summary_points env doc mp kw model w
  = (Ret match completion env (calls w) (summary_request prompt model) with
         | Ret response =>
             match format_bullets (_extract_json_array env response) mp with
             | Ret formatted => formatted
             | Raise _ => [GENERATION_ERROR]
             end
         | Raise _ => [GENERATION_ERROR]
         end,
     set_calls w (calls w ++ [summary_request prompt model])).
Proof.
  intros Hp.
  unfold _generate_summary_points, try_except, bind, ret, lift,
    ollama_generate_completion, call, summary_request.
  rewrite Hp. destruct (completion env _ _) as [response|e]; [|reflexivity].
  destruct (format_bullets _ _); reflexivity.
Qed.

Lemma topics_world doc model w topics w1 :
  _extract_document_topics env doc model w = (Ret topics, w1) ->
  w1 = set_calls w (calls w ++ [topic_request doc model]).
Proof.
  intros H. destruct (extract_document_topics_runs env doc model w) as [t Ht].
  congruence.
Qed.

Lemma two_calls w a b :
  set_calls (set_calls w (calls w ++ [a]))
    (calls (set_calls w (calls w ++ [a])) ++ [b])
  = set_calls w (calls w ++ [a; b]).
Proof. unfold set_calls. cbn. now rewrite <- app_assoc. Qed.

(** X1. A run without validation makes exactly two backend calls, the
    topic extraction and the summary generation at temperature 0.3, and
    returns with [success = True], no validation record and neither flag,
    the points that [_generate_summary_points] returns: the formatted
    bullets of the backend's answer, or the one-line error summary when the
    call or the formatting raises.  A run with validation enabled does the
    same when the generated summary is empty. *)
Theorem unvalidated_run_makes_two_calls
    (document_text : str) (max_points : Z) (model : str)
    (w w1 : world) (topics : Topics) (prompt : prompt) :
  100 <= len document_text ->
  _extract_document_topics env (truncated document_text) model w
    = (Ret topics, w1) ->
  get_document_summary_prompt (truncated document_text) max_points
    (key_topics topics) = Ret prompt ->
  let w2 := set_calls w (calls w ++ [topic_request (truncated document_text) model;
                                     summary_request prompt model]) in
  let summary_points :=
    match completion env (calls w1) (summary_request prompt model) with
    | Ret response =>
        match format_bullets (_extract_json_array env response) max_points with
        | Ret formatted => formatted
        | Raise _ => [GENERATION_ERROR]
        end
    | Raise _ => [GENERATION_ERROR]
    end in
  _generate_summary_points env (truncated document_text) max_points
    (key_topics topics) model w1 = (Ret summary_points, w2)
  /\ summarize_document env document_text max_points model false w
     = (Ret {| success := true; error := None;
               summary := map VStr summary_points;
               topics := Some topics; validation := None;
               regenerated := None; filtered := None |}, w2)
  /\ (summary_points = [] ->
      summarize_document env document_text max_points model true w
      = (Ret (initial_result topics [] None), w2)).
Proof.
  intros Hlen H1 Hp. cbv zeta.
  pose proof (topics_world _ _ _ _ _ H1) as Hw1.
  pose proof (generate_summary_points_runs (truncated document_text)
                max_points (key_topics topics) model prompt w1 Hp) as H2.
  assert (Hw2 : set_calls w1 (calls w1 ++ [summary_request prompt model])
                = set_calls w (calls w ++ [topic_request
                                             (truncated document_text) model;
                                           summary_request prompt model])).
  { rewrite Hw1 at 1 2. apply two_calls. }
  rewrite Hw2 in H2. split; [exact H2|]. split.
  - rewrite (summarize_document_to_step3 env _ _ _ false _ _ _ _ _ Hlen H1 H2).
    reflexivity.
  - intros Hempty.
    rewrite (summarize_document_to_step3 env _ _ _ true _ _ _ _ _ Hlen H1 H2).
    rewrite Hempty. reflexivity.
Qed.

(** X2. When the summary backend call raises, or what it returns cannot be
    formatted, the run still reports [success = True]: the summary is the
    single line "Error: Unable to generate summary ...".  With validation
    enabled that line is sent to the validator as if it were a summary
    point. *)
Theorem generation_failure_is_returned_as_summary
    (document_text : str) (max_points : Z) (model : str)
    (w w1 : world) (topics : Topics) (prompt : prompt) :
  100 <= len document_text ->
  _extract_document_topics env (truncated document_text) model w
    = (Ret topics, w1) ->
  get_document_summary_prompt (truncated document_text) max_points
    (key_topics topics) = Ret prompt ->
  (exists e, completion env (calls w1) (summary_request prompt model) = Raise e)
  \/ (exists response e,
        completion env (calls w1) (summary_request prompt model) = Ret response
        /\ format_bullets (_extract_json_array env response) max_points
           = Raise e) ->
  let doc := truncated document_text in
  let w2 := set_calls w (calls w ++ [topic_request doc model;
                                     summary_request prompt model]) in
  summarize_document env document_text max_points model false w
  = (Ret (initial_result topics [GENERATION_ERROR] None), w2)
  /\ success (initial_result topics [GENERATION_ERROR] None) = true
  /\ exists rest,
       calls (snd (summarize_document env document_text max_points model
                     true w))
       = calls w ++ [topic_request doc model; summary_request prompt model;
                     validation_request [GENERATION_ERROR] doc model] ++ rest.
Proof.
  intros Hlen H1 Hp Hfail. cbv zeta.
  pose proof (topics_world _ _ _ _ _ H1) as Hw1.
  pose proof (generate_summary_points_runs (truncated document_text)
                max_points (key_topics topics) model prompt w1 Hp) as H2.
  assert (Hpoints :
    match completion env (calls w1) (summary_request prompt model) with
    | Ret response =>
        match format_bullets (_extract_json_array env response) max_points with
        | Ret formatted => formatted
        | Raise _ => [GENERATION_ERROR]
        end
    | Raise _ => [GENERATION_ERROR]
    end = [GENERATION_ERROR]).
  { destruct Hfail as [[e ->]|[response [e [-> ->]]]]; reflexivity. }
  rewrite Hpoints in H2. clear Hpoints.
  split; [|split; [reflexivity|]].
  - rewrite (summarize_document_to_step3 env _ _ _ false _ _ _ _ _ Hlen H1 H2).
    unfold step3. cbn [andb]. unfold ret. subst w1. now rewrite two_calls.
  - rewrite (summarize_document_to_step3 env _ _ _ true _ _ _ _ _ Hlen H1 H2).
    unfold step3. cbn [andb nonempty]. unfold bind.
    destruct (_validate_summary env [GENERATION_ERROR]
                (truncated document_text) model _) as [[v|e] w3] eqn:E3.
    + destruct (appends_step4 env (truncated document_text) max_points model
                  topics [GENERATION_ERROR] v w3) as [rest Hrest].
      exists rest. rewrite Hrest.
      assert (Hw3 : calls w3
                    = calls w ++ [topic_request (truncated document_text) model;
                                  summary_request prompt model;
                                  validation_request [GENERATION_ERROR]
                                    (truncated document_text) model]).
      { revert E3. subst w1.
        unfold _validate_summary, try_except, bind, ret, lift,
          ollama_generate_structured_completion, call, validation_request.
        cbn [calls set_calls].
        destruct (structured_completion env _ _) as [resp|e'];
          [|intros [= _ <-]; cbn; now rewrite <- !app_assoc].
        cbn. destruct (get resp "result" _) as [pa|e'];
          [|intros [= _ <-]; cbn; now rewrite <- !app_assoc].
        cbn. destruct (invalid_points _) as [inv|e'];
          intros [= _ <-]; cbn; now rewrite <- !app_assoc. }
      rewrite Hw3. now rewrite <- !app_assoc.
    + exfalso. revert E3.
      unfold _validate_summary, try_except, bind, ret, lift,
        ollama_generate_structured_completion, call.
      destruct (structured_completion env _ _) as [resp|e']; [|discriminate].
      cbn. destruct (get resp "result" _) as [pa|e']; [|discriminate].
      cbn. destruct (invalid_points _) as [inv|e']; discriminate.
Qed.

(** X3. The summary prompt is built outside any [try]: when it cannot be
    built (the extracted key topics cannot be joined), [summarize_document]
    raises that exception, whatever [validation_enabled] is, after the
    topic-extraction call and before any other. *)
Theorem unjoinable_topics_abort_the_run
    (document_text : str) (max_points : Z) (model : str)
    (validation_enabled : bool) (w w1 : world) (topics : Topics)
    (e : exception) :
  100 <= len document_text ->
  _extract_document_topics env (truncated document_text) model w
    = (Ret topics, w1) ->
  get_document_summary_prompt (truncated document_text) max_points
    (key_topics topics) = Raise e ->
  summarize_document env document_text max_points model validation_enabled w
  = (Raise e,
     set_calls w (calls w ++ [topic_request (truncated document_text) model])).
Proof.
  intros Hlen H1 Hp.
  pose proof (topics_world _ _ _ _ _ H1) as Hw1.
  rewrite summarize_document_stages.
  apply Z.ltb_ge in Hlen. rewrite Hlen.
  unfold bind at 1. rewrite H1.
  unfold step2, bind, _generate_summary_points, bind, lift.
  rewrite Hp. now subst w1.
Qed.

(** ** Step 3 *)

(** Validation makes one backend call and never raises; its record is
    either that of a reply that could be read, with the entries and the
    count of those not marked as supported, or the error record. *)
Lemma validate_summary_runs pts doc model w :
  exists v,
    _validate_summary env pts doc model w
    = (Ret v, set_calls w (calls w ++ [validation_request pts doc model]))
    /\ ((validation_error v = None
         /\ exists l inv,
              point_analysis v = Some l
              /\ invalid_points l = Ret inv
              /\ invalid_points_count v = len inv
              /\ total_points v = len l)
        \/ (validation_error v <> None
            /\ point_analysis v = None
            /\ invalid_points_count v = 0
            /\ total_points v = len pts)).
Proof.
  unfold _validate_summary, try_except, bind, ret, lift,
    ollama_generate_structured_completion, call, validation_request.
  destruct (structured_completion env _ _) as [response|e]; cbn.
  - destruct (get response "result" _) as [pa|e]; cbn.
    + destruct (invalid_points _) as [inv|e] eqn:Ei; cbn.
      * eexists. split; [reflexivity|]. left. cbn. split; [reflexivity|].
        eexists; eexists. repeat split. exact Ei.
      * eexists. split; [reflexivity|]. right. cbn.
        repeat split. discriminate.
    + eexists. split; [reflexivity|]. right. cbn. repeat split. discriminate.
  - eexists. split; [reflexivity|]. right. cbn. repeat split. discriminate.
Qed.

Lemma validate_summary_cases pts doc model w v w' :
  _validate_summary env pts doc model w = (Ret v, w') ->
  (validation_error v = None
   /\ exists l inv,
        point_analysis v = Some l
        /\ invalid_points l = Ret inv
        /\ invalid_points_count v = len inv
        /\ total_points v = len l)
  \/ (validation_error v <> None
      /\ point_analysis v = None
      /\ invalid_points_count v = 0
      /\ total_points v = len pts).
Proof.
  intros H. destruct (validate_summary_runs pts doc model w) as [v' [Hv Hc]].
  rewrite Hv in H. injection H as <- _. exact Hc.
Qed.

(** X4. The counts of a validation record are consistent: the number of
    invalid points lies between 0 and the total; when the validator's reply
    could be read, the supported points that step 4 collects number exactly
    [total_points - invalid_points_count]; and the error record counts no
    invalid point among as many points as the summary has, with no entry to
    collect. *)
Theorem validation_counts_are_consistent
    (summary_points : list str) (document_text model : str)
    (w w' : world) (v : Validation) :
  _validate_summary env summary_points document_text model w = (Ret v, w') ->
  0 <= invalid_points_count v <= total_points v
  /\ (validation_error v = None ->
      forall valid,
        supported_points (analysis_of v) = Ret valid ->
        len valid = total_points v - invalid_points_count v)
  /\ (validation_error v <> None ->
      invalid_points_count v = 0
      /\ total_points v = len summary_points
      /\ analysis_of v = []).
Proof.
  intros H.
  destruct (validate_summary_cases _ _ _ _ _ _ H)
    as [[Hnone [l [inv [Hl [Hinv [Hc Ht]]]]]]|[Herr [Hl [Hc Ht]]]].
  - destruct (invalid_points_facts l inv Hinv) as [_ Hle].
    split; [rewrite Hc, Ht; split; [apply len_nonneg|exact Hle]|].
    split.
    + intros _ valid Hvalid. unfold analysis_of in Hvalid. rewrite Hl in Hvalid.
      pose proof (supported_points_complement l inv valid Hinv Hvalid).
      lia.
    + intros Hne. congruence.
  - split; [rewrite Hc, Ht; split; [lia|apply len_nonneg]|].
    split.
    + intros Hnone. congruence.
    + intros _. unfold analysis_of. rewrite Hl. auto.
Qed.

(** X5. A malformed reply of the validator never counts against the
    summary.  A reply that is not an object, or whose [result] holds an
    entry that is not an object, gives the error record; a [result] that is
    not a list is read as no entry at all, without an error.  In each case
    [invalid_points_count] is 0. *)
Theorem malformed_validation_counts_no_invalid_point
    (summary_points : list str) (document_text model : str) (w : world)
    (response : value) :
  structured_completion env (calls w)
    (validation_request summary_points document_text model) = Ret response ->
  let w' := set_calls w (calls w ++ [validation_request summary_points
                                       document_text model]) in
  (is_dict response = false ->
     _validate_summary env summary_points document_text model w
     = (Ret {| validation_error :=
                 Some (exc_msg (AttributeError response "get"));
               point_analysis := None;
               invalid_points_count := 0;
               total_points := len summary_points |}, w'))
  /\ (forall d result,
        response = VDict d ->
        dict_get (lit "result") d = Some result ->
        match result with VList _ => False | _ => True end ->
        _validate_summary env summary_points document_text model w
        = (Ret {| validation_error := None;
                  point_analysis := Some [];
                  invalid_points_count := 0;
                  total_points := 0 |}, w'))
  /\ (forall d l,
        response = VDict d ->
        dict_get (lit "result") d = Some (VList l) ->
        forallb is_dict l = false ->
        exists v,
          _validate_summary env summary_points document_text model w
          = (Ret v, w')
          /\ validation_error v <> None
          /\ invalid_points_count v = 0
          /\ total_points v = len summary_points).
Proof.
  intros Hresp. cbv zeta.
  unfold _validate_summary, try_except, bind, ret, lift,
    ollama_generate_structured_completion, call.
  fold (validation_request summary_points document_text model).
  rewrite Hresp. cbn [fst snd].
  split; [|split].
  - intros Hd. destruct response; try discriminate; reflexivity.
  - intros d result -> Hres Hnl. cbn [get]. rewrite Hres.
    destruct result; try contradiction; reflexivity.
  - intros d l -> Hres Hnd. cbn [get]. rewrite Hres.
    destruct (invalid_points l) as [inv|e] eqn:Ei.
    + apply invalid_points_facts in Ei. destruct Ei as [Ei _]. congruence.
    + eexists. split; [reflexivity|]. cbn. repeat split. discriminate.
Qed.

(** X6. The supported points are collected with [p["point"]] outside any
    [try]: when the validator rejects at least one point and marks as
    supported an entry that has no [point] key, [summarize_document] raises
    [KeyError('point')] after the validation call. *)
Theorem supported_entry_without_point_raises
    (document_text : str) (max_points : Z) (model : str)
    (w w1 w2 w3 : world) (topics : Topics) (summary_points : list str)
    (v : Validation) :
  100 <= len document_text ->
  _extract_document_topics env (truncated document_text) model w
    = (Ret topics, w1) ->
  _generate_summary_points env (truncated document_text) max_points
    (key_topics topics) model w1 = (Ret summary_points, w2) ->
  summary_points <> [] ->
  _validate_summary env summary_points (truncated document_text) model w2
    = (Ret v, w3) ->
  0 < invalid_points_count v ->
  existsb (fun p => marked_supported p && lacks_point p) (analysis_of v)
    = true ->
  summarize_document env document_text max_points model true w
  = (Raise (KeyError (lit "point")), w3).
Proof.
  intros Hlen H1 H2 Hne H3 Hinv Hex.
  rewrite (summarize_document_to_step3 env _ _ _ _ _ _ _ _ _ Hlen H1 H2).
  rewrite (step3_to_step4 env _ _ _ _ _ _ _ _ Hne H3).
  assert (Hd : forallb is_dict (analysis_of v) = true).
  { destruct (validate_summary_cases _ _ _ _ _ _ H3)
      as [[_ [l [inv [Hl [Hi _]]]]]|[_ [_ [Hc _]]]]; [|lia].
    unfold analysis_of. rewrite Hl.
    now destruct (invalid_points_facts l inv Hi). }
  unfold step4. apply Z.ltb_lt in Hinv. rewrite Hinv.
  unfold bind, lift. now rewrite (supported_points_missing _ Hd Hex).
Qed.

(** ** The document text in the calls *)

Lemma sends_extract_document_topics doc model :
  len doc <= 12003 ->
  sends within_text_bound (_extract_document_topics env doc model).
Proof.
  intros Hd. unfold _extract_document_topics.
  apply sends_try_except; [|intros; apply sends_ret].
  apply sends_bind; [apply sends_call; exact Hd|intros].
  apply sends_bind; [apply sends_lift|intros].
  apply sends_bind; [apply sends_lift|intros].
  apply sends_if; apply sends_ret.
Qed.

Lemma sends_generate_summary_points doc mp kw model :
  len doc <= 12003 ->
  sends within_text_bound (_generate_summary_points env doc mp kw model).
Proof.
  intros Hd. unfold _generate_summary_points, bind at 1, lift.
  intros w.
  destruct (get_document_summary_prompt doc mp kw) as [p|e] eqn:Ep.
  - revert w. apply sends_try_except; [|intros; apply sends_ret].
    apply sends_bind; [|intros; apply sends_lift].
    apply sends_call. unfold within_text_bound. cbn.
    now rewrite (summary_prompt_document _ _ _ _ Ep).
  - exists []. cbn. rewrite app_nil_r. auto.
Qed.

Lemma sends_generate_replacement_summary doc mp kw model :
  len doc <= 12003 ->
  sends within_text_bound (_generate_replacement_summary env doc mp kw model).
Proof.
  intros Hd. unfold _generate_replacement_summary, bind at 1, lift.
  intros w.
  destruct (get_document_summary_prompt doc mp kw) as [p|e] eqn:Ep.
  - revert w. apply sends_try_except; [|intros; apply sends_ret].
    apply sends_bind; [|intros; apply sends_lift].
    apply sends_call. unfold within_text_bound. cbn.
    now rewrite (summary_prompt_document _ _ _ _ Ep).
  - exists []. cbn. rewrite app_nil_r. auto.
Qed.

Lemma sends_validate_summary pts doc model :
  sends within_text_bound (_validate_summary env pts doc model).
Proof.
  unfold _validate_summary.
  apply sends_try_except; [|intros; apply sends_ret].
  apply sends_bind.
  - apply sends_call. unfold within_text_bound, get_summary_validation_prompt.
    cbn [request_document prompt_document text_bound].
    apply slice_to_length. lia.
  - intros. apply sends_bind; [apply sends_lift|intros].
    apply sends_bind; [apply sends_lift|intros]. apply sends_ret.
Qed.

(** X7. Every backend call of a [summarize_document] run carries a bounded
    part of the document: at most 12003 characters (the first 12000 and the
    ellipsis) in the topic, summary and regeneration prompts, and at most
    5000 characters in the validation prompt, however long the document
    is. *)
Theorem calls_carry_bounded_document_text
    (document_text : str) (max_points : Z) (model : str)
    (validation_enabled : bool) :
  sends within_text_bound
    (summarize_document env document_text max_points model validation_enabled).
Proof.
  rewrite summarize_document_stages.
  apply sends_if; [apply sends_ret|].
  pose proof (truncated_bound document_text) as Hd.
  apply sends_bind; [now apply sends_extract_document_topics|intros topics].
  unfold step2.
  apply sends_bind; [now apply sends_generate_summary_points|intros points].
  unfold step3. apply sends_if; [|apply sends_ret].
  apply sends_bind; [apply sends_validate_summary|intros v].
  unfold step4. apply sends_if; [|apply sends_ret].
  apply sends_bind; [apply sends_lift|intros valid].
  apply sends_if; [|apply sends_ret].
  apply sends_bind; [now apply sends_generate_replacement_summary|intros rs].
  apply sends_if; apply sends_ret.
Qed.

(** ** Reading the summary completion *)

Lemma format_each_strs (l : list str) :
  exists out, format_each (map VStr l) = Ret out
              /\ List.length out = List.length l.
Proof.
  induction l as [|s l [out [IH Hl]]]; cbn [map format_each].
  - exists []. split; reflexivity.
  - cbn [format_bullet]. rewrite IH. eexists. split; [reflexivity|].
    cbn [List.length]. now rewrite Hl.
Qed.

Lemma slice_to_map {A B} (f : A -> B) hi (l : list A) :
  slice None (Some hi) (map f l) = map f (slice None (Some hi) l).
Proof.
  unfold slice, len. rewrite length_map. cbn [skipn Z.to_nat].
  change (Z.to_nat 0) with 0%nat. cbn [skipn].
  now rewrite firstn_map.
Qed.

Lemma slice_to_nonempty {A} hi (l : list A) :
  1 <= hi -> l <> [] -> slice None (Some hi) l <> [].
Proof.
  intros Hhi Hl. destruct l as [|x l]; [congruence|].
  unfold slice, clamp_index.
  destruct (hi <? 0) eqn:E; [apply Z.ltb_lt in E; lia|].
  change (Z.to_nat 0) with 0%nat. cbn [skipn].
  assert (Hpos : 1 <= Z.min hi (len (x :: l))).
  { unfold len. cbn [List.length]. lia. }
  destruct (Z.to_nat (Z.min hi (len (x :: l)) - 0)) eqn:En; [lia|].
  discriminate.
Qed.

(** A list of strings is always formatted, and for [max_points >= 1] a
    non-empty list gives a non-empty summary. *)
Lemma format_bullets_strs (l : list str) max_points :
  exists out,
    format_bullets (str_list l) max_points = Ret out
    /\ (1 <= max_points -> l <> [] -> out <> []).
Proof.
  unfold format_bullets, str_list. cbn [slice_to iter].
  rewrite slice_to_map.
  destruct (format_each_strs (slice None (Some max_points) l)) as [out [Ho Hl]].
  exists out. split; [exact Ho|].
  intros Hmp Hne Hout. subst out.
  apply (slice_to_nonempty max_points l Hmp Hne).
  now apply length_zero_iff_nil.
Qed.

Lemma format_each_formatted (l : list str) :
  format_each (map VStr l) = Ret (map formatted l).
Proof.
  induction l as [|s l IH]; [reflexivity|].
  cbn [map format_each]. rewrite IH. reflexivity.
Qed.

(** The bullets of a list of strings: the first [max_points] of them, each
    one formatted. *)
Lemma format_bullets_formatted (l : list str) max_points :
  format_bullets (str_list l) max_points
  = Ret (map formatted (slice None (Some max_points) l)).
Proof.
  unfold format_bullets, str_list. cbn [slice_to iter].
  rewrite slice_to_map. apply format_each_formatted.
Qed.

Lemma extract_json_array_parse_failure text json_str e :
  bracketed text = Some json_str ->
  json_loads env json_str = Raise e ->
  _extract_json_array env text
  = str_list (if is_JSONDecodeError e
              then if nonempty (bullet_lines text) then bullet_lines text
                   else [PARSE_ERROR]
              else [PROCESS_ERROR]).
Proof.
  unfold bracketed, _extract_json_array. cbv zeta.
  destruct ((0 <=? find _ text) && (find _ text <? rfind _ text + 1));
    [|discriminate].
  intros Hs Hj.
  replace (slice _ _ text) with json_str by congruence. rewrite Hj.
  destruct (is_JSONDecodeError e); [|reflexivity].
  destruct (nonempty (bullet_lines text)); reflexivity.
Qed.

Lemma format_error_messages max_points :
  1 <= max_points ->
  format_bullets (str_list [PARSE_ERROR]) max_points = Ret [PARSE_ERROR]
  /\ format_bullets (str_list [PROCESS_ERROR]) max_points = Ret [PROCESS_ERROR].
Proof.
  intros Hmp. unfold format_bullets, str_list. cbn [slice_to iter map].
  assert (Hs : forall v : value, slice None (Some max_points) [v] = [v]).
  { intros v. unfold slice, clamp_index.
    destruct (max_points <? 0) eqn:E; [apply Z.ltb_lt in E; lia|].
    change (len [v]) with 1. rewrite Z.min_r by lia. reflexivity. }
  rewrite !Hs. split; reflexivity.
Qed.

(** X8. When the summary completion holds a bracketed part that
    [json.loads] rejects, step 2 does not fail and, for [max_points >= 1],
    does not return an empty summary.  After a JSON decoding error the
    points are the bullet lines of the response, the first [max_points] of
    them, each one formatted, and without bullet lines the single line
    "Error: Unable to parse summary from model response."; after any other
    error the bullet lines are not looked at and the single line is
    "Error: Unable to process the model's response.". *)
Theorem rejected_json_gives_nonempty_summary
    (document_text : str) (max_points : Z) (topic_keywords : value)
    (model : str) (w : world) (prompt : prompt) (response json_str : str)
    (e : exception) :
  1 <= max_points ->
  get_document_summary_prompt document_text max_points topic_keywords
    = Ret prompt ->
  completion env (calls w) (summary_request prompt model) = Ret response ->
  bracketed response = Some json_str ->
  json_loads env json_str = Raise e ->
  let summary_points :=
    if is_JSONDecodeError e then
      match bullet_lines response with
      | [] => [PARSE_ERROR]
      | bullets => map formatted (slice None (Some max_points) bullets)
      end
    else [PROCESS_ERROR] in
  _generate_summary_points env document_text max_points topic_keywords model w
  = (Ret summary_points,
     set_calls w (calls w ++ [summary_request prompt model]))
  /\ summary_points <> [].
Proof.
  intros Hmp Hp Hc Hb Hj. cbv zeta.
  rewrite (generate_summary_points_runs _ _ _ _ _ _ Hp). rewrite Hc.
  rewrite (extract_json_array_parse_failure _ _ _ Hb Hj).
  destruct (format_error_messages max_points Hmp) as [Hparse Hprocess].
  destruct (is_JSONDecodeError e).
  - destruct (bullet_lines response) as [|b bs] eqn:Eb; cbn [nonempty].
    + rewrite Hparse. split; [reflexivity|discriminate].
    + rewrite format_bullets_formatted. split; [reflexivity|].
      intros Hempty. apply map_eq_nil in Hempty.
      now apply (slice_to_nonempty max_points (b :: bs) Hmp).
  - rewrite Hprocess. split; [reflexivity|discriminate].
Qed.

End Facts.

(** X9. Truncation of long documents: the text the pipeline works on has
    [min(len, 12003)] characters for documents over 12000 characters and is
    the document itself otherwise; its first 12000 characters are those of
    the document; and truncating again changes nothing. *)
Theorem truncation_keeps_the_first_12000_characters (document_text : str) :
  len (truncated document_text) <= 12003
  /\ (len document_text <= 12000 -> truncated document_text = document_text)
  /\ (12000 < len document_text -> len (truncated document_text) = 12003)
  /\ firstn (Z.to_nat 12000) (truncated document_text)
     = firstn (Z.to_nat 12000) document_text
  /\ truncated (truncated document_text) = truncated document_text.
Proof.
  pose proof (truncated_length document_text) as Hlen.
  split; [apply truncated_bound|].
  split; [|split; [|split]].
  - intros Hle. unfold truncated.
    destruct (12000 <? len document_text) eqn:E; [|reflexivity].
    apply Z.ltb_lt in E. lia.
  - intros Hgt. apply Z.ltb_lt in Hgt. now rewrite Hgt in Hlen.
  - unfold truncated.
    destruct (12000 <? len document_text) eqn:E; [|reflexivity].
    apply Z.ltb_lt in E. rewrite slice_to_firstn by lia.
    apply firstn_prefix. unfold len in E. lia.
  - unfold truncated at 1. rewrite Hlen.
    destruct (12000 <? len document_text) eqn:E; [|now rewrite E].
    change (12000 <? 12003) with true. cbv iota.
    unfold truncated. rewrite E.
    apply Z.ltb_lt in E.
    rewrite (slice_to_firstn 12000 (_ ++ _)).
    + rewrite slice_to_firstn by lia.
      rewrite firstn_prefix; [reflexivity|]. unfold len in E. lia.
    + rewrite len_app, len_ellipsis. rewrite slice_to_firstn by lia.
      unfold len in *. rewrite length_firstn. lia.
Qed.

(** X10. The summary prompt and a list of topic keywords: the prompt can be
    built exactly when every item is a string; it carries the topic
    guidance, the items joined by ", ", exactly when the list is not empty;
    otherwise the [TypeError] of [join] names the first item that is not a
    string; and an absent ([None]) list gives the prompt without
    guidance. *)
Theorem summary_prompt_needs_string_topics
    (text : str) (max_points : Z) (topic_keywords : list value) :
  ((exists p, get_document_summary_prompt text max_points (VList topic_keywords)
              = Ret p)
   <-> forallb is_str topic_keywords = true)
  /\ (forall parts,
        all_str topic_keywords = Some parts ->
        get_document_summary_prompt text max_points (VList topic_keywords)
        = Ret (DocumentSummaryPrompt text max_points
                 (match topic_keywords with
                  | [] => None
                  | _ => Some (join (lit ", ") parts)
                  end)))
  /\ (forallb is_str topic_keywords = false ->
      exists i item,
        nth_error topic_keywords i = Some item
        /\ is_str item = false
        /\ forallb is_str (firstn i topic_keywords) = true
        /\ get_document_summary_prompt text max_points (VList topic_keywords)
           = Raise (not_str_item i item))
  /\ get_document_summary_prompt text max_points VNone
     = Ret (DocumentSummaryPrompt text max_points None).
Proof.
  assert (Hsome : forall parts,
    all_str topic_keywords = Some parts ->
    get_document_summary_prompt text max_points (VList topic_keywords)
    = Ret (DocumentSummaryPrompt text max_points
             (match topic_keywords with
              | [] => None
              | _ => Some (join (lit ", ") parts)
              end))).
  { intros parts Hparts. unfold get_document_summary_prompt.
    destruct topic_keywords as [|k ks]; [reflexivity|].
    cbn [truthy vlen].
    assert (Hpos : (0 <? len (k :: ks)) = true).
    { apply Z.ltb_lt. unfold len. cbn [List.length]. lia. }
    rewrite Hpos. unfold join_value. cbn [iter].
    pose proof (join_items_cases (k :: ks) 0) as Hjoin.
    destruct (join_items 0 (k :: ks)) as [parts'|e].
    - now replace parts' with parts by congruence.
    - destruct Hjoin as (j & item & Hnth & Hitem & Hfirst & _).
      assert (Hall : forallb is_str (k :: ks) = true)
        by (apply all_str_is_str; eauto).
      rewrite forallb_forall in Hall.
      rewrite (Hall item) in Hitem; [discriminate|].
      eapply nth_error_In; eassumption. }
  assert (Hnone :
    forallb is_str topic_keywords = false ->
    exists i item,
      nth_error topic_keywords i = Some item
      /\ is_str item = false
      /\ forallb is_str (firstn i topic_keywords) = true
      /\ get_document_summary_prompt text max_points (VList topic_keywords)
         = Raise (not_str_item i item)).
  { intros Hns. unfold get_document_summary_prompt.
    destruct topic_keywords as [|k ks]; [discriminate|].
    cbn [truthy vlen].
    assert (Hpos : (0 <? len (k :: ks)) = true).
    { apply Z.ltb_lt. unfold len. cbn [List.length]. lia. }
    rewrite Hpos. unfold join_value. cbn [iter].
    pose proof (join_items_cases (k :: ks) 0) as Hjoin.
    destruct (join_items 0 (k :: ks)) as [parts|e].
    - assert (forallb is_str (k :: ks) = true)
        by (apply all_str_is_str; eauto).
      congruence.
    - destruct Hjoin as (j & item & Hnth & Hitem & Hfirst & ->).
      exists j, item. now repeat split. }
  split; [|split; [exact Hsome|split; [exact Hnone|reflexivity]]].
  split.
  - intros [p Hp]. destruct (forallb is_str topic_keywords) eqn:E; [reflexivity|].
    destruct (Hnone eq_refl) as (i & item & _ & _ & _ & Hraise).
    rewrite Hraise in Hp. discriminate.
  - intros Hs. apply all_str_is_str in Hs. destruct Hs as [parts Hparts].
    eexists. apply (Hsome parts Hparts).
Qed.

(** ** Concrete runs *)

Import Scenario Cases.

Lemma unvalidated_run_makes_two_calls_witness :
  summarize_document env_seven doc100 10 model false w0
  = (Ret (initial_result (topics_of env_seven) ten_points None),
     set_calls w0 (calls w0 ++ [topic_request (truncated doc100) model;
                                summary_request (prompt_of env_seven 10)
                                  model])).
Proof.
  refine (proj1 (proj2 (unvalidated_run_makes_two_calls env_seven doc100 10
                          model w0 (w1_of env_seven) (topics_of env_seven)
                          (prompt_of env_seven 10) _ _ _))); by_computation.
Defined.

Lemma generation_failure_is_returned_as_summary_witness :
  summarize_document env_summary_down doc100 10 model false w0
  = (Ret (initial_result (topics_of env_summary_down) [GENERATION_ERROR] None),
     set_calls w0 (calls w0 ++ [topic_request (truncated doc100) model;
                                summary_request (prompt_of env_summary_down 10)
                                  model])).
Proof.
  refine (proj1 (generation_failure_is_returned_as_summary env_summary_down
                   doc100 10 model w0 (w1_of env_summary_down)
                   (topics_of env_summary_down) (prompt_of env_summary_down 10)
                   _ _ _ (or_introl (ex_intro _ backend_down _))));
    by_computation.
Defined.

Lemma unjoinable_topics_abort_the_run_witness :
  summarize_document env_bad_topics doc100 10 model true w0
  = (Raise (not_str_item 0 (VInt 1)),
     set_calls w0 (calls w0 ++ [topic_request (truncated doc100) model])).
Proof.
  refine (unjoinable_topics_abort_the_run env_bad_topics doc100 10 model true
            w0 (w1_of env_bad_topics) (topics_of env_bad_topics) _ _ _ _);
    by_computation.
Defined.

Lemma validation_counts_are_consistent_witness :
  0 <= invalid_points_count (validation_of env_seven 10)
    <= total_points (validation_of env_seven 10)
  /\ (validation_error (validation_of env_seven 10) = None ->
      forall valid,
        supported_points (analysis_of (validation_of env_seven 10)) = Ret valid ->
        len valid = total_points (validation_of env_seven 10)
                    - invalid_points_count (validation_of env_seven 10))
  /\ (validation_error (validation_of env_seven 10) <> None ->
      invalid_points_count (validation_of env_seven 10) = 0
      /\ total_points (validation_of env_seven 10)
         = len (points_of env_seven 10)
      /\ analysis_of (validation_of env_seven 10) = []).
Proof.
  refine (validation_counts_are_consistent env_seven (points_of env_seven 10)
            doc100 model (w2_of env_seven 10) (w3_of env_seven 10)
            (validation_of env_seven 10) _); by_computation.
Defined.

Lemma malformed_validation_counts_no_invalid_point_witness :
  _validate_summary (scripted [] [Object (VList [])]) [lit "a point"] doc100
    model w0
  = (Ret {| validation_error := Some (exc_msg (AttributeError (VList []) "get"));
            point_analysis := None;
            invalid_points_count := 0;
            total_points := len [lit "a point"] |},
     set_calls w0 (calls w0 ++ [validation_request [lit "a point"] doc100
                                  model])).
Proof.
  refine (proj1 (malformed_validation_counts_no_invalid_point
                   (scripted [] [Object (VList [])]) [lit "a point"] doc100
                   model w0 (VList []) _) _); by_computation.
Defined.

Lemma supported_entry_without_point_raises_witness :
  summarize_document env_no_point doc100 10 model true w0
  = (Raise (KeyError (lit "point")), w3_of env_no_point 10).
Proof.
  refine (supported_entry_without_point_raises env_no_point doc100 10 model w0
            (w1_of env_no_point) (w2_of env_no_point 10)
            (w3_of env_no_point 10) (topics_of env_no_point)
            (points_of env_no_point 10) (validation_of env_no_point 10)
            _ _ _ _ _ _ _); by_computation.
Defined.

Lemma rejected_json_gives_nonempty_summary_witness :
  _generate_summary_points env_unparseable doc100 10
    (key_topics (topics_of env_unparseable)) model (w1_of env_unparseable)
  = (Ret [PARSE_ERROR],
     set_calls (w1_of env_unparseable)
       (calls (w1_of env_unparseable)
        ++ [summary_request (prompt_of env_unparseable 10) model]))
  /\ _generate_summary_points env_bulleted doc100 2
       (key_topics (topics_of env_bulleted)) model (w1_of env_bulleted)
     = (Ret [lit "first"; lit "second"],
        set_calls (w1_of env_bulleted)
          (calls (w1_of env_bulleted)
           ++ [summary_request (prompt_of env_bulleted 2) model])).
Proof.
  split.
  - refine (proj1 (rejected_json_gives_nonempty_summary env_unparseable doc100
                     10 (key_topics (topics_of env_unparseable)) model
                     (w1_of env_unparseable) (prompt_of env_unparseable 10)
                     unparseable_text unparseable_text not_json _ _ _ _ _));
      by_computation.
  - refine (proj1 (rejected_json_gives_nonempty_summary env_bulleted doc100
                     2 (key_topics (topics_of env_bulleted)) model
                     (w1_of env_bulleted) (prompt_of env_bulleted 2)
                     bulleted_text (lit "[see below]") not_json _ _ _ _ _));
      by_computation.
Defined.

End PipelineFacts.

(* ===================================================================== *)
(** * Further properties of the QA quality loop *)
(* ===================================================================== *)

Module StoreFacts.
Import Py Prompts World Models QADataset Database PipelineTerms StoreTerms.
Import QAFacts.
#[local] Open Scope py_scope.

(** ** Reading and writing one key *)

Section Keys.
Context {V : Type}.
Implicit Types (d : list (str * V)) (k : str) (v : V).

Lemma dict_get_set_same k v d : dict_get k (dict_set k v d) = Some v.
Proof.
  induction d as [|[k' v'] d IH]; cbn.
  - now rewrite str_eqb_refl.
  - destruct (str_eqb k k') eqn:E; cbn; rewrite E; [reflexivity|exact IH].
Qed.

Lemma dict_get_set_other k k' v d :
  k' <> k -> dict_get k' (dict_set k v d) = dict_get k' d.
Proof.
  intros Hne. induction d as [|[k0 v0] d IH]; cbn.
  - now rewrite str_eqb_neq.
  - destruct (str_eqb k k0) eqn:E; cbn.
    + apply str_eqb_eq in E. subst k0. now rewrite (str_eqb_neq k' k Hne).
    + destruct (str_eqb k' k0); [reflexivity|exact IH].
Qed.

Lemma dict_set_keys k v d :
  forall k', In k' (map fst (dict_set k v d)) -> k' = k \/ In k' (map fst d).
Proof.
  induction d as [|[k0 v0] d IH]; cbn; intros k'.
  - intros [<-|[]]. now left.
  - destruct (str_eqb k k0) eqn:E; cbn.
    + tauto.
    + intros [<-|Hin]; [right; now left|].
      destruct (IH k' Hin); [now left|right; now right].
Qed.

End Keys.

Lemma dict_update_other (k : str) (upd d : dict) :
  ~ In k (map fst upd) -> dict_get k (dict_update d upd) = dict_get k d.
Proof.
  unfold dict_update. revert d.
  induction upd as [|[k0 v0] upd IH]; intros d H; cbn; [reflexivity|].
  rewrite IH by (intros Hin; apply H; now right).
  apply dict_get_set_other. intros ->. apply H. now left.
Qed.

(** ** Updating the first document with a given id *)

Lemma update_first_absent key upd docs :
  existsb (has_field "id" key) docs = false ->
  update_first key upd docs = docs.
Proof.
  induction docs as [|doc rest IH]; cbn; [reflexivity|].
  destruct (has_field "id" key doc); cbn; [discriminate|].
  intros H. now rewrite IH.
Qed.

Lemma update_first_length key upd docs :
  List.length (update_first key upd docs) = List.length docs.
Proof.
  induction docs as [|doc rest IH]; cbn; [reflexivity|].
  destruct (has_field "id" key doc); cbn; [reflexivity|now rewrite IH].
Qed.

Lemma update_first_found key upd pre doc post :
  existsb (has_field "id" key) pre = false ->
  has_field "id" key doc = true ->
  update_first key upd (pre ++ doc :: post)
  = pre ++ dict_update doc upd :: post.
Proof.
  intros Hpre Hdoc. induction pre as [|p pre IH]; cbn in *.
  - now rewrite Hdoc.
  - destruct (has_field "id" key p); cbn in *; [discriminate|].
    now rewrite IH.
Qed.

(** ** Requests that name no stored material, and degenerate requests *)

(** X11. A material id that is not in the store: [generate_qa_pairs] and
    [generate_adversarial_examples] raise [ValueError("Study material with
    ID ... not found")], and [_improve_question] returns [False]; none of
    them calls the backend or touches the store. *)
Theorem unknown_material_is_rejected
    (env : environment) (material_id : str) (w : world) :
  known_material material_id w = false ->
  (forall num_questions question_types difficulty topics,
      generate_qa_pairs env material_id num_questions question_types
        difficulty topics w
      = (Raise (material_not_found material_id), w))
  /\ (forall num_examples base_on_existing,
        generate_adversarial_examples env material_id num_examples
          base_on_existing w
        = (Raise (material_not_found material_id), w))
  /\ (forall question feedback,
        _improve_question env question material_id feedback w
        = (Ret false, w)).
Proof.
  unfold known_material. intros H. repeat split; intros.
  - unfold generate_qa_pairs, bind, material_exists. now rewrite H.
  - unfold generate_adversarial_examples, bind, material_exists. now rewrite H.
  - unfold _improve_question, bind, material_exists. now rewrite H.
Qed.

Lemma fold_dict_set_values (c : Z) (types : list str) :
  forall acc : list (str * Z),
    Forall (fun item => snd item = c) acc ->
    Forall (fun item => snd item = c)
      (fold_left (fun d qt => dict_set qt c d) types acc).
Proof.
  induction types as [|qt rest IH]; intros acc Hacc; cbn; [exact Hacc|].
  apply IH. clear IH.
  induction Hacc as [|[k v] acc Hk Hrest IHacc]; cbn [dict_set].
  - constructor; [reflexivity|constructor].
  - destruct (str_eqb qt k); constructor; auto.
Qed.

Lemma add_remainder_none (types : list str) :
  forall i counts, 0 <= i -> add_remainder 0 i types counts = Ret counts.
Proof.
  induction types as [|qt rest IH]; intros i counts Hi; cbn; [reflexivity|].
  destruct (i <? 0) eqn:E; [apply Z.ltb_lt in E; lia|].
  apply IH. lia.
Qed.

Lemma generate_for_no_count env material_id difficulty topics counts :
  Forall (fun item : str * Z => snd item = 0) counts ->
  forall all_questions w,
    for_fold counts all_questions
      (generate_for_type env material_id difficulty topics) w
    = (Ret all_questions, w).
Proof.
  induction 1 as [|[qt c] counts Hc _ IH]; intros all_questions w;
    cbn [for_fold]; [reflexivity|].
  cbn in Hc. subst c. unfold bind at 1, generate_for_type at 1.
  cbn [Z.leb Z.compare]. unfold ret at 1. apply IH.
Qed.

(** X12. Degenerate requests to [generate_qa_pairs] for a stored material:
    an empty list of question types raises [ZeroDivisionError] (the
    remainder modulo [len(question_types)]; the comprehension before it
    divides nothing when the list is empty); zero questions over any
    non-empty list of types return [[]] without a backend call and without
    storing or logging anything. *)
Theorem degenerate_generation_requests
    (env : environment) (material_id difficulty : str) (topics : value)
    (w : world) :
  known_material material_id w = true ->
  (forall num_questions,
      generate_qa_pairs env material_id num_questions [] difficulty topics w
      = (Raise ZeroDivisionError, w))
  /\ (forall question_types,
        question_types <> [] ->
        generate_qa_pairs env material_id 0 question_types difficulty topics w
        = (Ret [], w)).
Proof.
  unfold known_material. intros H. split.
  - intros n. unfold generate_qa_pairs, bind, material_exists. now rewrite H.
  - intros types Hne.
    unfold generate_qa_pairs, bind at 1, material_exists. rewrite H.
    cbn [negb]. unfold bind at 1, lift.
    assert (Hcounts : exists counts,
              qtype_count 0 types = Ret counts
              /\ Forall (fun item : str * Z => snd item = 0) counts).
    { unfold qtype_count. destruct types as [|qt rest]; [congruence|].
      rewrite Zmod_0_l. rewrite add_remainder_none by lia.
      eexists. split; [reflexivity|].
      unfold base_counts. rewrite Zdiv_0_l.
      apply fold_dict_set_values. constructor. }
    destruct Hcounts as [counts [-> Hzero]].
    unfold bind. now rewrite (generate_for_no_count _ _ _ _ _ Hzero).
Qed.

(** ** Feedback *)

Lemma feedback_of_insert question_id other (w w' : world) record :
  feedback w' = feedback w ++ [record] ->
  feedback_question_id record = question_id ->
  feedback_of other w'
  = feedback_of other w
    ++ (if str_eqb question_id other then [record] else []).
Proof.
  intros Hf Hid. unfold feedback_of. rewrite Hf, filter_app. cbn [filter].
  now rewrite Hid.
Qed.

Lemma record_question_feedback_frame env question_id user_id is_correct
    is_helpful difficulty_rating feedback_text w :
  let w' := snd (record_question_feedback env question_id user_id is_correct
                   is_helpful difficulty_rating feedback_text w) in
  calls w' = calls w /\ materials w' = materials w
  /\ uuids w' = S (uuids w).
Proof.
  cbv zeta. unfold record_question_feedback, bind, new_uuid, now,
    feedback_insert_one, ret, _update_question_quality_metrics, bind,
    feedback_find, questions_update_one, now.
  cbn [fst snd].
  match goal with |- context [match ?l with [] => _ | _ :: _ => _ end] =>
    destruct l end; cbn; repeat split.
Qed.

(** X13. [record_question_feedback] always returns the id of the record it
    stored.  Afterwards the feedback of that question is what it was, with
    the new record at the end; the feedback of every other question is
    unchanged; no backend call was made; the store holds as many questions
    as before, and if none of them has that id (feedback on an unknown
    question) the questions are exactly as before. *)
Theorem feedback_is_filed_under_its_question
    (env : environment) (question_id user_id : str) (is_correct : bool)
    (is_helpful : option bool) (difficulty_rating : option Z)
    (feedback_text : option str) (w : world) :
  let record := feedback_at env w question_id user_id is_correct is_helpful
                  difficulty_rating feedback_text in
  exists w',
    record_question_feedback env question_id user_id is_correct is_helpful
      difficulty_rating feedback_text w
    = (Ret (feedback_id record), w')
    /\ feedback_of question_id w' = feedback_of question_id w ++ [record]
    /\ (forall other, other <> question_id ->
          feedback_of other w' = feedback_of other w)
    /\ calls w' = calls w
    /\ List.length (questions w') = List.length (questions w)
    /\ (existsb (has_field "id" (VStr question_id)) (questions w) = false ->
        questions w' = questions w).
Proof.
  cbv zeta.
  destruct (record_question_feedback_run env question_id user_id is_correct
              is_helpful difficulty_rating feedback_text w)
    as (w' & Hrun & Hf & _ & Hq).
  pose proof (record_question_feedback_frame env question_id user_id
                is_correct is_helpful difficulty_rating feedback_text w)
    as Hframe.
  cbv zeta in Hframe. rewrite Hrun in Hframe. cbn [snd] in Hframe.
  destruct Hframe as (Hcalls & _ & _).
  exists w'. split; [exact Hrun|].
  split; [|split; [|split; [exact Hcalls|split]]].
  - rewrite (feedback_of_insert question_id question_id w w' _ Hf eq_refl).
    now rewrite str_eqb_refl.
  - intros other Hne.
    rewrite (feedback_of_insert question_id other w w' _ Hf eq_refl).
    rewrite str_eqb_neq by congruence. now rewrite app_nil_r.
  - rewrite Hq. apply update_first_length.
  - intros Habsent. rewrite Hq. now apply update_first_absent.
Qed.

(** X14. Feedback on a stored question rewrites one key of one document:
    the first document with that id gets [quality_metrics] computed from
    all feedback of the question, the new record included
    ([total_attempts] is their number); every other key of that document
    and every other document are as before. *)
Theorem feedback_rewrites_only_quality_metrics
    (env : environment) (question_id user_id : str) (is_correct : bool)
    (is_helpful : option bool) (difficulty_rating : option Z)
    (feedback_text : option str) (w : world)
    (pre post : list dict) (doc : dict) :
  questions w = pre ++ doc :: post ->
  existsb (has_field "id" (VStr question_id)) pre = false ->
  has_field "id" (VStr question_id) doc = true ->
  let record := feedback_at env w question_id user_id is_correct is_helpful
                  difficulty_rating feedback_text in
  let all_feedback := feedback_of question_id w ++ [record] in
  exists w' doc',
    record_question_feedback env question_id user_id is_correct is_helpful
      difficulty_rating feedback_text w
    = (Ret (feedback_id record), w')
    /\ questions w' = pre ++ doc' :: post
    /\ dict_get (lit "quality_metrics") doc'
       = Some (VDict
                 [ (lit "accuracy", number_value (accuracy all_feedback));
                   (lit "helpfulness", number_value (helpfulness all_feedback));
                   (lit "total_attempts",
                    VInt (len (feedback_of question_id w) + 1));
                   (lit "updated_at", VDatetime (S (clock w))) ])
    /\ (forall k, k <> lit "quality_metrics" ->
          dict_get k doc' = dict_get k doc).
Proof.
  intros Hqs Hpre Hdoc. cbv zeta.
  destruct (record_question_feedback_run env question_id user_id is_correct
              is_helpful difficulty_rating feedback_text w)
    as (w' & Hrun & _ & _ & Hq).
  rewrite Hqs, (update_first_found _ _ _ _ _ Hpre Hdoc) in Hq.
  eexists; eexists. split; [exact Hrun|]. split; [exact Hq|].
  unfold metrics_update, dict_update. cbn [fold_left fst snd]. split.
  - rewrite dict_get_set_same. do 4 f_equal.
    unfold len. rewrite length_app. cbn [List.length].
    do 3 f_equal. lia.
  - intros k Hk. now apply dict_get_set_other.
Qed.

(** ** Evaluation *)

Lemma gather_no_feedback (w : world) (qs : list dict) :
  Forall (fun q => exists s, dict_get (lit "id") q = Some (VStr s)
                             /\ feedback_of s w = []) qs ->
  for_map qs gather_feedback w = (Ret (map (fun _ => []) qs), w).
Proof.
  induction 1 as [|q qs [s [Hid Hfb]] _ IH]; cbn [for_map map]; [reflexivity|].
  unfold bind at 1, gather_feedback at 1, bind at 1, lift, getitem.
  rewrite Hid. unfold feedback_find. fold (feedback_of s w). rewrite Hfb.
  unfold bind at 1. now rewrite IH.
Qed.

Lemma process_without_feedback env material_id threshold (qs : list dict) :
  Forall (fun q => dict_mem (lit "id") q = true) qs ->
  forall stats w,
    for_fold (combine qs (map (fun _ => @nil FeedbackRecord) qs)) stats
      (process_question env material_id threshold) w
    = (Ret {| total_questions := total_questions stats;
              removed := removed stats; updated := updated stats;
              no_action := no_action stats + len qs |}, w).
Proof.
  induction 1 as [|q qs Hid _ IH]; intros stats w;
    cbn [for_fold combine map].
  - unfold ret, len. cbn [List.length Z.of_nat]. rewrite Z.add_0_r.
    now destruct stats.
  - unfold bind at 1, process_question at 1, bind at 1, lift, getitem.
    unfold dict_mem in Hid.
    destruct (dict_get (lit "id") q) as [q_id|]; [|discriminate].
    unfold ret at 1. rewrite IH.
    cbn [count_no_action total_questions removed updated no_action].
    rewrite len_cons. do 2 f_equal. f_equal. lia.
Qed.

(** X15. An evaluation of a material none of whose questions has feedback
    does nothing: every question is counted under [no_action], nothing is
    removed or updated, and the world (store, changelog, log of backend
    calls) is exactly as before. *)
Theorem evaluation_without_feedback_changes_nothing
    (env : environment) (material_id : str) (threshold : float) (w : world) :
  let qs := find_by "material_id" (VStr material_id) (questions w) in
  Forall (fun q => exists s, dict_get (lit "id") q = Some (VStr s)
                             /\ feedback_of s w = []) qs ->
  evaluate_and_update_questions env material_id threshold w
  = (Ret {| total_questions := len qs; removed := 0; updated := 0;
            no_action := len qs |}, w).
Proof.
  cbv zeta. intros Hqs.
  unfold evaluate_and_update_questions, bind at 1, questions_find.
  unfold bind at 1. rewrite (gather_no_feedback w _ Hqs).
  rewrite process_without_feedback; [reflexivity|].
  eapply Forall_impl; [|exact Hqs].
  intros q [s [Hid _]]. unfold dict_mem. now rewrite Hid.
Qed.

Lemma unrated_counts_as_unhelpful (feedback : list FeedbackRecord) :
  helpful_ratings feedback = [] ->
  PrimFloat.ltb (to_float (helpfulness feedback)) 0.2%float = true.
Proof. unfold helpfulness. intros ->. reflexivity. Qed.

(** X16. The removal branch of the evaluation: a question with feedback
    whose score is below the threshold and whose helpfulness is below 0.2
    is deleted and one "removed" entry with the score is logged, without
    any backend call and without looking up the study material.  A
    question that nobody rated for helpfulness has helpfulness 0, so when
    its score is below the threshold it is removed, never improved. *)
Theorem low_quality_unhelpful_question_is_removed
    (env : environment) (material_id : str) (threshold : float)
    (stats : Stats) (q : dict) (q_id : value)
    (feedback : list FeedbackRecord) (w : world) :
  getitem (VDict q) "id" = Ret q_id ->
  feedback <> [] ->
  PrimFloat.ltb (quality_score feedback) threshold = true ->
  PrimFloat.ltb (to_float (helpfulness feedback)) 0.2%float = true
  \/ helpful_ratings feedback = [] ->
  let w1 := set_questions w (delete_first q_id (questions w)) in
  process_question env material_id threshold stats (q, feedback) w
  = (Ret (count_removed stats),
     set_changelog (set_clock (set_uuids w1 (S (uuids w))) (S (clock w)))
       (changelog w
        ++ [entry_at env w q_id material_id "removed"
              (RemovedLowQuality (quality_score feedback)) q None])).
Proof.
  intros Hid Hne Hscore Hhelp. cbv zeta.
  assert (Hh : PrimFloat.ltb (to_float (helpfulness feedback)) 0.2%float = true).
  { destruct Hhelp as [Hh|Hh]; [exact Hh|].
    now apply unrated_counts_as_unhelpful. }
  unfold process_question, bind at 1, lift. rewrite Hid.
  destruct feedback as [|f l]; [congruence|].
  rewrite Hscore, Hh. unfold bind, questions_delete_one.
  rewrite log_qa_change_run. reflexivity.
Qed.

(** ** Improvement *)

Lemma improve_question_call env question material_id feedback w :
  known_material material_id w = true ->
  is_multiple_choice (dget question "question_type" VNone) = false ->
  let r := improvement_request (improvement_prompt question feedback) in
  let w1 := set_calls w (calls w ++ [r]) in
  (forall e,
      completion env (calls w) r = Raise e ->
      _improve_question env question material_id feedback w = (Raise e, w1))
  /\ (forall response,
        completion env (calls w) r = Ret response ->
        between "{" "}" response = None
        \/ (exists json_str e,
              between "{" "}" response = Some json_str
              /\ json_loads env json_str = Raise e) ->
        _improve_question env question material_id feedback w
        = (Ret false, w1)).
Proof.
  unfold known_material. intros Hm Hmc. cbv zeta.
  unfold _improve_question, bind, material_exists, lift,
    ollama_generate_completion, call, try_except, ret.
  rewrite Hm. cbn [negb]. rewrite Hmc.
  fold (improvement_prompt question feedback).
  fold (improvement_request (improvement_prompt question feedback)).
  split.
  - intros e ->. reflexivity.
  - intros response -> Hbad. unfold between in Hbad. cbv zeta in Hbad.
    destruct ((0 <=? find _ response) && (find _ response <? rfind _ response + 1)).
    + destruct Hbad as [Hbad|[json_str [e [Hs Hj]]]]; [discriminate|].
      replace (slice _ _ response) with json_str by congruence.
      now rewrite Hj.
    + reflexivity.
Qed.

(** X17. A failing improvement.  For a question that is not multiple
    choice, of a stored material, with a score below the threshold and
    helpfulness of at least 0.2: when the backend call of the improvement
    raises, the exception is not caught, so the round (and with it the
    whole evaluation loop) raises it; when the backend answers with a text
    that has no braces, or with braces around something [json.loads]
    rejects, the round is counted under [no_action].  In both cases exactly
    one backend call was made and store and changelog are unchanged. *)
Theorem failed_improvement_changes_nothing
    (env : environment) (material_id : str) (threshold : float)
    (stats : Stats) (q : dict) (q_id : value)
    (feedback : list FeedbackRecord) (w : world) :
  known_material material_id w = true ->
  getitem (VDict q) "id" = Ret q_id ->
  feedback <> [] ->
  PrimFloat.ltb (quality_score feedback) threshold = true ->
  PrimFloat.ltb (to_float (helpfulness feedback)) 0.2%float = false ->
  is_multiple_choice (dget q "question_type" VNone) = false ->
  let r := improvement_request (improvement_prompt q feedback) in
  let w1 := set_calls w (calls w ++ [r]) in
  (forall e,
      completion env (calls w) r = Raise e ->
      process_question env material_id threshold stats (q, feedback) w
      = (Raise e, w1))
  /\ (forall response,
        completion env (calls w) r = Ret response ->
        between "{" "}" response = None
        \/ (exists json_str e,
              between "{" "}" response = Some json_str
              /\ json_loads env json_str = Raise e) ->
        process_question env material_id threshold stats (q, feedback) w
        = (Ret (count_no_action stats), w1)).
Proof.
  intros Hm Hid Hne Hscore Hhelp Hmc. cbv zeta.
  destruct (improve_question_call env q material_id feedback w Hm Hmc)
    as [Hraise Hfalse].
  unfold process_question, bind at 1, lift. rewrite Hid.
  destruct feedback as [|f l]; [congruence|].
  rewrite Hscore, Hhelp. unfold bind. split.
  - intros e He. now rewrite (Hraise e He).
  - intros response Hr Hbad. now rewrite (Hfalse response Hr Hbad).
Qed.

(** ** Concrete runs *)

Import Scenario Cases.

Lemma unknown_material_is_rejected_witness :
  generate_qa_pairs env_quiz (lit "m2") 3 [lit "multiple_choice"]
    (lit "medium") VNone w0
  = (Raise (material_not_found (lit "m2")), w0).
Proof.
  refine (proj1 (unknown_material_is_rejected env_quiz (lit "m2") w0 _)
            3 [lit "multiple_choice"] (lit "medium") VNone).
  by_computation.
Defined.

Lemma degenerate_generation_requests_witness :
  generate_qa_pairs env_quiz (lit "m1") 3 [] (lit "medium") VNone w0
  = (Raise ZeroDivisionError, w0)
  /\ generate_qa_pairs env_quiz (lit "m1") 0
       [lit "multiple_choice"; lit "multiple_choice"] (lit "medium") VNone w0
     = (Ret [], w0).
Proof.
  split.
  - refine (proj1 (degenerate_generation_requests env_quiz (lit "m1")
                     (lit "medium") VNone w0 _) 3).
    by_computation.
  - refine (proj2 (degenerate_generation_requests env_quiz (lit "m1")
                     (lit "medium") VNone w0 _)
              [lit "multiple_choice"; lit "multiple_choice"] _);
      by_computation.
Defined.

End StoreFacts.

(* ===================================================================== *)
(** * Loading stored questions back into [QuizQuestion] objects *)
(* ===================================================================== *)

Module LoadingFacts.
Import Py Prompts World Models QADataset Database PipelineTerms StoreTerms.
Import QAFacts StoreFacts.
#[local] Open Scope py_scope.

Lemma same_store_refl w : same_store w w.
Proof. now repeat split. Qed.

Lemma same_store_trans w1 w2 w3 :
  same_store w1 w2 -> same_store w2 w3 -> same_store w1 w3.
Proof. unfold same_store. intuition congruence. Qed.

(** ** [QuizQuestion.from_dict] *)

(** [QuizQuestion.__init__] reads the clock when [created_at] is missing
    and touches nothing else. *)
Lemma QuizQuestion_init_runs i m q t o c tp d ca w :
  exists w',
    QuizQuestion_init i m q t o c tp d ca w
    = (Ret {| id := i; material_id := m; question := q; question_type := t;
              options := if truthy o then o else VList [];
              correct_answer := c; topic := tp; difficulty := d;
              created_at := if truthy ca then ca else VDatetime (clock w) |},
       w')
    /\ same_store w w'
    /\ (truthy ca = true -> w' = w).
Proof.
  unfold QuizQuestion_init, bind, ret, now. destruct (truthy ca).
  - exists w. split; [reflexivity|]. split; [apply same_store_refl|reflexivity].
  - eexists. split; [reflexivity|]. split; [now repeat split|discriminate].
Qed.

(** *** The copy that [from_dict] works on *)

Lemma dict_get_pop_other {V} (k k' : str) (d : list (str * V)) :
  k' <> k -> dict_get k' (dict_pop k d) = dict_get k' d.
Proof.
  intros Hne. induction d as [|[k0 v0] d IH]; [reflexivity|].
  cbn [dict_pop dict_get]. destruct (str_eqb k k0) eqn:E.
  - apply str_eqb_eq in E. subst k0. now rewrite (str_eqb_neq k' k Hne).
  - cbn [dict_get]. destruct (str_eqb k' k0); [reflexivity|exact IH].
Qed.

(** The [_id] handling touches the keys [id] and [_id] only. *)
Lemma data_copy_get env (data : dict) (k : str) :
  k <> lit "id" -> k <> lit "_id" ->
  dict_get k (data_copy env data) = dict_get k data.
Proof.
  intros Hid Hoid. unfold data_copy.
  destruct (dict_get (lit "_id") data) as [_id|]; [|reflexivity].
  rewrite dict_get_pop_other by exact Hoid.
  destruct (dict_mem (lit "id") data); [reflexivity|].
  now apply dict_get_set_other.
Qed.

Lemma data_copy_id env (data : dict) (_id : value) :
  dict_get (lit "_id") data = Some _id ->
  dict_get (lit "id") (data_copy env data)
  = Some match dict_get (lit "id") data with
         | Some v => v
         | None => VStr (str_of env _id)
         end.
Proof.
  intros H. unfold data_copy, dict_mem. rewrite H.
  rewrite dict_get_pop_other by (intros E; vm_compute in E; discriminate).
  destruct (dict_get (lit "id") data) as [v|] eqn:E; [exact E|].
  apply dict_get_set_same.
Qed.

Lemma dict_mem_keys {V} (k : str) (d d' : list (str * V)) :
  map fst d = map fst d' -> dict_mem k d = dict_mem k d'.
Proof.
  unfold dict_mem. revert d'.
  induction d as [|[k0 v0] d IH]; intros [|[k1 v1] d']; try discriminate;
    [reflexivity|].
  cbn [map fst dict_get]. intros [= <- Hrest].
  destruct (str_eqb k k0); [reflexivity|now apply IH].
Qed.

Lemma dict_set_same_keys {V} (k : str) (v v' : V) (d : list (str * V)) :
  map fst (dict_set k v d) = map fst (dict_set k v' d).
Proof.
  induction d as [|[k0 v0] d IH]; [reflexivity|].
  cbn [dict_set]. destruct (str_eqb k k0); cbn [map fst]; [reflexivity|].
  now rewrite IH.
Qed.

Lemma dict_pop_same_keys {V} (k : str) (d d' : list (str * V)) :
  map fst d = map fst d' -> map fst (dict_pop k d) = map fst (dict_pop k d').
Proof.
  revert d'.
  induction d as [|[k0 v0] d IH]; intros [|[k1 v1] d']; try discriminate;
    [reflexivity|].
  cbn [map fst dict_pop]. intros [= <- Hrest].
  destruct (str_eqb k k0); [exact Hrest|].
  cbn [map fst]. now rewrite (IH d' Hrest).
Qed.

(** The keys of the copy do not depend on how [str] renders the [_id]. *)
Lemma data_copy_keys env env' (data : dict) :
  map fst (data_copy env data) = map fst (data_copy env' data).
Proof.
  unfold data_copy.
  destruct (dict_get (lit "_id") data) as [_id|]; [|reflexivity].
  apply dict_pop_same_keys.
  destruct (dict_mem (lit "id") data); [reflexivity|].
  apply dict_set_same_keys.
Qed.

Lemma unexpected_keys_nil (data : dict) :
  unexpected_keys data = [] <-> unexpected_key data = false.
Proof.
  unfold unexpected_keys, unexpected_key.
  induction data as [|[k v] data IH]; cbn [map fst filter forallb];
    [now split|].
  destruct (existsb (str_eqb k) init_parameters); cbn [negb andb].
  - exact IH.
  - split; discriminate.
Qed.

Lemma missing_parameters_nil (data : dict) :
  missing_parameters data = [] <-> missing_parameter data = false.
Proof.
  unfold missing_parameters, missing_parameter.
  induction required_parameters as [|k l IH]; cbn [filter forallb];
    [now split|].
  destruct (dict_mem k data); cbn [negb andb].
  - exact IH.
  - split; discriminate.
Qed.

(** *** The checks of [from_dict] *)

(** The checks of [from_dict], in the order in which they fail: the
    difficulty is converted first, then [__init__] rejects the first
    unexpected key of the copy, then the missing required ones. *)
Lemma from_dict_cases env data w :
  difficulty_converts data = true ->
  (forall k rest,
      unexpected_keys (data_copy env data) = k :: rest ->
      from_dict env data w = (Raise (unexpected_keyword k), w))
  /\ (unexpected_keys (data_copy env data) = [] ->
      missing_parameters (data_copy env data) <> [] ->
      from_dict env data w
      = (Raise (missing_arguments (missing_parameters (data_copy env data))),
         w))
  /\ (unexpected_keys (data_copy env data) = [] ->
      missing_parameters (data_copy env data) = [] ->
      exists q w',
        from_dict env data w = (Ret q, w')
        /\ same_store w w'
        /\ id q = get_or_none "id" (data_copy env data)
        /\ material_id q = get_or_none "material_id" data
        /\ (dict_get (lit "difficulty") data = None ->
            difficulty q = Level MEDIUM)).
Proof.
  unfold difficulty_converts. intros Hd.
  assert (Hdiff : exists dv,
    match dict_get (lit "difficulty") (data_copy env data) with
    | Some (VStr s) =>
        match level_of s with
        | Ret level => Ret (Level level)
        | Raise e => Raise e
        end
    | Some v => Ret (Other v)
    | None => Ret (Level MEDIUM)
    end = Ret dv
    /\ (dict_get (lit "difficulty") data = None -> dv = Level MEDIUM)).
  { rewrite data_copy_get
      by (intros E; vm_compute in E; discriminate).
    revert Hd. destruct (dict_get (lit "difficulty") data) as [v|]; [|eauto].
    destruct v; try (intros _; eexists; split; [reflexivity|discriminate]).
    destruct (level_of s); [|discriminate].
    intros _; eexists; split; [reflexivity|discriminate]. }
  destruct Hdiff as [dv [Hdv Hmed]].
  unfold from_dict, bind, lift, raise. cbv zeta. rewrite Hdv.
  split; [|split].
  - intros k rest ->. reflexivity.
  - intros -> Hmiss.
    destruct (missing_parameters (data_copy env data)); [congruence|].
    reflexivity.
  - intros -> ->.
    destruct (QuizQuestion_init_runs
                (get_or_none "id" (data_copy env data))
                (get_or_none "material_id" (data_copy env data))
                (get_or_none "question" (data_copy env data))
                (get_or_none "question_type" (data_copy env data))
                (get_or_none "options" (data_copy env data))
                (get_or_none "correct_answer" (data_copy env data))
                (get_or_none "topic" (data_copy env data)) dv
                (get_or_none "created_at" (data_copy env data)) w)
      as (w' & Hrun & Hs & _).
    rewrite Hrun. eexists; eexists. split; [reflexivity|].
    split; [exact Hs|]. split; [reflexivity|]. split; [|exact Hmed].
    cbn [material_id]. unfold get_or_none.
    now rewrite data_copy_get by (intros E; vm_compute in E; discriminate).
Qed.

(** Whether [from_dict] returns or raises, which exception it raises and
    the world it leaves do not depend on the environment. *)
Lemma from_dict_outcome env env' data w :
  outcome (from_dict env data w) = outcome (from_dict env' data w).
Proof.
  unfold from_dict, bind, lift, raise. cbv zeta.
  rewrite !data_copy_get by (intros E; vm_compute in E; discriminate).
  destruct (match dict_get (lit "difficulty") data with
            | Some (VStr s) =>
                match level_of s with
                | Ret level => Ret (Level level)
                | Raise e => Raise e
                end
            | Some v => Ret (Other v)
            | None => Ret (Level MEDIUM)
            end) as [dv|e]; [|reflexivity].
  unfold unexpected_keys. rewrite (data_copy_keys env env' data).
  destruct (filter _ (map fst (data_copy env' data))) as [|k rest];
    [|reflexivity].
  assert (Hmissing : missing_parameters (data_copy env data)
                     = missing_parameters (data_copy env' data)).
  { unfold missing_parameters. apply filter_ext. intros k.
    now rewrite (dict_mem_keys k _ _ (data_copy_keys env env' data)). }
  rewrite Hmissing.
  destruct (missing_parameters (data_copy env' data)); [|reflexivity].
  unfold QuizQuestion_init, bind, ret, now, get_or_none.
  rewrite !(data_copy_get _ data (lit "created_at"))
    by (intros E; vm_compute in E; discriminate).
  now destruct (truthy _).
Qed.

Lemma loading_outcome env env' docs :
  forall w,
    outcome (for_map docs (from_dict env) w)
    = outcome (for_map docs (from_dict env') w).
Proof.
  induction docs as [|doc rest IH]; intros w; cbn [for_map]; [reflexivity|].
  unfold bind at 1 3.
  pose proof (from_dict_outcome env env' doc w) as Hdoc.
  destruct (from_dict env doc w) as [[q|e] w1],
           (from_dict env' doc w) as [[q'|e'] w1'];
    unfold outcome in Hdoc; cbn [fst snd] in Hdoc;
    try discriminate; [|exact Hdoc].
  injection Hdoc as <-.
  unfold bind, ret. specialize (IH w1).
  destruct (for_map rest (from_dict env) w1) as [[qs|e] w2],
           (for_map rest (from_dict env') w1) as [[qs'|e'] w2'];
    exact IH.
Qed.

(** A key outside the parameters of [__init__], other than [_id], is an
    unexpected key of the copy. *)
Lemma unexpected_key_of env (k : str) (v : value) (doc : dict) :
  dict_get k doc = Some v ->
  existsb (str_eqb k) init_parameters = false ->
  k <> lit "_id" ->
  unexpected_key (data_copy env doc) = true.
Proof.
  intros Hget Hk Hoid.
  assert (Hid : k <> lit "id") by (intros ->; discriminate).
  rewrite <- (data_copy_get env doc k Hid Hoid) in Hget.
  unfold unexpected_key.
  assert (H : forallb (fun kv : str * value =>
                         existsb (str_eqb (fst kv)) init_parameters)
                (data_copy env doc) = false).
  { induction (data_copy env doc) as [|[k0 v0] d IH]; [discriminate|].
    cbn [dict_get] in Hget. cbn [forallb fst].
    destruct (str_eqb k k0) eqn:E.
    - apply str_eqb_eq in E. subst k0. now rewrite Hk.
    - rewrite (IH Hget). apply andb_false_r. }
  now rewrite H.
Qed.

(** Loading a list of documents stops with a [TypeError] at the first one
    that [__init__] rejects. *)
Lemma loading_fails env docs :
  forall w,
    forallb difficulty_converts docs = true ->
    existsb (fun doc => unexpected_key (data_copy env doc)) docs = true ->
    exists e w',
      for_map docs (from_dict env) w = (Raise e, w')
      /\ exc_type e = "TypeError"%string
      /\ same_store w w'.
Proof.
  induction docs as [|doc rest IH]; intros w Hd Hu; [discriminate|].
  cbn [forallb existsb] in Hd, Hu.
  apply andb_prop in Hd. destruct Hd as [Hdoc Hrest].
  destruct (from_dict_cases env doc w Hdoc) as (Hunexp & Hmiss & Hok).
  cbn [for_map]. unfold bind at 1.
  destruct (unexpected_keys (data_copy env doc)) as [|k ks] eqn:Eu.
  - destruct (missing_parameters (data_copy env doc)) as [|m ms] eqn:Em.
    + destruct (Hok eq_refl eq_refl) as (q & w1 & Hrun & Hs & _).
      rewrite Hrun.
      rewrite (proj1 (unexpected_keys_nil _) Eu) in Hu. cbn [orb] in Hu.
      destruct (IH w1 Hrest Hu) as (e & w2 & Hrest_run & He & Hs2).
      unfold bind at 1. rewrite Hrest_run.
      exists e, w2. split; [reflexivity|]. split; [exact He|].
      eapply same_store_trans; eassumption.
    + rewrite (Hmiss eq_refl ltac:(discriminate)). eexists; eexists.
      split; [reflexivity|]. split; [reflexivity|apply same_store_refl].
  - rewrite (Hunexp k ks eq_refl). eexists; eexists.
    split; [reflexivity|]. split; [reflexivity|apply same_store_refl].
Qed.

(** Both loaders of the repository fail on such a store, before any
    backend call and whatever the environment. *)
Lemma loaders_fail env material_id w :
  forallb difficulty_converts
    (find_by "material_id" (VStr material_id) (questions w)) = true ->
  existsb (fun doc => unexpected_key (data_copy env doc))
    (find_by "material_id" (VStr material_id) (questions w)) = true ->
  exists e w',
    exc_type e = "TypeError"%string
    /\ same_store w w'
    /\ (forall env',
          get_questions_by_material env' material_id w = (Raise e, w'))
    /\ (known_material material_id w = true ->
        forall env' num_examples,
          generate_adversarial_examples env' material_id num_examples true w
          = (Raise e, w')).
Proof.
  intros Hd Hu.
  destruct (loading_fails env _ w Hd Hu) as (e & w' & Hrun & He & Hs).
  assert (Hall : forall env',
            for_map (find_by "material_id" (VStr material_id) (questions w))
              (from_dict env') w = (Raise e, w')).
  { intros env'.
    pose proof (loading_outcome env env'
                  (find_by "material_id" (VStr material_id) (questions w)) w)
      as Hout.
    rewrite Hrun in Hout.
    destruct (for_map _ (from_dict env') w) as [[qs|e'] w2];
      unfold outcome in Hout; cbn [fst snd] in Hout; [discriminate|].
    now injection Hout as <- <-. }
  exists e, w'. split; [exact He|]. split; [exact Hs|]. split.
  - intros env'.
    unfold get_questions_by_material, bind, questions_find. now rewrite Hall.
  - unfold known_material. intros Hm env' n.
    unfold generate_adversarial_examples, bind at 1, material_exists.
    rewrite Hm. cbn [negb]. unfold bind at 1.
    unfold bind at 1, questions_find. now rewrite Hall.
Qed.

Lemma find_by_app field key (l1 l2 : list dict) :
  find_by field key (l1 ++ l2) = find_by field key l1 ++ find_by field key l2.
Proof. unfold find_by. apply filter_app. Qed.

Lemma has_field_other field key (doc : dict) k v :
  k <> lit field ->
  has_field field key (dict_set k v doc) = has_field field key doc.
Proof.
  intros Hk. unfold has_field. now rewrite dict_get_set_other by congruence.
Qed.

Lemma difficulty_converts_other (doc : dict) k v :
  k <> lit "difficulty" ->
  difficulty_converts (dict_set k v doc) = difficulty_converts doc.
Proof.
  intros Hk. unfold difficulty_converts.
  now rewrite dict_get_set_other by congruence.
Qed.

(** X18. Feedback makes a question unloadable.  After
    [record_question_feedback] on a stored question of a material, the
    document of that question carries the key [quality_metrics], which
    [QuizQuestion.__init__] does not take: from then on
    [get_questions_by_material] raises [TypeError] for that material, and
    so does [generate_adversarial_examples] with [base_on_existing = True]
    (its default), before any backend call. *)
Theorem feedback_makes_questions_unloadable
    (env : environment) (material_id question_id user_id : str)
    (is_correct : bool) (is_helpful : option bool)
    (difficulty_rating : option Z) (feedback_text : option str) (w : world)
    (pre post : list dict) (doc : dict) :
  questions w = pre ++ doc :: post ->
  existsb (has_field "id" (VStr question_id)) pre = false ->
  has_field "id" (VStr question_id) doc = true ->
  has_field "material_id" (VStr material_id) doc = true ->
  forallb difficulty_converts
    (find_by "material_id" (VStr material_id) (questions w)) = true ->
  exists feedback_id w1 e w2,
    record_question_feedback env question_id user_id is_correct is_helpful
      difficulty_rating feedback_text w = (Ret feedback_id, w1)
    /\ exc_type e = "TypeError"%string
    /\ calls w2 = calls w
    /\ (forall env',
          get_questions_by_material env' material_id w1 = (Raise e, w2))
    /\ (known_material material_id w = true ->
        forall env' num_examples,
          generate_adversarial_examples env' material_id num_examples true w1
          = (Raise e, w2)).
Proof.
  intros Hqs Hpre Hdoc Hmat Hconv.
  destruct (record_question_feedback_run env question_id user_id is_correct
              is_helpful difficulty_rating feedback_text w)
    as (w1 & Hrun & _ & _ & Hq).
  pose proof (record_question_feedback_frame env question_id user_id
                is_correct is_helpful difficulty_rating feedback_text w)
    as Hframe.
  cbv zeta in Hframe. rewrite Hrun in Hframe. cbn [snd] in Hframe.
  destruct Hframe as (Hcalls & Hmats & _).
  rewrite Hqs, (update_first_found _ _ _ _ _ Hpre Hdoc) in Hq.
  unfold metrics_update, dict_update in Hq. cbn [fold_left fst snd] in Hq.
  match type of Hq with
  | _ = _ ++ dict_set ?k ?v doc :: _ => set (metrics := v) in Hq
  end.
  assert (Hkey : lit "quality_metrics" <> lit "material_id")
    by (intros H; vm_compute in H; discriminate).
  assert (Hkey' : lit "quality_metrics" <> lit "difficulty")
    by (intros H; vm_compute in H; discriminate).
  assert (Hmat' : has_field "material_id" (VStr material_id)
                    (dict_set (lit "quality_metrics") metrics doc) = true)
    by (now rewrite has_field_other).
  rewrite Hqs in Hconv. rewrite find_by_app in Hconv.
  unfold find_by at 2 in Hconv. cbn [filter] in Hconv. rewrite Hmat in Hconv.
  rewrite forallb_app in Hconv. cbn [forallb] in Hconv.
  apply andb_prop in Hconv. destruct Hconv as [Hc1 Hc2].
  apply andb_prop in Hc2. destruct Hc2 as [Hc2 Hc3].
  destruct (loaders_fail env material_id w1)
    as (e & w2 & He & Hs & Hload & Hadv).
  - rewrite Hq, find_by_app. unfold find_by at 2. cbn [filter]. rewrite Hmat'.
    rewrite forallb_app. cbn [forallb].
    rewrite Hc1, Hc3, difficulty_converts_other, Hc2 by exact Hkey'.
    reflexivity.
  - rewrite Hq, find_by_app. unfold find_by at 2. cbn [filter]. rewrite Hmat'.
    rewrite existsb_app. cbn [existsb].
    rewrite (unexpected_key_of env (lit "quality_metrics") metrics);
      [now rewrite orb_true_r|apply dict_get_set_same|reflexivity
      |intros E; vm_compute in E; discriminate].
  - exists (uuid4 env (uuids w)), w1, e, w2.
    split; [exact Hrun|]. split; [exact He|].
    destruct Hs as (Hs & _). split; [congruence|]. split; [exact Hload|].
    intros Hm. apply Hadv. unfold known_material in *. now rewrite Hmats.
Qed.

(** ** What an adversarial run stores *)

Lemma steady_ret {A} (a : A) : steady (ret a).
Proof. now intros w. Qed.

Lemma steady_raise {A} (e : exception) : steady (@raise A e).
Proof. now intros w. Qed.

Lemma steady_lift {A} (r : exc A) : steady (lift r).
Proof. now intros w. Qed.

Lemma steady_now : steady now.
Proof. now intros w. Qed.

Lemma steady_new_uuid env : steady (new_uuid env).
Proof. now intros w. Qed.

Lemma steady_call {A} (oracle : list request -> request -> exc A) r :
  steady (call oracle r).
Proof. now intros w. Qed.

Lemma steady_bind {A B} (c : M A) (k : A -> M B) :
  steady c -> (forall a, steady (k a)) -> steady (bind c k).
Proof.
  intros Hc Hk w. unfold bind. specialize (Hc w).
  destruct (c w) as [[a|e] w1]; cbn [snd] in *; [|exact Hc].
  destruct (Hk a w1) as [Hm Hq]. destruct Hc as [Hm1 Hq1]. split; congruence.
Qed.

Lemma steady_try_except {A} (c : M A) (h : exception -> M A) :
  steady c -> (forall e, steady (h e)) -> steady (try_except c h).
Proof.
  intros Hc Hh w. unfold try_except. specialize (Hc w).
  destruct (c w) as [[a|e] w1]; cbn [snd] in *; [exact Hc|].
  destruct (Hh e w1) as [Hm Hq]. destruct Hc as [Hm1 Hq1]. split; congruence.
Qed.

Lemma steady_if {A} (b : bool) (c1 c2 : M A) :
  steady c1 -> steady c2 -> steady (if b then c1 else c2).
Proof. now destruct b. Qed.

Lemma steady_for_map {A B} (f : A -> M B) (l : list A) :
  (forall x, steady (f x)) -> steady (for_map l f).
Proof.
  intros Hf. induction l as [|x l IH]; cbn [for_map]; [apply steady_ret|].
  apply steady_bind; [apply Hf|intros y].
  apply steady_bind; [exact IH|intros ys]. apply steady_ret.
Qed.

Lemma steady_log_qa_change env question_id material_id action details
    qa_data previous_data :
  steady (_log_qa_change env question_id material_id action details qa_data
            previous_data).
Proof. intros w. now rewrite log_qa_change_run. Qed.

Ltac steady_tac :=
  repeat first
    [ apply steady_ret | apply steady_raise | apply steady_lift
    | apply steady_now | apply steady_new_uuid | apply steady_call
    | apply steady_log_qa_change
    | apply steady_bind; [ | intros ? ]
    | apply steady_if ].

Lemma steady_from_dict env data : steady (from_dict env data).
Proof.
  unfold from_dict, QuizQuestion_init. cbv zeta.
  apply steady_bind; [apply steady_lift|intros difficulty].
  destruct (unexpected_keys _); [|apply steady_raise].
  destruct (missing_parameters _); [|apply steady_raise].
  steady_tac.
Qed.

Lemma steady_questions_find material_id : steady (questions_find material_id).
Proof. now intros w. Qed.

(** An adversarial question is a hard question of the material. *)
Lemma make_adversarial_shape env material_id ex w :
  match make_adversarial env material_id ex w with
  | (Ret q, w') =>
      materials w' = materials w /\ questions w' = questions w
      /\ Models.material_id q = VStr material_id
      /\ difficulty q = Level HARD
  | (Raise _, w') => materials w' = materials w /\ questions w' = questions w
  end.
Proof.
  unfold make_adversarial, bind, new_uuid, lift, now, QuizQuestion_init, ret.
  destruct (get ex "question" _) as [q_text|e]; [|now split].
  destruct (get ex "type" _) as [q_type|e]; [|now split].
  destruct (get ex "options" _) as [q_options|e]; [|now split].
  destruct (get ex "correct_answer" _) as [q_answer|e]; [|now split].
  destruct (get ex "topic" _) as [q_topic|e]; [|now split].
  cbn [truthy]. unfold bind. cbn [to_dict difficulty].
  destruct (get ex "adversarial_type" _) as [adversarial_type|e];
    [|now split].
  rewrite log_qa_change_run. now repeat split.
Qed.

Lemma for_map_make_adversarial_shape env material_id examples :
  forall w,
    match for_map examples (make_adversarial env material_id) w with
    | (Ret qs, w') =>
        materials w' = materials w /\ questions w' = questions w
        /\ Forall (fun q => Models.material_id q = VStr material_id
                            /\ difficulty q = Level HARD) qs
    | (Raise _, w') => materials w' = materials w /\ questions w' = questions w
    end.
Proof.
  induction examples as [|ex rest IH]; intros w; cbn [for_map].
  - unfold ret. now repeat split.
  - unfold bind at 1.
    pose proof (make_adversarial_shape env material_id ex w) as H1.
    destruct (make_adversarial env material_id ex w) as [[q|e] w1];
      [|exact H1].
    destruct H1 as (Hm1 & Hq1 & Hmat & Hhard).
    unfold bind at 1. specialize (IH w1).
    destruct (for_map rest _ w1) as [[qs|e'] w2].
    + destruct IH as (Hm2 & Hq2 & Hall). unfold ret.
      split; [congruence|]. split; [congruence|]. now constructor.
    + destruct IH as (Hm2 & Hq2). split; congruence.
Qed.

Lemma adversarial_document_of q :
  difficulty q = Level HARD ->
  to_dict q
  = Ret [ (lit "id", id q); (lit "material_id", Models.material_id q);
          (lit "question", question q);
          (lit "question_type", question_type q);
          (lit "options", options q);
          (lit "correct_answer", correct_answer q);
          (lit "topic", topic q);
          (lit "difficulty", VStr (lit "hard"));
          (lit "created_at", created_at q) ].
Proof. unfold to_dict. now intros ->. Qed.

Lemma save_adversarial_documents qs :
  Forall (fun q => difficulty q = Level HARD) qs ->
  forall w,
    for_each qs save_adversarial w
    = (Ret tt, set_questions w (questions w ++ map adversarial_document qs)).
Proof.
  induction 1 as [|q qs Hhard _ IH]; intros w; cbn [for_each map].
  - rewrite app_nil_r. now destruct w.
  - unfold bind at 1, save_adversarial at 1, bind at 1, lift.
    rewrite (adversarial_document_of q Hhard). unfold questions_insert.
    change (dict_set (lit "is_adversarial") (VBool true) _)
      with (adversarial_document q).
    rewrite IH. cbn [questions set_questions]. rewrite <- app_assoc.
    reflexivity.
Qed.

(** A run of [generate_adversarial_examples] that returns questions has
    stored, for each of them, its document with [is_adversarial] set, under
    the material of the run. *)
Lemma generate_adversarial_examples_store env material_id num_examples
    base_on_existing w qs w' :
  generate_adversarial_examples env material_id num_examples base_on_existing w
    = (Ret qs, w') ->
  known_material material_id w = true
  /\ materials w' = materials w
  /\ questions w' = questions w ++ map adversarial_document qs
  /\ Forall (fun q => Models.material_id q = VStr material_id) qs.
Proof.
  unfold known_material.
  unfold generate_adversarial_examples, bind at 1, material_exists.
  destruct (existsb _ (materials w)); [|discriminate]. cbn [negb].
  unfold bind at 1.
  match goal with |- context [(if base_on_existing then ?c else ret []) w] =>
    assert (Hex : steady (if base_on_existing then c else ret []))
      by (apply steady_if; [|apply steady_ret];
          apply steady_bind; [apply steady_questions_find|intros docs];
          apply steady_for_map; intros d; apply steady_from_dict);
    specialize (Hex w);
    destruct ((if base_on_existing then c else ret []) w)
      as [[existing|e] w1]; [|discriminate]
  end.
  cbn [snd] in Hex. destruct Hex as [Hm1 Hq1].
  unfold bind at 1.
  match goal with |- context [(if ?b then ?c1 else ?c2) w1] =>
    assert (Hpr : steady (if b then c1 else c2))
      by (apply steady_if; steady_tac);
    specialize (Hpr w1);
    destruct ((if b then c1 else c2) w1) as [[prompt|e] w2]; [|discriminate]
  end.
  cbn [snd] in Hpr. destruct Hpr as [Hm2 Hq2].
  unfold bind at 1, ollama_generate_completion, call.
  destruct (completion env _ _) as [response|e]; [|discriminate].
  set (w3 := set_calls w2 _).
  assert (Hm3 : materials w3 = materials w) by (cbn; congruence).
  assert (Hq3 : questions w3 = questions w) by (cbn; congruence).
  clearbody w3. unfold bind at 1, try_except.
  assert (Hnone : forall w4 : world,
            materials w4 = materials w -> questions w4 = questions w ->
            (Ret (@nil QuizQuestion), w4) = (Ret qs, w') ->
            true = true
            /\ materials w' = materials w
            /\ questions w' = questions w ++ map adversarial_document qs
            /\ Forall (fun q => Models.material_id q = VStr material_id) qs).
  { intros w4 Hm4 Hq4 [= <- <-]. cbn [map]. rewrite app_nil_r.
    repeat split; auto. }
  destruct (_ && _).
  - unfold bind at 1, lift.
    destruct (json_loads env _) as [examples|e];
      [|unfold ret; cbn [for_each]; now apply Hnone].
    unfold bind at 1.
    destruct (iter examples) as [items|e];
      [|unfold ret; cbn [for_each]; now apply Hnone].
    unfold bind at 1.
    pose proof (for_map_make_adversarial_shape env material_id items w3)
      as Hmake.
    destruct (for_map items _ w3) as [[made|e] w4].
    + destruct Hmake as (Hm4 & Hq4 & Hall).
      unfold ret at 1. unfold bind at 1.
      rewrite save_adversarial_documents
        by (eapply Forall_impl; [|exact Hall]; now intros q [_ Hh]).
      unfold ret. intros [= <- <-]. cbn [materials questions set_questions].
      split; [reflexivity|]. split; [congruence|]. split; [congruence|].
      eapply Forall_impl; [|exact Hall]. now intros q [Hmat _].
    + destruct Hmake as (Hm4 & Hq4). unfold ret. cbn [for_each].
      apply Hnone; congruence.
  - unfold ret. cbn [for_each]. unfold bind, ret. now apply Hnone.
Qed.

Lemma adversarial_documents_found material_id qs :
  Forall (fun q => Models.material_id q = VStr material_id) qs ->
  find_by "material_id" (VStr material_id) (map adversarial_document qs)
  = map adversarial_document qs.
Proof.
  induction 1 as [|q qs Hq _ IH]; [reflexivity|].
  cbn [map]. unfold find_by in *. cbn [filter].
  assert (Hf : has_field "material_id" (VStr material_id)
                 (adversarial_document q) = true).
  { unfold has_field, adversarial_document.
    change (dict_get (lit "material_id") _)
      with (Some (Models.material_id q)).
    rewrite Hq. apply str_eqb_refl. }
  rewrite Hf. now rewrite IH.
Qed.

(** X19. A second adversarial run fails.  The documents that
    [generate_adversarial_examples] stores carry the key [is_adversarial],
    which [QuizQuestion.__init__] does not take: once a run has returned at
    least one question, every later run for the same material with
    [base_on_existing = True] (the default) raises [TypeError] while loading
    the existing questions, before any backend call, and
    [get_questions_by_material] raises as well. *)
Theorem second_adversarial_run_raises
    (env : environment) (material_id : str) (num_examples : Z)
    (base_on_existing : bool) (w w1 : world) (qs : list QuizQuestion) :
  forallb difficulty_converts
    (find_by "material_id" (VStr material_id) (questions w)) = true ->
  generate_adversarial_examples env material_id num_examples base_on_existing w
    = (Ret qs, w1) ->
  qs <> [] ->
  exists e w2,
    exc_type e = "TypeError"%string
    /\ calls w2 = calls w1
    /\ (forall env',
          get_questions_by_material env' material_id w1 = (Raise e, w2))
    /\ forall env' num_examples',
         generate_adversarial_examples env' material_id num_examples' true w1
         = (Raise e, w2).
Proof.
  intros Hconv Hrun Hne.
  destruct (generate_adversarial_examples_store _ _ _ _ _ _ _ Hrun)
    as (Hm & Hmats & Hq & Hall).
  pose proof (adversarial_documents_found material_id qs Hall) as Hfound.
  destruct (loaders_fail env material_id w1)
    as (e & w2 & He & Hs & Hload & Hadv).
  - rewrite Hq, find_by_app, Hfound, forallb_app, Hconv. cbn [andb].
    clear. induction qs as [|q qs IH]; [reflexivity|].
    cbn [map forallb]. now rewrite IH.
  - rewrite Hq, find_by_app, Hfound, existsb_app.
    destruct qs as [|q qs]; [congruence|].
    cbn [map existsb].
    rewrite (unexpected_key_of env (lit "is_adversarial") (VBool true)
               (adversarial_document q));
      [|reflexivity|reflexivity|intros E; vm_compute in E; discriminate].
    now rewrite orb_true_r.
  - exists e, w2. split; [exact He|]. destruct Hs as (Hs & _).
    split; [exact Hs|]. split; [exact Hload|].
    intros env' n'. apply Hadv. unfold known_material in *. now rewrite Hmats.
Qed.

End LoadingFacts.

(* ===================================================================== *)
(** * Generation, improvement and storage of questions *)
(* ===================================================================== *)

Module GenerationFacts.
Import Py Prompts World Models QADataset Database PipelineTerms StoreTerms.
Import QAFacts StoreFacts.
#[local] Open Scope py_scope.

(** ** What an improvement may write *)

Lemma keys_dict_set (L : list str) (k : str) (v : value) (d : dict) :
  In k L ->
  Forall (fun kv => In (fst kv) L) d ->
  Forall (fun kv => In (fst kv) L) (dict_set k v d).
Proof.
  intros Hk. induction 1 as [|[k0 v0] d Hk0 Hd IH]; cbn [dict_set].
  - constructor; [exact Hk|constructor].
  - destruct (str_eqb k k0); constructor; auto.
Qed.

Lemma improvable_other (k : str) (upd : dict) :
  Forall (fun kv => In (fst kv) improvable_keys) upd ->
  ~ In k improvable_keys -> ~ In k (map fst upd).
Proof.
  intros Hall Hk Hin. apply in_map_iff in Hin.
  destruct Hin as [kv [<- Hkv]].
  rewrite Forall_forall in Hall. exact (Hk (Hall kv Hkv)).
Qed.

(** X20. An improvement keeps the identity of the question.  When
    [_improve_question] returns [True] it has made one backend call and
    updated the stored question with keys among [question], [topic],
    [updated_at], [improvement_notes], [options] and [correct_answer] only
    ([options] only for a multiple-choice question): every other key of the
    document ([id], [material_id], [question_type], [difficulty],
    [created_at], [quality_metrics], ...) reads as before. *)
Theorem improvement_keeps_identity
    (env : environment) (question : dict) (material_id : str)
    (feedback : list FeedbackRecord) (w w' : world) :
  _improve_question env question material_id feedback w = (Ret true, w') ->
  exists update_data r,
    questions w'
    = update_first (dget question "id" VNone) update_data (questions w)
    /\ calls w' = calls w ++ [r]
    /\ Forall (fun kv => In (fst kv) improvable_keys) update_data
    /\ (is_multiple_choice (dget question "question_type" VNone) = false ->
        dict_get (lit "options") update_data = None)
    /\ (forall k doc,
          ~ In k improvable_keys ->
          dict_get k (dict_update doc update_data) = dict_get k doc).
Proof.
  unfold _improve_question, bind, material_exists, lift,
    ollama_generate_completion, call, try_except, ret, now,
    questions_update_one.
  destruct (negb _); [discriminate|].
  match goal with |- context [if is_multiple_choice ?t then ?a else ?b] =>
    destruct (if is_multiple_choice t then a else b) as [answer|e] end;
    [|discriminate].
  destruct (completion env _ _) as [response|e]; [|discriminate].
  destruct ((0 <=? find _ response) && _); [|discriminate].
  destruct (json_loads env _) as [improved|e]; [|discriminate].
  destruct (get improved "question" _) as [new_question|e]; [|discriminate].
  destruct (get improved "topic" _) as [new_topic|e]; [|discriminate].
  destruct (get improved "improvement_notes" _) as [notes|e]; [|discriminate].
  rewrite log_qa_change_run. cbn [fst snd]. intros [= <-].
  cbn [questions calls set_changelog set_clock set_uuids set_questions
       set_calls].
  eexists; eexists. split; [reflexivity|]. split; [reflexivity|].
  assert (Hbase : forall a b c d : value,
            Forall (fun kv : str * value => In (fst kv) improvable_keys)
              [ (lit "question", a); (lit "topic", b);
                (lit "updated_at", c); (lit "improvement_notes", d) ]).
  { intros. repeat (apply Forall_cons; [cbn; auto 10|]). apply Forall_nil. }
  assert (Hkeys : Forall (fun kv : str * value => In (fst kv) improvable_keys)
    (if dict_mem (lit "correct_answer")
          match improved with VDict d => d | _ => [] end
     then dict_set (lit "correct_answer")
            (dget match improved with VDict d => d | _ => [] end
               "correct_answer" VNone)
            (if is_multiple_choice (dget question "question_type" VNone)
                && dict_mem (lit "options")
                     match improved with VDict d => d | _ => [] end
             then dict_set (lit "options")
                    (dget match improved with VDict d => d | _ => [] end
                       "options" VNone)
                    [ (lit "question", new_question); (lit "topic", new_topic);
                      (lit "updated_at", VDatetime (clock w));
                      (lit "improvement_notes", notes) ]
             else [ (lit "question", new_question); (lit "topic", new_topic);
                    (lit "updated_at", VDatetime (clock w));
                    (lit "improvement_notes", notes) ])
     else (if is_multiple_choice (dget question "question_type" VNone)
              && dict_mem (lit "options")
                   match improved with VDict d => d | _ => [] end
           then dict_set (lit "options")
                  (dget match improved with VDict d => d | _ => [] end
                     "options" VNone)
                  [ (lit "question", new_question); (lit "topic", new_topic);
                    (lit "updated_at", VDatetime (clock w));
                    (lit "improvement_notes", notes) ]
           else [ (lit "question", new_question); (lit "topic", new_topic);
                  (lit "updated_at", VDatetime (clock w));
                  (lit "improvement_notes", notes) ]))).
  { destruct (dict_mem (lit "correct_answer") _), (_ && _);
      repeat (apply keys_dict_set; [cbn; auto 10|]); apply Hbase. }
  split; [exact Hkeys|]. split.
  - intros ->. cbn [andb].
    destruct (dict_mem (lit "correct_answer") _); [|reflexivity].
    rewrite dict_get_set_other; [reflexivity|].
    intros H; vm_compute in H; discriminate.
  - intros k doc Hk. apply dict_update_other.
    now apply improvable_other.
Qed.

(** ** Adversarial generation that is not based on existing questions *)

(** One example that is an object becomes a question, with one "created"
    entry; anything else raises [AttributeError] and logs nothing. *)
Lemma make_adversarial_dict env material_id d w :
  exists q w' e,
    make_adversarial env material_id (VDict d) w = (Ret q, w')
    /\ questions w' = questions w
    /\ calls w' = calls w
    /\ changelog w' = changelog w ++ [e]
    /\ action e = "created"%string
    /\ log_material_id e = material_id.
Proof.
  unfold make_adversarial, bind, new_uuid, lift, now, QuizQuestion_init, ret.
  cbn [get truthy]. unfold bind. cbn [to_dict difficulty].
  rewrite log_qa_change_run.
  eexists; eexists; eexists. split; [reflexivity|]. now repeat split.
Qed.

Lemma make_adversarial_other env material_id ex w :
  is_dict ex = false ->
  exists w',
    make_adversarial env material_id ex w
    = (Raise (AttributeError ex "get"), w')
    /\ questions w' = questions w
    /\ calls w' = calls w
    /\ changelog w' = changelog w.
Proof.
  unfold make_adversarial, bind, new_uuid, lift.
  destruct ex; try discriminate; intros _;
    (eexists; split; [reflexivity|]; now repeat split).
Qed.

Lemma for_map_make_adversarial_partial env material_id good bad rest :
  forallb is_dict good = true ->
  is_dict bad = false ->
  forall w,
    exists w' entries,
      for_map (good ++ bad :: rest) (make_adversarial env material_id) w
      = (Raise (AttributeError bad "get"), w')
      /\ questions w' = questions w
      /\ calls w' = calls w
      /\ changelog w' = changelog w ++ entries
      /\ List.length entries = List.length good
      /\ Forall (fun e => action e = "created"%string
                          /\ log_material_id e = material_id) entries.
Proof.
  intros Hgood Hbad.
  induction good as [|ex good IH]; intros w; cbn [app for_map].
  - destruct (make_adversarial_other env material_id bad w Hbad)
      as (w' & Hrun & Hq & Hc & Hl).
    unfold bind at 1. rewrite Hrun. exists w', [].
    rewrite app_nil_r. now repeat split.
  - cbn [forallb] in Hgood. apply andb_prop in Hgood.
    destruct Hgood as [Hex Hgood].
    destruct ex; try discriminate.
    destruct (make_adversarial_dict env material_id d w)
      as (q & w1 & e & Hrun & Hq1 & Hc1 & Hl1 & Ha & Hm).
    unfold bind at 1. rewrite Hrun.
    destruct (IH Hgood w1) as (w' & entries & Hrest & Hq & Hc & Hl & Hn & Hall).
    unfold bind at 1. rewrite Hrest.
    exists w', (e :: entries). split; [reflexivity|].
    split; [congruence|]. split; [congruence|].
    split; [rewrite Hl, Hl1; now rewrite <- app_assoc|].
    split; [cbn; now rewrite Hn|]. constructor; [now split|exact Hall].
Qed.

(** A run that is not based on existing questions, once the backend has
    answered. *)
Lemma adversarial_from_scratch env material_id num_examples w response :
  known_material material_id w = true ->
  completion env (calls w) (adversarial_request (from_scratch_prompt num_examples))
    = Ret response ->
  let w1 := set_calls w (calls w ++ [adversarial_request
                                       (from_scratch_prompt num_examples)]) in
  generate_adversarial_examples env material_id num_examples false w
  = match between "[" "]" response with
    | None => (Ret [], w1)
    | Some json_str =>
        match json_loads env json_str with
        | Raise _ => (Ret [], w1)
        | Ret examples =>
            match iter examples with
            | Raise _ => (Ret [], w1)
            | Ret items =>
                match for_map items (make_adversarial env material_id) w1 with
                | (Ret qs, w2) =>
                    (for_each qs save_adversarial ;; ret qs) w2
                | (Raise _, w2) => (Ret [], w2)
                end
            end
        end
    end.
Proof.
  unfold known_material. intros Hm Hc. cbv zeta.
  unfold generate_adversarial_examples, bind at 1, material_exists.
  rewrite Hm. cbn [negb andb]. unfold bind at 1, ret at 1.
  unfold bind at 1, ret at 1.
  unfold bind at 1, ollama_generate_completion, call.
  fold (from_scratch_prompt num_examples).
  fold (adversarial_request (from_scratch_prompt num_examples)).
  rewrite Hc. unfold between. cbv zeta.
  unfold bind at 1, try_except.
  destruct ((0 <=? find _ response) && _); [|reflexivity].
  unfold bind at 1, lift.
  destruct (json_loads env _) as [examples|e]; [|reflexivity].
  unfold bind at 1.
  destruct (iter examples) as [items|e]; [|reflexivity].
  unfold bind at 1.
  destruct (for_map items _ _) as [[qs|e] w2]; reflexivity.
Qed.

(** X21. An adversarial answer that cannot be read.  When the backend's
    answer has no bracketed part, or [json.loads] rejects that part, or the
    JSON value is not iterable, [generate_adversarial_examples] raises
    nothing: it returns [[]] after its one backend call, and nothing is
    stored or logged. *)
Theorem unreadable_adversarial_answer_stores_nothing
    (env : environment) (material_id : str) (num_examples : Z) (w : world)
    (response : str) :
  known_material material_id w = true ->
  completion env (calls w)
    (adversarial_request (from_scratch_prompt num_examples)) = Ret response ->
  between "[" "]" response = None
  \/ (exists json_str e,
        between "[" "]" response = Some json_str
        /\ json_loads env json_str = Raise e)
  \/ (exists json_str v e,
        between "[" "]" response = Some json_str
        /\ json_loads env json_str = Ret v
        /\ iter v = Raise e) ->
  generate_adversarial_examples env material_id num_examples false w
  = (Ret [],
     set_calls w (calls w ++ [adversarial_request
                                (from_scratch_prompt num_examples)])).
Proof.
  intros Hm Hc Hbad.
  rewrite (adversarial_from_scratch env material_id num_examples w response
             Hm Hc).
  destruct Hbad as [->|[(s & e & -> & ->)|(s & v & e & -> & -> & ->)]];
    reflexivity.
Qed.

(** X22. A partly malformed adversarial answer.  When the answer is a JSON
    list whose first entries are objects and which then holds an entry that
    is not an object, the [AttributeError] of that entry is caught and
    [[]] is returned: no question is stored, but the changelog has already
    received one "created" entry for each object before it, entries of
    questions that do not exist. *)
Theorem partial_adversarial_failure_leaves_log_entries
    (env : environment) (material_id : str) (num_examples : Z) (w : world)
    (response json_str : str) (good rest : list value) (bad : value) :
  known_material material_id w = true ->
  completion env (calls w)
    (adversarial_request (from_scratch_prompt num_examples)) = Ret response ->
  between "[" "]" response = Some json_str ->
  json_loads env json_str = Ret (VList (good ++ bad :: rest)) ->
  forallb is_dict good = true ->
  is_dict bad = false ->
  exists w' entries,
    generate_adversarial_examples env material_id num_examples false w
    = (Ret [], w')
    /\ questions w' = questions w
    /\ calls w' = calls w ++ [adversarial_request
                                (from_scratch_prompt num_examples)]
    /\ changelog w' = changelog w ++ entries
    /\ len entries = len good
    /\ Forall (fun e => action e = "created"%string
                        /\ log_material_id e = material_id) entries.
Proof.
  intros Hm Hc Hb Hj Hgood Hbad.
  rewrite (adversarial_from_scratch env material_id num_examples w response
             Hm Hc).
  rewrite Hb, Hj. cbn [iter].
  destruct (for_map_make_adversarial_partial env material_id good bad rest
              Hgood Hbad
              (set_calls w (calls w ++ [adversarial_request
                                          (from_scratch_prompt num_examples)])))
    as (w' & entries & Hrun & Hq & Hcalls & Hl & Hn & Hall).
  rewrite Hrun. exists w', entries. split; [reflexivity|].
  split; [exact Hq|]. split; [exact Hcalls|]. split; [exact Hl|].
  split; [unfold len; now rewrite Hn|exact Hall].
Qed.

(** ** The backend calls of [generate_qa_pairs] *)

Lemma silent_ret {A} (a : A) : silent (ret a).
Proof. now intros w. Qed.

Lemma silent_raise {A} (e : exception) : silent (@raise A e).
Proof. now intros w. Qed.

Lemma silent_lift {A} (r : exc A) : silent (lift r).
Proof. now intros w. Qed.

Lemma silent_now : silent now.
Proof. now intros w. Qed.

Lemma silent_new_uuid env : silent (new_uuid env).
Proof. now intros w. Qed.

Lemma silent_bind {A B} (c : M A) (k : A -> M B) :
  silent c -> (forall a, silent (k a)) -> silent (bind c k).
Proof.
  intros Hc Hk w. unfold bind. specialize (Hc w).
  destruct (c w) as [[a|e] w1]; cbn [snd] in *; [|exact Hc].
  rewrite (Hk a w1). exact Hc.
Qed.

Lemma silent_if {A} (b : bool) (c1 c2 : M A) :
  silent c1 -> silent c2 -> silent (if b then c1 else c2).
Proof. now destruct b. Qed.

Lemma silent_for_map {A B} (f : A -> M B) (l : list A) :
  (forall x, silent (f x)) -> silent (for_map l f).
Proof.
  intros Hf. induction l as [|x l IH]; cbn [for_map]; [apply silent_ret|].
  apply silent_bind; [apply Hf|intros y].
  apply silent_bind; [exact IH|intros ys]. apply silent_ret.
Qed.

Lemma silent_log_qa_change env question_id material_id action details
    qa_data previous_data :
  silent (_log_qa_change env question_id material_id action details qa_data
            previous_data).
Proof. intros w. now rewrite log_qa_change_run. Qed.

Ltac silent_tac :=
  repeat first
    [ apply silent_ret | apply silent_raise | apply silent_lift
    | apply silent_now | apply silent_new_uuid | apply silent_log_qa_change
    | apply silent_bind; [ | intros ? ]
    | apply silent_if ].

Lemma silent_make_qa_pair env material_id q_type difficulty q :
  silent (make_qa_pair env material_id q_type difficulty q).
Proof. unfold make_qa_pair, QuizQuestion_init. silent_tac. Qed.

Lemma silent_create_questions_batch env qs :
  silent (create_questions_batch env qs).
Proof.
  unfold create_questions_batch.
  apply silent_bind; [apply silent_for_map; intros q; silent_tac|intros qs'].
  apply silent_bind; [apply silent_for_map; intros q; silent_tac|intros docs].
  apply silent_bind; [now intros w|intros u]. apply silent_ret.
Qed.

Lemma generate_for_types_calls env material_id difficulty topics counts :
  forall all_questions w all_questions' w',
    for_fold counts all_questions
      (generate_for_type env material_id difficulty topics) w
      = (Ret all_questions', w') ->
    calls w' = calls w ++ quiz_requests difficulty topics counts.
Proof.
  induction counts as [|[q_type count] rest IH];
    intros all_questions w all_questions' w'; cbn [for_fold].
  - unfold ret. intros [= _ <-]. now rewrite app_nil_r.
  - unfold bind at 1.
    destruct (generate_for_type env material_id difficulty topics
                all_questions (q_type, count) w) as [[acc|e] w1] eqn:E1;
      [|discriminate].
    intros Hrest. rewrite (IH _ _ _ _ Hrest).
    unfold quiz_requests. cbn [filter snd fst].
    unfold generate_for_type in E1.
    destruct (count <=? 0); cbn [negb].
    + unfold ret in E1. now injection E1 as _ <-.
    + unfold bind at 1, ollama_generate_quiz_questions, call in E1.
      destruct (quiz_questions env _ _) as [generated|e]; [|discriminate].
      unfold bind at 1 in E1.
      pose proof (silent_for_map
                    (make_qa_pair env material_id q_type difficulty)
                    generated
                    (silent_make_qa_pair env material_id q_type difficulty)
                    (set_calls w (calls w ++ [generate_quiz_questions
                       MATERIAL_CONTENT count q_type DEFAULT_MODEL difficulty
                       topics]))) as Hsilent.
      destruct (for_map generated _ _) as [[made|e] w1'];
        [|discriminate].
      unfold ret in E1. injection E1 as _ <-. cbn [snd] in Hsilent.
      rewrite Hsilent. cbn [calls set_calls map]. rewrite <- app_assoc.
      reflexivity.
Qed.

Lemma qtype_count_distinct num_questions question_types :
  question_types <> [] ->
  NoDup question_types ->
  qtype_count num_questions question_types
  = Ret (split_counts (num_questions / len question_types)
           (num_questions mod len question_types) 0 question_types).
Proof.
  intros Hne Hnd. unfold qtype_count.
  destruct question_types as [|qt rest]; [congruence|].
  unfold base_counts.
  rewrite base_counts_from by (auto; intros ? _ []).
  apply (add_remainder_distinct _ _ (qt :: rest) 0 []); auto.
Qed.

(** X23. The backend calls of [generate_qa_pairs].  For pairwise distinct
    question types, a run that returns has asked the quiz generator once
    for each type whose share of the questions is positive, in the order
    of the types, for exactly that share ([num_questions // n], plus one
    for the first [num_questions % n] types), with the placeholder
    content, the default model and the difficulty and topics it was
    given; it made no other backend call. *)
Theorem one_quiz_call_per_question_type
    (env : environment) (material_id : str) (num_questions : Z)
    (question_types : list str) (difficulty : str) (topics : value)
    (w w' : world) (qs : list QuizQuestion) :
  NoDup question_types ->
  generate_qa_pairs env material_id num_questions question_types difficulty
    topics w = (Ret qs, w') ->
  calls w'
  = calls w
    ++ quiz_requests difficulty topics
         (split_counts (num_questions / len question_types)
            (num_questions mod len question_types) 0 question_types).
Proof.
  intros Hnd. unfold generate_qa_pairs, bind at 1, material_exists.
  destruct (negb _); [discriminate|].
  unfold bind at 1, lift.
  destruct question_types as [|qt rest]; [discriminate|].
  rewrite qtype_count_distinct by (auto; discriminate).
  unfold bind at 1.
  destruct (for_fold _ [] _ w) as [[all_questions|e] w1] eqn:Eloop;
    [|discriminate].
  rewrite <- (generate_for_types_calls _ _ _ _ _ _ _ _ _ Eloop).
  destruct all_questions as [|q all_questions].
  - unfold ret. now intros [= _ <-].
  - unfold bind.
    pose proof (silent_create_questions_batch env (q :: all_questions) w1)
      as Hsilent.
    destruct (create_questions_batch env (q :: all_questions) w1)
      as [[saved|e] w2]; [|discriminate].
    unfold ret. intros [= _ <-]. exact Hsilent.
Qed.

(** ** [create_questions_batch] *)

Lemma assign_missing_ids env qs :
  forall w,
    for_map qs
      (fun question =>
         if negb (truthy (id question))
         then (u <- new_uuid env ;; ret (set_id question (VStr u)))
         else ret question) w
    = (Ret (assign_ids env (uuids w) qs),
       set_uuids w (uuids w + missing_ids qs)).
Proof.
  unfold missing_ids.
  induction qs as [|q qs IH]; intros w; cbn [for_map assign_ids filter].
  - cbn [List.length]. rewrite Nat.add_0_r. now destruct w.
  - unfold bind at 1. destruct (negb (truthy (id q))).
    + unfold bind at 1, new_uuid at 1, ret at 1.
      unfold bind at 1. rewrite IH. unfold ret.
      cbn [uuids set_uuids List.length]. rewrite Nat.add_succ_r.
      reflexivity.
    + unfold ret at 1. unfold bind at 1. rewrite IH. reflexivity.
Qed.

Lemma assign_ids_length env qs :
  forall n, List.length (assign_ids env n qs) = List.length qs.
Proof.
  induction qs as [|q qs IH]; intros n; cbn [assign_ids]; [reflexivity|].
  destruct (negb (truthy (id q))); cbn [List.length]; now rewrite IH.
Qed.

Lemma dump_documents (qs : list QuizQuestion) (docs : list dict) :
  Forall2 (fun q d => to_dict q = Ret d) qs docs ->
  forall w, for_map qs (fun q => lift (to_dict q)) w = (Ret docs, w).
Proof.
  induction 1 as [|q d l ds Hqd _ IH]; intros w; cbn [for_map];
    [reflexivity|].
  unfold bind at 1, lift at 1. rewrite Hqd. unfold bind at 1.
  now rewrite IH.
Qed.

(** X24. [create_questions_batch] assigns the missing ids.  A question
    without [id] gets the next unused uuid, a question with an [id] keeps
    it; the ids are returned in the order of the questions; one document
    per question is appended to the collection, in that order; and as many
    uuids are drawn as ids were missing. *)
Theorem create_questions_batch_assigns_missing_ids
    (env : environment) (qs : list QuizQuestion) (docs : list dict)
    (w : world) :
  Forall2 (fun q d => to_dict q = Ret d) (assign_ids env (uuids w) qs) docs ->
  create_questions_batch env qs w
  = (Ret (assign_ids env (uuids w) qs,
          map id (assign_ids env (uuids w) qs)),
     set_questions (set_uuids w (uuids w + missing_ids qs))
       (questions w ++ docs))
  /\ List.length docs = List.length qs
  /\ Forall (fun q => truthy (id q) = true -> In q (assign_ids env (uuids w) qs))
       qs.
Proof.
  intros Hdocs. split; [|split].
  - unfold create_questions_batch. unfold bind at 1.
    rewrite assign_missing_ids. unfold bind at 1.
    rewrite (dump_documents _ _ Hdocs). reflexivity.
  - rewrite <- (Forall2_length Hdocs). apply assign_ids_length.
  - generalize (uuids w). clear Hdocs.
    induction qs as [|q qs IH]; intros n; [constructor|].
    cbn [assign_ids]. constructor.
    + intros Hid. rewrite Hid. cbn [negb]. now left.
    + eapply Forall_impl; [|apply (IH (if negb (truthy (id q)) then S n else n))].
      intros q' Hq' Hid. destruct (negb (truthy (id q))); right; auto.
Qed.

End GenerationFacts.

(* ===================================================================== *)
(** * [QuizQuestion]: documents and objects *)
(* ===================================================================== *)

Module ModelFacts.
Import Py World Models QADataset StoreTerms.
Import LoadingFacts.
#[local] Open Scope py_scope.

Lemma level_of_value (level : DifficultyLevel) :
  level_of (level_value level) = Ret level.
Proof. now destruct level. Qed.

(** X25. [to_dict] followed by [from_dict] gives the question back.  For a
    question whose [created_at] is set and whose [options] are a non-empty
    value or the empty list, the document that [to_dict] builds is accepted
    by [from_dict] (no unexpected key, no missing parameter, a difficulty
    that names a level), and [from_dict] returns exactly that question
    without reading the clock. *)
Theorem to_dict_from_dict_round_trip
    (env : environment) (q : QuizQuestion) (d : dict) (w : world) :
  to_dict q = Ret d ->
  truthy (created_at q) = true ->
  truthy (options q) = true \/ options q = VList [] ->
  from_dict env d w = (Ret q, w)
  /\ unexpected_key d = false
  /\ missing_parameter d = false
  /\ difficulty_converts d = true.
Proof.
  destruct q as [i m qu t o c tp df ca]. unfold to_dict.
  cbn [difficulty id material_id question question_type options
       correct_answer topic created_at].
  destruct df as [level|v]; [|discriminate].
  intros [= <-] Hca Ho.
  assert (Hoptions : (if truthy o then o else VList []) = o).
  { destruct Ho as [->| ->]; reflexivity. }
  split; [|split; [|split]].
  - unfold from_dict, bind, lift, raise. cbv zeta.
    change (data_copy env ?d) with d.
    change (dict_get (lit "difficulty") _)
      with (Some (VStr (level_value level))).
    cbv beta iota. rewrite level_of_value.
    change (unexpected_keys _) with (@nil str). cbv iota.
    change (missing_parameters _) with (@nil str). cbv iota.
    unfold QuizQuestion_init, bind, ret, get_or_none.
    change (dict_get (lit "created_at") _) with (Some ca).
    change (dict_get (lit "options") _) with (Some o).
    cbv beta iota. rewrite Hca, Hoptions. reflexivity.
  - reflexivity.
  - reflexivity.
  - unfold difficulty_converts.
    change (dict_get (lit "difficulty") _)
      with (Some (VStr (level_value level))).
    cbv beta iota. now rewrite level_of_value.
Qed.

(** X26. What [from_dict] does with a document.  The copy it works on is
    the document with the [_id] handling applied: every key other than
    [id] and [_id] reads as in the document, and when the document has an
    [_id] the copy's [id] is the document's, or [str(_id)] when the
    document has none.  The checks then fail in this order: a [difficulty]
    string that names no level raises the [ValueError] of
    [DifficultyLevel(...)], whatever else the document holds; otherwise the
    first key of the copy that is not a parameter of [__init__] raises the
    [TypeError] that names it; otherwise the required parameters that the
    copy lacks raise the [TypeError] that lists them; otherwise the
    question is built from the copy, with difficulty MEDIUM when the
    document names none, and nothing but the clock is touched.  In
    particular a document that is complete apart from carrying the store's
    [_id] is loaded, with [id = str(_id)] when it has no [id]. *)
Theorem from_dict_checks_its_document
    (env : environment) (data : dict) (w : world) :
  let copy := data_copy env data in
  (forall k, k <> lit "id" -> k <> lit "_id" ->
             dict_get k copy = dict_get k data)
  /\ (dict_get (lit "_id") data = None -> copy = data)
  /\ (forall _id,
        dict_get (lit "_id") data = Some _id ->
        dict_get (lit "id") copy
        = Some match dict_get (lit "id") data with
               | Some v => v
               | None => VStr (str_of env _id)
               end)
  /\ (forall s e,
        dict_get (lit "difficulty") data = Some (VStr s) ->
        level_of s = Raise e ->
        from_dict env data w = (Raise e, w)
        /\ exc_type e = "ValueError"%string)
  /\ (difficulty_converts data = true ->
      forall k rest,
        unexpected_keys copy = k :: rest ->
        from_dict env data w = (Raise (unexpected_keyword k), w)
        /\ exc_type (unexpected_keyword k) = "TypeError"%string)
  /\ (difficulty_converts data = true ->
      unexpected_keys copy = [] ->
      missing_parameters copy <> [] ->
      from_dict env data w
      = (Raise (missing_arguments (missing_parameters copy)), w)
      /\ exc_type (missing_arguments (missing_parameters copy))
         = "TypeError"%string)
  /\ (difficulty_converts data = true ->
      unexpected_keys copy = [] ->
      missing_parameters copy = [] ->
      exists q w',
        from_dict env data w = (Ret q, w')
        /\ same_store w w'
        /\ id q = get_or_none "id" copy
        /\ material_id q = get_or_none "material_id" data
        /\ (dict_get (lit "difficulty") data = None ->
            difficulty q = Level MEDIUM)).
Proof.
  cbv zeta.
  split; [intros k; apply data_copy_get|].
  split; [intros H; unfold data_copy; now rewrite H|].
  split; [apply data_copy_id|].
  split; [|split; [|split]].
  - intros s e Hd He. split.
    + unfold from_dict, bind, lift. cbv zeta.
      rewrite data_copy_get by (intros E; vm_compute in E; discriminate).
      now rewrite Hd, He.
    + revert He. unfold level_of.
      destruct (str_eqb s (lit "easy")); [discriminate|].
      destruct (str_eqb s (lit "medium")); [discriminate|].
      destruct (str_eqb s (lit "hard")); [discriminate|].
      now intros [= <-].
  - intros Hd k rest Hk. split; [|reflexivity].
    exact (proj1 (from_dict_cases env data w Hd) k rest Hk).
  - intros Hd Hk Hm. split; [|reflexivity].
    exact (proj1 (proj2 (from_dict_cases env data w Hd)) Hk Hm).
  - intros Hd. exact (proj2 (proj2 (from_dict_cases env data w Hd))).
Qed.

(** ** Concrete runs *)

Import Scenario.

Lemma to_dict_from_dict_round_trip_witness :
  from_dict env_idle question_q1 w0
  = (Ret {| id := VStr (lit "q1"); material_id := VStr (lit "m1");
            question := VStr (lit "What is a cell?");
            question_type := VStr (lit "short_answer");
            options := VList [];
            correct_answer := VStr (lit "The unit of life");
            topic := VStr (lit "Cells");
            difficulty := Level MEDIUM;
            created_at := VDatetime 0 |}, w0).
Proof.
  refine (proj1 (to_dict_from_dict_round_trip env_idle
                   {| id := VStr (lit "q1"); material_id := VStr (lit "m1");
                      question := VStr (lit "What is a cell?");
                      question_type := VStr (lit "short_answer");
                      options := VList [];
                      correct_answer := VStr (lit "The unit of life");
                      topic := VStr (lit "Cells");
                      difficulty := Level MEDIUM;
                      created_at := VDatetime 0 |}
                   question_q1 w0 _ _ (or_intror _)));
    reflexivity.
Defined.

(** A document as the store hands it out, with the [_id] it added and no
    [id]: it is loaded, and the question's [id] is the text of the
    [_id]. *)
Example document_with_object_id_is_loaded :
  exists q,
    from_dict env_idle
      ((lit "_id", VStr (lit "65f0c2")) :: skipn 1 question_q1) w0
    = (Ret q, w0)
    /\ id q = VStr (lit "65f0c2")
    /\ material_id q = VStr (lit "m1").
Proof. eexists. repeat split. Qed.

End ModelFacts.

(* ===================================================================== *)
(** * Properties of the reply of [/summarize] *)
(* ===================================================================== *)

Module CommandFacts.
Import Py Prompts World Summarization PipelineTerms StudyCommands.
Import SummarizationFacts PipelineFacts.
#[local] Open Scope py_scope.

(** ** Joined lines *)

Lemma join_head_length (p : str) (rest : list str) :
  len p <= len (join [NEWLINE] (p :: rest)).
Proof.
  destruct rest as [|q rest]; [cbn [join]; lia|].
  change (join [NEWLINE] (p :: q :: rest))
    with (p ++ [NEWLINE] ++ join [NEWLINE] (q :: rest)).
  rewrite !len_app. pose proof (len_nonneg (join [NEWLINE] (q :: rest))).
  pose proof (len_nonneg [NEWLINE]). lia.
Qed.

Lemma join_snoc_length (group : list str) (p : str) :
  group <> [] ->
  len (join [NEWLINE] (group ++ [p]))
  = len (join [NEWLINE] group) + 1 + len p.
Proof.
  induction group as [|x group IH]; [congruence|]. intros _.
  destruct group as [|y group].
  - change (join [NEWLINE] ([x] ++ [p])) with (x ++ [NEWLINE] ++ p).
    change (join [NEWLINE] [x]) with x.
    rewrite !len_app. change (len [NEWLINE]) with 1. lia.
  - change (join [NEWLINE] ((x :: y :: group) ++ [p]))
      with (x ++ [NEWLINE] ++ join [NEWLINE] ((y :: group) ++ [p])).
    change (join [NEWLINE] (x :: y :: group))
      with (x ++ [NEWLINE] ++ join [NEWLINE] (y :: group)).
    rewrite !len_app, IH by discriminate. change (len [NEWLINE]) with 1. lia.
Qed.

Lemma number_fields_snoc (groups : list (list str)) (group : list str) :
  forall n,
    number_fields n (groups ++ [group])
    = number_fields n groups
      ++ [points_field (n + List.length groups) group].
Proof.
  induction groups as [|g groups IH]; intros n; cbn [app number_fields].
  - now rewrite Nat.add_0_r.
  - rewrite IH. cbn [List.length]. now rewrite Nat.add_succ_r.
Qed.

(** ** One point *)

Lemma shown_length (point : str) : 2 <= len (shown point) <= 1002.
Proof.
  unfold shown. rewrite len_app. change (len [BULLET; SPACE]) with 2.
  destruct (1000 <? len point) eqn:E.
  - rewrite len_app, len_ellipsis.
    pose proof (slice_to_length 997 point ltac:(lia)).
    pose proof (len_nonneg (slice None (Some 997) point)). lia.
  - apply Z.ltb_ge in E. pose proof (len_nonneg point). lia.
Qed.

Section Fields.
Variable format_value : value -> str.

Lemma add_point_str (st : split_state) (point : str) :
  add_point format_value st (VStr point)
  = if FIELD_LIMIT <? current_length st + len (shown point) + 1
    then Ret {| fields := fields st ++ [close_field st];
                current_field := [shown point];
                current_length := len (shown point);
                field_count := field_count st + 1 |}
    else Ret {| fields := fields st;
                current_field := current_field st ++ [shown point];
                current_length := current_length st + len (shown point) + 1;
                field_count := field_count st |}.
Proof.
  unfold add_point, shorten, shown. cbn [vlen slice_to].
  destruct (1000 <? len point); reflexivity.
Qed.

Lemma add_point_invariant st groups (point : str) :
  split_invariant st groups ->
  exists st' groups',
    add_point format_value st (VStr point) = Ret st'
    /\ split_invariant st' groups'
    /\ List.concat groups' ++ current_field st'
       = (List.concat groups ++ current_field st) ++ [shown point].
Proof.
  intros (Hfields & Hcount & Hfits & Hall & Hempty & Hfull).
  rewrite add_point_str.
  pose proof (shown_length point) as Hshown. unfold FIELD_LIMIT in *.
  destruct (1024 <? current_length st + len (shown point) + 1) eqn:E.
  - apply Z.ltb_lt in E.
    assert (Hne : current_field st <> []).
    { intros Hnil. rewrite (Hempty Hnil) in E. lia. }
    destruct (Hfull Hne) as [Hjoin Hlimit].
    exists {| fields := fields st ++ [close_field st];
              current_field := [shown point];
              current_length := len (shown point);
              field_count := field_count st + 1 |},
           (groups ++ [current_field st]).
    split; [reflexivity|]. split.
    + unfold split_invariant, FIELD_LIMIT.
      cbn [fields current_field current_length field_count].
      split; [|split; [|split; [|split; [|split]]]].
      * rewrite number_fields_snoc, Hfields. unfold close_field, points_field.
        now rewrite Hcount.
      * rewrite Hcount, length_app. cbn [List.length]. lia.
      * apply Forall_app. split; [exact Hfits|].
        constructor; [|constructor]. unfold fits, FIELD_LIMIT.
        split; [exact Hne|]. split; [|lia].
        destruct (current_field st) as [|p rest]; [congruence|].
        pose proof (join_head_length p rest).
        inversion Hall; subst. lia.
      * constructor; [lia|constructor].
      * discriminate.
      * intros _. cbn [join]. lia.
    + rewrite concat_app. cbn [List.concat]. now rewrite app_nil_r.
  - apply Z.ltb_ge in E.
    exists {| fields := fields st;
              current_field := current_field st ++ [shown point];
              current_length := current_length st + len (shown point) + 1;
              field_count := field_count st |},
           groups.
    split; [reflexivity|]. split.
    + unfold split_invariant, FIELD_LIMIT.
      cbn [fields current_field current_length field_count].
      split; [exact Hfields|]. split; [exact Hcount|].
      split; [exact Hfits|]. split; [|split].
      * apply Forall_app. split; [exact Hall|]. constructor; [lia|constructor].
      * intros Hnil. apply app_eq_nil in Hnil. destruct Hnil; discriminate.
      * intros _. destruct (current_field st) as [|p rest] eqn:Ecf.
        -- rewrite (Hempty eq_refl). cbn [app join]. lia.
        -- destruct (Hfull ltac:(discriminate)) as [Hjoin Hlimit].
           rewrite join_snoc_length by discriminate. lia.
    + cbn [current_field]. now rewrite app_assoc.
Qed.

Lemma split_points_invariant (points : list str) :
  forall st groups,
    split_invariant st groups ->
    exists st' groups',
      split_points format_value st (map VStr points) = Ret st'
      /\ split_invariant st' groups'
      /\ List.concat groups' ++ current_field st'
         = (List.concat groups ++ current_field st) ++ map shown points.
Proof.
  induction points as [|point points IH]; intros st groups Hinv;
    cbn [map split_points].
  - exists st, groups. split; [reflexivity|]. split; [exact Hinv|].
    now rewrite app_nil_r.
  - destruct (add_point_invariant st groups point Hinv)
      as (st1 & groups1 & Hstep & Hinv1 & Hcat1).
    rewrite Hstep.
    destruct (IH st1 groups1 Hinv1) as (st' & groups' & Hrun & Hinv' & Hcat).
    exists st', groups'. split; [exact Hrun|]. split; [exact Hinv'|].
    rewrite Hcat, Hcat1, <- app_assoc. reflexivity.
Qed.

(** X27. The fields "Key Points" of the reply.  For a summary whose points
    are strings, the loop that splits the points never fails; the fields
    it adds are named "Key Points", "Key Points (continued 2)", ... in
    order; every field value is non-empty and at most 1024 characters long
    (Discord's limit); and the fields hold, in order and without loss, all
    points, each preceded by the bullet and cut to 997 characters and an
    ellipsis when it is longer than 1000. *)
Theorem key_point_fields_fit_the_limit (summary_points : list str) :
  exists groups,
    key_point_fields format_value (map VStr summary_points)
    = Ret (number_fields 0 groups)
    /\ List.concat groups = map shown summary_points
    /\ Forall fits groups.
Proof.
  unfold key_point_fields.
  destruct (split_points_invariant summary_points
              {| fields := []; current_field := []; current_length := 0;
                 field_count := 1 |} [])
    as (st & groups & Hrun & Hinv & Hcat).
  { unfold split_invariant. cbn. repeat split; try constructor; congruence. }
  rewrite Hrun. cbn [List.concat app] in Hcat.
  destruct Hinv as (Hfields & Hcount & Hfits & Hall & Hempty & Hfull).
  destruct (current_field st) as [|p rest] eqn:Ecf; cbn [nonempty].
  - exists groups. split; [now rewrite Hfields|].
    split; [now rewrite app_nil_r in Hcat|exact Hfits].
  - exists (groups ++ [p :: rest]). split; [|split].
    + rewrite number_fields_snoc, Hfields. unfold close_field, points_field.
      now rewrite Hcount, Ecf.
    + rewrite concat_app. cbn [List.concat]. now rewrite app_nil_r.
    + apply Forall_app. split; [exact Hfits|].
      constructor; [|constructor]. unfold fits, FIELD_LIMIT in *.
      split; [discriminate|].
      destruct (Hfull ltac:(discriminate)) as [Hjoin Hlimit].
      pose proof (join_head_length p rest).
      inversion Hall; subst. split; lia.
Qed.

End Fields.

(** ** The reply and the pipeline *)

Section Replies.
Variable env : environment.
Variable format_value : value -> str.

(** X28. A document too short to summarize is still presented as a
    summary.  For a document of fewer than 100 characters (the command
    lets through anything of 50 characters or more), [summarize_document]
    returns [success = False] with the placeholder line, and the reply is
    an embed whose only field is "Key Points" with that placeholder as its
    one bullet: the command never reads [success]. *)
Theorem too_short_document_is_presented_as_summary
    (document_text : str) (max_points : Z) (model : str)
    (validation : bool) (w : world) :
  len document_text < 100 ->
  exists r,
    summarize_document env document_text max_points model validation w
    = (Ret r, w)
    /\ success r = false
    /\ summary_reply format_value validation r
       = Embed [(KeyPoints,
                 PointsText ([BULLET; SPACE] ++ TOO_SHORT_SUMMARY))].
Proof.
  intros Hlen. rewrite summarize_document_stages.
  apply Z.ltb_lt in Hlen. rewrite Hlen.
  exists too_short_result. split; [reflexivity|]. split; reflexivity.
Qed.



End Replies.

(** ** Concrete runs *)

Import Scenario Cases.

Lemma too_short_document_is_presented_as_summary_witness :
  exists r,
    summarize_document env_seven doc99 10 model true w0 = (Ret r, w0)
    /\ success r = false
    /\ summary_reply (fun _ => []) true r
       = Embed [(KeyPoints,
                 PointsText ([BULLET; SPACE] ++ TOO_SHORT_SUMMARY))].
Proof.
  refine (too_short_document_is_presented_as_summary env_seven (fun _ => [])
            doc99 10 model true w0 _).
  by_computation.
Defined.



(** Three points of 600 characters make three fields. *)
Example three_long_points_make_three_fields :
  key_point_fields (fun _ => [])
    (map VStr [repeat 97%N 600; repeat 98%N 600; repeat 99%N 600])
  = Ret [ (KeyPoints, PointsText (shown (repeat 97%N 600)));
          (KeyPointsContinued 2, PointsText (shown (repeat 98%N 600)));
          (KeyPointsContinued 3, PointsText (shown (repeat 99%N 600))) ].
Proof. by_computation. Qed.

End CommandFacts.

(* ===================================================================== *)
(** * Further concrete runs of the QA loop *)
(* ===================================================================== *)

Module StoreRuns.
Import Py Prompts World Models QADataset Database PipelineTerms StoreTerms.
Import Scenario Cases.
Import StoreFacts LoadingFacts GenerationFacts.

Ltac by_computation :=
  first [ reflexivity | discriminate
        | vm_compute; first [ reflexivity | discriminate
                            | intro; discriminate ] ].

Lemma feedback_rewrites_only_quality_metrics_witness :
  exists w' doc',
    record_question_feedback env_idle (lit "q1") (lit "u1") true (Some true)
      None None (with_store [question_q1] [])
    = (Ret (lit "uuid-0"), w')
    /\ questions w' = [doc']
    /\ dict_get (lit "quality_metrics") doc'
       = Some (VDict [ (lit "accuracy", VFloat 1%float);
                       (lit "helpfulness", VFloat 1%float);
                       (lit "total_attempts", VInt 1);
                       (lit "updated_at", VDatetime 11) ])
    /\ (forall k, k <> lit "quality_metrics" ->
          dict_get k doc' = dict_get k question_q1).
Proof.
  refine (feedback_rewrites_only_quality_metrics env_idle (lit "q1")
            (lit "u1") true (Some true) None None
            (with_store [question_q1] []) [] [] question_q1 _ _ _);
    by_computation.
Defined.

Lemma evaluation_without_feedback_changes_nothing_witness :
  evaluate_and_update_questions env_idle (lit "m1") 0.3%float
    (with_store [question_q1] [])
  = (Ret {| total_questions := 1; removed := 0; updated := 0;
            no_action := 1 |},
     with_store [question_q1] []).
Proof.
  refine (evaluation_without_feedback_changes_nothing env_idle (lit "m1")
            0.3%float (with_store [question_q1] []) _).
  repeat constructor. exists (lit "q1"). split; reflexivity.
Defined.

Lemma low_quality_unhelpful_question_is_removed_witness :
  process_question env_idle (lit "m1") 0.3%float stats0
    (question_q1, poor_records) (with_store [question_q1] poor_records)
  = (Ret (count_removed stats0),
     set_changelog
       (set_clock
          (set_uuids
             (set_questions (with_store [question_q1] poor_records)
                (delete_first (VStr (lit "q1"))
                   (questions (with_store [question_q1] poor_records))))
             1)
          11)
       (changelog (with_store [question_q1] poor_records)
        ++ [entry_at env_idle (with_store [question_q1] poor_records)
              (VStr (lit "q1")) (lit "m1") "removed"
              (RemovedLowQuality (quality_score poor_records)) question_q1
              None])).
Proof.
  refine (low_quality_unhelpful_question_is_removed env_idle (lit "m1")
            0.3%float stats0 question_q1 (VStr (lit "q1")) poor_records
            (with_store [question_q1] poor_records) _ _ _ (or_introl _));
    by_computation.
Defined.

Lemma failed_improvement_changes_nothing_witness :
  process_question env_down (lit "m1") 0.3%float stats0
    (question_q1, mixed_records) (with_store [question_q1] mixed_records)
  = (Raise backend_down,
     set_calls (with_store [question_q1] mixed_records)
       (calls (with_store [question_q1] mixed_records)
        ++ [improvement_request
              (improvement_prompt question_q1 mixed_records)])).
Proof.
  refine (proj1 (failed_improvement_changes_nothing env_down (lit "m1")
                   0.3%float stats0 question_q1 (VStr (lit "q1"))
                   mixed_records (with_store [question_q1] mixed_records)
                   _ _ _ _ _ _) backend_down _); by_computation.
Defined.

Lemma feedback_makes_questions_unloadable_witness :
  exists feedback_id w1 e w2,
    record_question_feedback env_idle (lit "q1") (lit "u1") true (Some true)
      None None (with_store [question_q1] []) = (Ret feedback_id, w1)
    /\ exc_type e = "TypeError"%string
    /\ calls w2 = calls (with_store [question_q1] [])
    /\ (forall env',
          get_questions_by_material env' (lit "m1") w1 = (Raise e, w2))
    /\ (known_material (lit "m1") (with_store [question_q1] []) = true ->
        forall env' num_examples,
          generate_adversarial_examples env' (lit "m1") num_examples true w1
          = (Raise e, w2)).
Proof.
  refine (feedback_makes_questions_unloadable env_idle (lit "m1") (lit "q1")
            (lit "u1") true (Some true) None None
            (with_store [question_q1] []) [] [] question_q1 _ _ _ _ _);
    by_computation.
Defined.

Lemma second_adversarial_run_raises_witness :
  exists e w2,
    exc_type e = "TypeError"%string
    /\ calls w2 = calls (snd adversarial_run)
    /\ (forall env',
          get_questions_by_material env' (lit "m1") (snd adversarial_run)
          = (Raise e, w2))
    /\ forall env' num_examples',
         generate_adversarial_examples env' (lit "m1") num_examples' true
           (snd adversarial_run)
         = (Raise e, w2).
Proof.
  refine (second_adversarial_run_raises env_adversarial (lit "m1") 1 false w0
            (snd adversarial_run) adversarial_questions _ _ _);
    by_computation.
Defined.

Lemma improvement_keeps_identity_witness :
  exists update_data r,
    questions (snd improvement_run)
    = update_first (dget question_q1 "id" VNone) update_data
        (questions (with_store [question_q1] mixed_records))
    /\ calls (snd improvement_run)
       = calls (with_store [question_q1] mixed_records) ++ [r]
    /\ Forall (fun kv => In (fst kv) improvable_keys) update_data
    /\ (is_multiple_choice (dget question_q1 "question_type" VNone) = false ->
        dict_get (lit "options") update_data = None)
    /\ (forall k doc,
          ~ In k improvable_keys ->
          dict_get k (dict_update doc update_data) = dict_get k doc).
Proof.
  refine (improvement_keeps_identity env_improve question_q1 (lit "m1")
            mixed_records (with_store [question_q1] mixed_records)
            (snd improvement_run) _).
  by_computation.
Defined.

Lemma unreadable_adversarial_answer_stores_nothing_witness :
  generate_adversarial_examples env_no_list (lit "m1") 3 false w0
  = (Ret [],
     set_calls w0 (calls w0 ++ [adversarial_request (from_scratch_prompt 3)])).
Proof.
  refine (unreadable_adversarial_answer_stores_nothing env_no_list (lit "m1")
            3 w0 (lit "I cannot produce questions for this material.")
            _ _ (or_introl _)); by_computation.
Defined.

Lemma partial_adversarial_failure_leaves_log_entries_witness :
  exists w' entries,
    generate_adversarial_examples env_partial (lit "m1") 2 false w0
    = (Ret [], w')
    /\ questions w' = questions w0
    /\ calls w' = calls w0 ++ [adversarial_request (from_scratch_prompt 2)]
    /\ changelog w' = changelog w0 ++ entries
    /\ len entries = len [VDict [ (lit "question",
                                   VStr (lit "Why do cells divide?")) ]]
    /\ Forall (fun e => action e = "created"%string
                        /\ log_material_id e = lit "m1") entries.
Proof.
  refine (partial_adversarial_failure_leaves_log_entries env_partial
            (lit "m1") 2 w0 partial_text partial_text
            [VDict [ (lit "question", VStr (lit "Why do cells divide?")) ]]
            [] (VInt 7) _ _ _ _ _ _); by_computation.
Defined.

Lemma one_quiz_call_per_question_type_witness :
  calls (snd quiz_run)
  = calls w0
    ++ quiz_requests (lit "medium") VNone
         (split_counts (3 / len two_types) (3 mod len two_types) 0 two_types).
Proof.
  refine (one_quiz_call_per_question_type env_quiz (lit "m1") 3 two_types
            (lit "medium") VNone w0 (snd quiz_run) quiz_made _ _).
  - repeat constructor; cbn; intuition discriminate.
  - vm_compute. reflexivity.
Defined.

Lemma create_questions_batch_assigns_missing_ids_witness :
  create_questions_batch env_idle [question_without_id; question_with_id] w0
  = (Ret (assign_ids env_idle (uuids w0)
            [question_without_id; question_with_id],
          map id (assign_ids env_idle (uuids w0)
                    [question_without_id; question_with_id])),
     set_questions
       (set_uuids w0
          (uuids w0 + missing_ids [question_without_id; question_with_id]))
       (questions w0 ++ batch_documents)).
Proof.
  refine (proj1 (create_questions_batch_assigns_missing_ids env_idle
                   [question_without_id; question_with_id] batch_documents
                   w0 _)).
  repeat constructor.
Defined.

(** The ids of the batch: the first question got the first uuid, the
    second kept its own. *)
Example batch_ids :
  map id (assign_ids env_idle 0 [question_without_id; question_with_id])
  = [VStr (lit "uuid-0"); VStr (lit "q7")].
Proof. reflexivity. Qed.

End StoreRuns.
